(** * ReadGuard: the challenge-response protocol of [src/main.py]

    A shallow embedding of the proof-of-reading gate: the salted answer
    commitment ([compute_hash]), the hidden metadata codec
    ([create_hidden_metadata], [extract_metadata]), the reply parser and the
    two entry points [run_generate_mode] and [run_verify_mode], together
    with the parts of [github_client.py] and [llm_client.py] they call.

    Python text ([str]) is a sequence of Unicode code points; it is modelled
    as a list of numbers.  The library routines the program relies on
    ([str.strip], the two regular expressions, [json.loads], [json.dumps],
    [str.encode]) are written out as functions below; the ones that depend on
    tables outside the repository (the SHA-256 digest, the case mapping of
    non-ASCII letters, [repr]) are Variables of the section [Program]. *)

From Stdlib Require Import List String Ascii NArith ZArith Bool Lia DecimalString.
Import ListNotations.
Local Open Scope N_scope.

(** ** Text *)

Abbreviation codepoint := N (only parsing).
Definition pystr := list codepoint.

(** An ASCII literal as Python text. *)
Definition lit (s : string) : pystr :=
  map N_of_ascii (list_ascii_of_string s).
Arguments lit s%_string.

Fixpoint str_eqb (a b : pystr) : bool :=
  match a, b with
  | [], [] => true
  | x :: a', y :: b' => (x =? y) && str_eqb a' b'
  | _, _ => false
  end.

(** [str.isspace] on one character, which is also the class [\s] of [re] on
    text patterns: the ASCII blanks and separators, then the Unicode spaces. *)
Definition is_space (c : codepoint) : bool :=
  ((9 <=? c) && (c <=? 13)) || ((28 <=? c) && (c <=? 32))
  || (c =? 133) || (c =? 160) || (c =? 5760)
  || ((8192 <=? c) && (c <=? 8202))
  || (c =? 8232) || (c =? 8233) || (c =? 8239) || (c =? 8287) || (c =? 12288).

Fixpoint str_lstrip (s : pystr) : pystr :=
  match s with
  | c :: s' => if is_space c then str_lstrip s' else s
  | [] => []
  end.

Definition str_rstrip (s : pystr) : pystr := rev (str_lstrip (rev s)).

(** [s.strip()] *)
Definition str_strip (s : pystr) : pystr := str_rstrip (str_lstrip s).

(** [s[:n]] *)
Definition str_slice_to (n : N) (s : pystr) : pystr := firstn (N.to_nat n) s.

(** [s.startswith(p)], returning what follows the prefix. *)
Fixpoint skip_prefix (p s : pystr) : option pystr :=
  match p, s with
  | [], _ => Some s
  | a :: p', b :: s' => if a =? b then skip_prefix p' s' else None
  | _ :: _, [] => None
  end.

(** Decimal and hexadecimal numerals. *)
Definition str_of_Z (z : Z) : pystr := lit (NilZero.string_of_int (Z.to_int z)).

Definition hex_digit (d : N) : codepoint := if d <? 10 then 48 + d else 87 + d.

Definition hex_value (c : codepoint) : option N :=
  if (48 <=? c) && (c <=? 57) then Some (c - 48)
  else if (97 <=? c) && (c <=? 102) then Some (c - 87)
  else if (65 <=? c) && (c <=? 70) then Some (c - 55)
  else None.

Definition is_digit (c : codepoint) : bool := (48 <=? c) && (c <=? 57).

(** ** Exceptions and results *)

Inductive exn :=
| JSONDecodeError | AttributeError | KeyError | TypeError | ValueError
| UnicodeEncodeError | RecursionError.

Inductive result (A : Type) :=
| Ok (a : A)
| Err (e : exn).
Arguments Ok {A} a.
Arguments Err {A} e.

(** [s.encode()]: UTF-8, which refuses the surrogate code points. *)
Definition is_surrogate (c : codepoint) : bool := (55296 <=? c) && (c <=? 57343).

Definition utf8_char (c : codepoint) : list N :=
  if c <? 128 then [c]
  else if c <? 2048 then [192 + c / 64; 128 + c mod 64]
  else if c <? 65536 then
    [224 + c / 4096; 128 + (c / 64) mod 64; 128 + c mod 64]
  else
    [240 + c / 262144; 128 + (c / 4096) mod 64; 128 + (c / 64) mod 64;
     128 + c mod 64].

Fixpoint str_encode (s : pystr) : result (list N) :=
  match s with
  | [] => Ok []
  | c :: s' =>
      if is_surrogate c then Err UnicodeEncodeError
      else match str_encode s' with
           | Ok b => Ok (utf8_char c ++ b)
           | Err e => Err e
           end
  end.

(** ** Python values, as far as JSON produces them *)

(** A float is kept as the decimal numeral it was read from,
    [mantissa * 10 ^ exponent] with a sign; Python rounds it to binary64,
    and the program only ever observes whether the result is zero. *)
Inductive pyfloat :=
| FNaN
| FInf (negative : bool)
| FDec (negative : bool) (mantissa : N) (exponent : Z).

#[warnings="-register-all"]
Inductive pyval :=
| PNone
| PBool (b : bool)
| PInt (z : Z)
| PFloat (f : pyfloat)
| PStr (s : pystr)
| PList (l : list pyval)
| PDict (d : list (pystr * pyval)).

Definition pydict := list (pystr * pyval).

(** Rounded to nearest-even, a decimal is zero when it is at most half the
    least subnormal, [2 ^ -1075]. *)
Definition float_is_zero (f : pyfloat) : bool :=
  match f with
  | FDec _ m e =>
      (m =? 0)
      || ((e <? 0)%Z && (m * 2 ^ 1075 <=? 10 ^ Z.to_N (- e)))
  | _ => false
  end.

(** Truth value of an object in a condition. *)
Definition truthy (v : pyval) : bool :=
  match v with
  | PNone => false
  | PBool b => b
  | PInt z => negb (z =? 0)%Z
  | PFloat f => negb (float_is_zero f)
  | PStr s => match s with [] => false | _ => true end
  | PList l => match l with [] => false | _ => true end
  | PDict d => match d with [] => false | _ => true end
  end.

(** [d.get(k)], [d[k]] and [d[k] = v] on a [dict], which keeps its keys in
    insertion order. *)
Fixpoint dict_lookup (d : pydict) (k : pystr) : option pyval :=
  match d with
  | [] => None
  | (k', v) :: d' => if str_eqb k' k then Some v else dict_lookup d' k
  end.

Fixpoint dict_set (d : pydict) (k : pystr) (v : pyval) : pydict :=
  match d with
  | [] => [(k, v)]
  | (k', v') :: d' =>
      if str_eqb k' k then (k', v) :: d' else (k', v') :: dict_set d' k v
  end.

(** [v.get(k)]: only a [dict] has the method. *)
Definition py_get (v : pyval) (k : pystr) : result pyval :=
  match v with
  | PDict d => Ok (match dict_lookup d k with Some x => x | None => PNone end)
  | _ => Err AttributeError
  end.

(** [v[k]] with a text key. *)
Definition py_getitem (v : pyval) (k : pystr) : result pyval :=
  match v with
  | PDict d => match dict_lookup d k with Some x => Ok x | None => Err KeyError end
  | _ => Err TypeError
  end.

(** [v == s] for a text [s]. *)
Definition py_eq_str (v : pyval) (s : pystr) : bool :=
  match v with
  | PStr t => str_eqb t s
  | _ => false
  end.

(** ** [json.loads]

    The text is read in one pass into tokens, and the tokens are assembled
    with a stack of the containers still open.  A text that is not JSON is
    refused with [JSONDecodeError], and an integer of more than 4300 digits
    with [ValueError]: whichever is met first, reading from the left.
    Containers are read by recursive calls, and the interpreter raises
    [RecursionError] when its stack is used up.  The model takes the stack to
    hold while no more than [safe_nesting] containers are open at once;
    past that, whether the stack holds is for the interpreter to say. *)

Inductive token :=
| TLBrace | TRBrace | TLBracket | TRBracket | TColon | TComma
| TAtom (v : pyval).

(** Characters of a string literal read so far, latest first.  The flag marks
    a high surrogate written as [\uXXXX] that a following [\uXXXX] low
    surrogate still completes to one character. *)
Definition stracc := list (codepoint * bool).

Definition is_high_surrogate (c : codepoint) : bool := (55296 <=? c) && (c <=? 56319).
Definition is_low_surrogate (c : codepoint) : bool := (56320 <=? c) && (c <=? 57343).

Definition push_escaped (acc : stracc) (u : codepoint) : stracc :=
  match acc with
  | (hi, true) :: acc' =>
      if is_low_surrogate u
      then (65536 + ((hi - 55296) * 1024 + (u - 56320)), false) :: acc'
      else (u, is_high_surrogate u) :: acc
  | _ => (u, is_high_surrogate u) :: acc
  end.

(** Where the scanner stands inside a numeral: an optional minus sign, the
    integer part (a lone 0, or digits starting with 1 to 9), an optional
    fraction (a dot and digits) and an optional exponent (e or E, an optional
    sign, and digits). *)
Inductive numstate :=
| NSign
| NZero (neg : bool)
| NInt (neg : bool) (n : N)
| NDot (neg : bool) (m : N)
| NFrac (neg : bool) (m : N) (e : Z)
| NExp (neg : bool) (m : N) (e : Z)
| NExpSign (neg : bool) (m : N) (e : Z) (eneg : bool)
| NExpDigits (neg : bool) (m : N) (e : Z) (eneg : bool) (x : N).

Definition is_exp_mark (c : codepoint) : bool := (c =? 101) || (c =? 69).

Definition num_step (ns : numstate) (c : codepoint) : option numstate :=
  let d := c - 48 in
  match ns with
  | NSign =>
      if c =? 48 then Some (NZero true)
      else if is_digit c then Some (NInt true d) else None
  | NZero neg =>
      if c =? 46 then Some (NDot neg 0)
      else if is_exp_mark c then Some (NExp neg 0 0) else None
  | NInt neg n =>
      if is_digit c then Some (NInt neg (10 * n + d))
      else if c =? 46 then Some (NDot neg n)
      else if is_exp_mark c then Some (NExp neg n 0) else None
  | NDot neg m =>
      if is_digit c then Some (NFrac neg (10 * m + d) (-1)) else None
  | NFrac neg m e =>
      if is_digit c then Some (NFrac neg (10 * m + d) (e - 1))
      else if is_exp_mark c then Some (NExp neg m e) else None
  | NExp neg m e =>
      if c =? 43 then Some (NExpSign neg m e false)
      else if c =? 45 then Some (NExpSign neg m e true)
      else if is_digit c then Some (NExpDigits neg m e false d) else None
  | NExpSign neg m e eneg =>
      if is_digit c then Some (NExpDigits neg m e eneg d) else None
  | NExpDigits neg m e eneg x =>
      if is_digit c then Some (NExpDigits neg m e eneg (10 * x + d)) else None
  end.

Definition signed (neg : bool) (n : N) : Z :=
  if neg then (- Z.of_N n)%Z else Z.of_N n.

Definition num_value (ns : numstate) : option pyval :=
  match ns with
  | NZero _ => Some (PInt 0)
  | NInt neg n => Some (PInt (signed neg n))
  | NFrac neg m e => Some (PFloat (FDec neg m e))
  | NExpDigits neg m e eneg x => Some (PFloat (FDec neg m (e + signed eneg x)))
  | _ => None
  end.

(** The numeral the scanner has read when it stops inside one: the longest
    part that is a numeral by itself.  A dot or an exponent mark that no
    digit follows is left to whatever reads on. *)
Definition num_prefix (ns : numstate) : option pyval :=
  match ns with
  | NSign => None
  | NDot neg m => Some (PInt (signed neg m))
  | NExp neg m e | NExpSign neg m e _ =>
      Some (if (e =? 0)%Z then PInt (signed neg m) else PFloat (FDec neg m e))
  | _ => num_value ns
  end.

Inductive lexmode :=
| LIdle
| LWord (rest : pystr) (v : pyval)
| LNum (ns : numstate)
| LStr (acc : stracc)
| LEsc (acc : stracc)
| LHex (acc : stracc) (k : nat) (u : N).

Definition lexstate := (lexmode * list token)%type.

Definition lex_idle (c : codepoint) (toks : list token) : option lexstate :=
  if (c =? 32) || (c =? 9) || (c =? 10) || (c =? 13) then Some (LIdle, toks)
  else if c =? 123 then Some (LIdle, TLBrace :: toks)
  else if c =? 125 then Some (LIdle, TRBrace :: toks)
  else if c =? 91 then Some (LIdle, TLBracket :: toks)
  else if c =? 93 then Some (LIdle, TRBracket :: toks)
  else if c =? 58 then Some (LIdle, TColon :: toks)
  else if c =? 44 then Some (LIdle, TComma :: toks)
  else if c =? 34 then Some (LStr [], toks)
  else if c =? 45 then Some (LNum NSign, toks)
  else if c =? 48 then Some (LNum (NZero false), toks)
  else if is_digit c then Some (LNum (NInt false (c - 48)), toks)
  else if c =? 116 then Some (LWord (lit "rue") (PBool true), toks)
  else if c =? 102 then Some (LWord (lit "alse") (PBool false), toks)
  else if c =? 110 then Some (LWord (lit "ull") PNone, toks)
  else if c =? 78 then Some (LWord (lit "aN") (PFloat FNaN), toks)
  else if c =? 73 then Some (LWord (lit "nfinity") (PFloat (FInf false)), toks)
  else None.

Definition unescape (c : codepoint) : option codepoint :=
  if c =? 34 then Some 34 else if c =? 92 then Some 92
  else if c =? 47 then Some 47 else if c =? 98 then Some 8
  else if c =? 102 then Some 12 else if c =? 110 then Some 10
  else if c =? 114 then Some 13 else if c =? 116 then Some 9
  else None.

Definition lex_step (st : lexstate) (c : codepoint) : option lexstate :=
  let '(mode, toks) := st in
  match mode with
  | LIdle => lex_idle c toks
  | LWord [] _ => None
  | LWord (x :: rest) v =>
      if c =? x
      then match rest with
           | [] => Some (LIdle, TAtom v :: toks)
           | _ => Some (LWord rest v, toks)
           end
      else None
  | LNum ns =>
      match num_step ns c with
      | Some ns' => Some (LNum ns', toks)
      | None =>
          match ns with
          | NSign =>
              if c =? 73
              then Some (LWord (lit "nfinity") (PFloat (FInf true)), toks)
              else None
          | _ =>
              match num_value ns with
              | Some v => lex_idle c (TAtom v :: toks)
              | None => None
              end
          end
      end
  | LStr acc =>
      if c =? 34 then Some (LIdle, TAtom (PStr (rev (map fst acc))) :: toks)
      else if c =? 92 then Some (LEsc acc, toks)
      else if c <? 32 then None
      else Some (LStr ((c, false) :: acc), toks)
  | LEsc acc =>
      if c =? 117 then Some (LHex acc 4%nat 0, toks)
      else match unescape c with
           | Some x => Some (LStr ((x, false) :: acc), toks)
           | None => None
           end
  | LHex acc k u =>
      match hex_value c, k with
      | Some d, 1%nat => Some (LStr (push_escaped acc (16 * u + d)), toks)
      | Some d, S k' => Some (LHex acc k' (16 * u + d), toks)
      | _, _ => None
      end
  end.

Fixpoint lex_run (st : lexstate) (s : pystr) : option lexstate :=
  match s with
  | [] => Some st
  | c :: s' =>
      match lex_step st c with
      | Some st' => lex_run st' s'
      | None => None
      end
  end.

Definition lex_finish (st : lexstate) : option (list token) :=
  let '(mode, toks) := st in
  match mode with
  | LIdle => Some (rev toks)
  | LNum ns =>
      match num_value ns with
      | Some v => Some (rev (TAtom v :: toks))
      | None => None
      end
  | _ => None
  end.

(** The same pass, giving the state it stops in and whether the text was
    read to its end. *)
Fixpoint lex_scan (st : lexstate) (s : pystr) : lexstate * bool :=
  match s with
  | [] => (st, true)
  | c :: s' =>
      match lex_step st c with
      | Some st' => lex_scan st' s'
      | None => (st, false)
      end
  end.

(** The tokens read, latest first, when the pass stops short. *)
Definition lex_stalled (st : lexstate) : list token :=
  let '(mode, toks) := st in
  match mode with
  | LNum ns =>
      match num_prefix ns with
      | Some v => TAtom v :: toks
      | None => toks
      end
  | _ => toks
  end.

(** The tokens of a text, and whether the whole text was tokens. *)
Definition lex (s : pystr) : list token * bool :=
  let '(st, to_the_end) := lex_scan (LIdle, []) s in
  if to_the_end
  then match lex_finish st with
       | Some ts => (ts, true)
       | None => (rev (lex_stalled st), false)
       end
  else (rev (lex_stalled st), false).

(** A container still open: an array with the items read so far (latest
    first), or an object with its members and the key awaiting its value. *)
Inductive frame :=
| InArr (items : list pyval)
| InObj (d : pydict) (k : pystr).

Inductive pstate :=
| SValue (stk : list frame)
| SArrStart (stk : list frame)
| SArrNext (items : list pyval) (stk : list frame)
| SObjStart (stk : list frame)
| SObjKey (d : pydict) (stk : list frame)
| SObjColon (d : pydict) (k : pystr) (stk : list frame)
| SObjNext (d : pydict) (stk : list frame)
| SDone (v : pyval).

(** A finished value goes to the innermost open container. *)
Definition deliver (v : pyval) (stk : list frame) : pstate :=
  match stk with
  | [] => SDone v
  | InArr items :: stk' => SArrNext (v :: items) stk'
  | InObj d k :: stk' => SObjNext (dict_set d k v) stk'
  end.

(** [sys.get_int_max_str_digits()], as the interpreter starts. *)
Definition int_max_str_digits : N := 4300.

(** An integer whose numeral has more digits than that.  A number of fewer
    than 14285 bits is below [10 ^ 4300]. *)
Definition over_digit_limit (v : pyval) : bool :=
  match v with
  | PInt z =>
      if N.size (Z.abs_N z) <? 14285 then false
      else 10 ^ int_max_str_digits <=? Z.abs_N z
  | _ => false
  end.

(** A value is expected and [t] comes. *)
Definition parse_value (t : token) (stk : list frame) : result pstate :=
  match t with
  | TAtom v =>
      if over_digit_limit v then Err ValueError else Ok (deliver v stk)
  | TLBracket => Ok (SArrStart stk)
  | TLBrace => Ok (SObjStart stk)
  | _ => Err JSONDecodeError
  end.

Definition parse_step (st : pstate) (t : token) : result pstate :=
  match st with
  | SValue stk => parse_value t stk
  | SArrStart stk =>
      match t with
      | TRBracket => Ok (deliver (PList []) stk)
      | _ => parse_value t (InArr [] :: stk)
      end
  | SArrNext items stk =>
      match t with
      | TComma => Ok (SValue (InArr items :: stk))
      | TRBracket => Ok (deliver (PList (rev items)) stk)
      | _ => Err JSONDecodeError
      end
  | SObjStart stk =>
      match t with
      | TRBrace => Ok (deliver (PDict []) stk)
      | TAtom (PStr k) => Ok (SObjColon [] k stk)
      | _ => Err JSONDecodeError
      end
  | SObjKey d stk =>
      match t with
      | TAtom (PStr k) => Ok (SObjColon d k stk)
      | _ => Err JSONDecodeError
      end
  | SObjColon d k stk =>
      match t with
      | TColon => Ok (SValue (InObj d k :: stk))
      | _ => Err JSONDecodeError
      end
  | SObjNext d stk =>
      match t with
      | TComma => Ok (SObjKey d stk)
      | TRBrace => Ok (deliver (PDict d) stk)
      | _ => Err JSONDecodeError
      end
  | SDone _ => Err JSONDecodeError
  end.

(** The containers open in a state. *)
Definition open_containers (st : pstate) : nat :=
  match st with
  | SValue stk => List.length stk
  | SArrStart stk | SArrNext _ stk | SObjStart stk | SObjKey _ stk
  | SObjColon _ _ stk | SObjNext _ stk => S (List.length stk)
  | SDone _ => 0
  end.

(** The interpreter's recursion limit is 1000 calls, and the program is a
    few calls deep where it calls [json.loads]: a hundred containers inside
    each other are well within it. *)
Definition safe_nesting : nat := 100.

Definition is_deep (st : pstate) : bool :=
  Nat.ltb safe_nesting (open_containers st).

(** The tokens are taken one by one up to the first that is refused.  The
    flag tells whether more than [safe_nesting] containers were open at some
    point on the way. *)
Fixpoint parse_run (st : pstate) (ts : list token) : result pstate * bool :=
  match ts with
  | [] => (Ok st, false)
  | t :: ts' =>
      match parse_step st t with
      | Ok st' =>
          let '(r, deep) := parse_run st' ts' in
          (r, is_deep st' || deep)
      | Err e => (Err e, false)
      end
  end.

(** What [json.loads] gives when the stack holds: the tokens read before
    the text stops being JSON are assembled first, so that a [ValueError]
    among them comes before the text is refused. *)
Definition loads_outcome (r : result pstate) (to_the_end : bool)
    : result pyval :=
  match r with
  | Err e => Err e
  | Ok st =>
      match to_the_end, st with
      | true, SDone v => Ok v
      | _, _ => Err JSONDecodeError
      end
  end.

(** [json.loads(s)].  [stack_used_up s] tells whether the interpreter runs
    out of stack on [s]; it is asked only about a text that nests deeper
    than [safe_nesting]. *)
Definition json_loads (stack_used_up : pystr -> bool) (s : pystr)
    : result pyval :=
  let '(ts, to_the_end) := lex s in
  let '(r, deep) := parse_run (SValue []) ts in
  if deep
  then if stack_used_up s then Err RecursionError
       else loads_outcome r to_the_end
  else loads_outcome r to_the_end.

(** ** The two regular expressions *)

Definition META_OPEN : pystr := lit "<!-- readguard_meta: ".
Definition META_CLOSE : pystr := lit " -->".

(** The group [(.*?)] followed by the closing text: as few characters as
    possible, none of them a newline, up to the first place where the closing
    text stands. *)
Fixpoint lazy_group (s : pystr) : option pystr :=
  match skip_prefix META_CLOSE s with
  | Some _ => Some []
  | None =>
      match s with
      | [] => None
      | c :: s' =>
          if c =? 10 then None
          else match lazy_group s' with
               | Some g => Some (c :: g)
               | None => None
               end
      end
  end.

(** The pattern of [extract_metadata] tried at the start of [s]. *)
Definition meta_match_here (s : pystr) : option pystr :=
  match skip_prefix META_OPEN s with
  | Some r => lazy_group r
  | None => None
  end.

(** [re.search(r'<!-- readguard_meta: (.*?) -->', text)], giving [group(1)]
    of the leftmost match. *)
Fixpoint re_search_meta (text : pystr) : option pystr :=
  match meta_match_here text with
  | Some g => Some g
  | None =>
      match text with
      | [] => None
      | _ :: text' => re_search_meta text'
      end
  end.

Definition is_answer_letter (c : codepoint) : bool :=
  ((97 <=? c) && (c <=? 99)) || ((65 <=? c) && (c <=? 67)).

(** [re.match(r'/answer\s+([a-cA-C])', body)], giving [group(1)]: the
    pattern is tried at the start of [body] only.  The blanks are taken
    greedily; giving some back never helps, since a blank is not a letter. *)
Definition re_match_answer (body : pystr) : option pystr :=
  match skip_prefix (lit "/answer") body with
  | Some (c :: rest) =>
      if is_space c
      then match str_lstrip rest with
           | l :: _ => if is_answer_letter l then Some [l] else None
           | [] => None
           end
      else None
  | _ => None
  end.

(** ** The world of one invocation

    What the program reaches through [gh_client], [logger] and the language
    model's API: the pull request of the triggering event (absent when the
    event carries none), the check runs of the repository, the log, and the
    requests sent to the model.  The calls to the hosting service go through:
    a failure of the network is not part of the model. *)

Inductive loglevel := INFO | ERROR.

Record PRFile := { filename : pystr; patch : option pystr }.

Record CheckRun := {
  cr_name : pystr;
  cr_head_sha : pystr;
  cr_status : pystr;
  cr_conclusion : option pystr;
  cr_output : option pydict }.

Record PullRequest := {
  head_sha : pystr;
  pr_files : list PRFile;
  issue_comments : list pystr }.

Record World := {
  pr : option PullRequest;
  check_runs : list CheckRun;
  log : list (loglevel * pystr);
  llm_requests : list (pyval * pystr) }.

(** How a call ends: it returns, it leaves the process through [sys.exit],
    or an exception escapes. *)
Inductive outcome (A : Type) :=
| Returned (a : A)
| Exited (code : Z)
| Raised (e : exn).
Arguments Returned {A} a.
Arguments Exited {A} code.
Arguments Raised {A} e.

Definition M (A : Type) := World -> outcome A * World.

Definition ret {A} (a : A) : M A := fun w => (Returned a, w).

Definition bind {A B} (m : M A) (k : A -> M B) : M B :=
  fun w =>
    match m w with
    | (Returned a, w') => k a w'
    | (Exited c, w') => (Exited c, w')
    | (Raised e, w') => (Raised e, w')
    end.

Declare Scope prog_scope.
Delimit Scope prog_scope with prog.
Notation "x <- m ;; k" := (bind m (fun x => k))
  (at level 61, m at next level, right associativity) : prog_scope.
Notation "m ;; k" := (bind m (fun _ => k))
  (at level 61, right associativity) : prog_scope.
Local Open Scope prog_scope.

Definition raise {A} (e : exn) : M A := fun w => (Raised e, w).
Definition sys_exit {A} (code : Z) : M A := fun w => (Exited code, w).

Definition lift {A} (r : result A) : M A :=
  match r with
  | Ok a => ret a
  | Err e => raise e
  end.

(** The world with one more log record. *)
Definition logged (lvl : loglevel) (msg : pystr) (w : World) : World :=
  {| pr := pr w; check_runs := check_runs w;
     log := log w ++ [(lvl, msg)]; llm_requests := llm_requests w |}.

Definition logger (lvl : loglevel) (msg : pystr) : M unit :=
  fun w => (Returned tt, logged lvl msg w).

(** *** [github_client.py] *)

Definition get_pr_diff : M (list PRFile) :=
  fun w =>
    match pr w with
    | None => (Raised ValueError, w)
    | Some p => (Returned (pr_files p), w)
    end.

(** The world with one more comment on the pull request, if there is one. *)
Definition comment_added (body : pystr) (w : World) : World :=
  {| pr :=
       match pr w with
       | Some p =>
           Some {| head_sha := head_sha p; pr_files := pr_files p;
                   issue_comments := issue_comments p ++ [body] |}
       | None => None
       end;
     check_runs := check_runs w; log := log w;
     llm_requests := llm_requests w |}.

Definition post_comment (body : pystr) : M unit :=
  fun w =>
    match pr w with
    | None => (Raised ValueError, w)
    | Some _ => (Returned tt, comment_added body w)
    end.

Definition get_bot_comments : M (list pystr) :=
  fun w =>
    match pr w with
    | None => (Raised ValueError, w)
    | Some p => (Returned (issue_comments p), w)
    end.

(** [gh_client.pr.head.sha] *)
Definition get_head_sha : M pystr :=
  fun w =>
    match pr w with
    | None => (Raised AttributeError, w)
    | Some p => (Returned (head_sha p), w)
    end.

(** The world with one more check run. *)
Definition check_run_added (run : CheckRun) (w : World) : World :=
  {| pr := pr w; check_runs := check_runs w ++ [run]; log := log w;
     llm_requests := llm_requests w |}.

(** An argument enters [kwargs] only when it is truthy. *)
Definition create_check_run (name sha status : pystr)
    (conclusion : option pystr) (output : option pydict) : M unit :=
  fun w =>
    let run :=
      {| cr_name := name; cr_head_sha := sha; cr_status := status;
         cr_conclusion :=
           match conclusion with
           | Some (c :: s) => Some (c :: s)
           | _ => None
           end;
         cr_output :=
           match output with
           | Some (kv :: d) => Some (kv :: d)
           | _ => None
           end |} in
    (Returned tt, check_run_added run w).

(** *** [llm_client.py]

    The remote models are oracles: given the request they answer with the
    text of the completion, or with nothing when the call raises or the
    response holds no such text.  In that case [openai_error] and
    [gemini_error] give the text of the exception that is caught. *)
Record LLMClient := {
  provider : pystr;
  model : pystr;
  openai_create : pystr -> pyval -> pystr -> option pystr;
  gemini_generate : pystr -> pystr -> option pystr;
  openai_error : pystr -> pyval -> pystr -> pystr;
  gemini_error : pystr -> pystr -> pystr }.

(** The places where the program calls [json.loads]. *)
Inductive call_site := InExtractMetadata | InGenerateOpenAI | InGenerateGemini.

(** The world with one more request sent to the model. *)
Definition request_added (prompt : pyval) (diff_text : pystr) (w : World) : World :=
  {| pr := pr w; check_runs := check_runs w; log := log w;
     llm_requests := llm_requests w ++ [(prompt, diff_text)] |}.

Definition record_request (prompt : pyval) (diff_text : pystr) : M unit :=
  fun w => (Returned tt, request_added prompt diff_text w).

Definition NL : pystr := [10].
Definition DQ : pystr := [34].

(** The lines of a triple-quoted literal, each with its newline. *)
Definition unlines (ls : list pystr) : pystr :=
  flat_map (fun l => l ++ NL) ls.

Definition CHECK_NAME : pystr := lit "ReadGuard Verification".

(** Instances of the tables the program takes from the runtime, the simplest
    there are: a digest that is its own input, no case mapping beyond ASCII,
    one rendering for every value that is not text, a stack that always
    holds and one that never does past the safe nesting, and one text for
    every exception of [json.loads]. *)
Definition plain_digest (b : list N) : pystr := b.
Definition caseless (c : codepoint) : pystr := [c].
Definition opaque_repr (v : pyval) : pystr := lit "<object>".
Definition ample_stack (site : call_site) (s : pystr) : bool := false.
Definition tight_stack (site : call_site) (s : pystr) : bool := true.
Definition terse_error (s : pystr) : pystr := lit "Expecting value".

Section Program.

Set Default Proof Using "Type".

(** [hashlib.sha256(b).hexdigest()] *)
Variable sha256_hexdigest : list N -> pystr.
(** The uppercase of a character outside ASCII, from the Unicode tables. *)
Variable unicode_upper : codepoint -> pystr.
(** [repr] of a value; the program reaches it when it formats a value that
    is not text. *)
Variable py_repr : pyval -> pystr.
(** Whether the interpreter runs out of stack when [json.loads], called at
    the given place, reads the given text. *)
Variable stack_used_up : call_site -> pystr -> bool.
(** [str(e)] for the exception [e] that [json.loads] raises on a text. *)
Variable json_error_text : pystr -> pystr.

Definition char_upper (c : codepoint) : pystr :=
  if c <? 128
  then [if (97 <=? c) && (c <=? 122) then c - 32 else c]
  else unicode_upper c.

(** [s.upper()] *)
Definition str_upper (s : pystr) : pystr := flat_map char_upper s.

(** A value inside an f-string: [str(v)]. *)
Definition py_str (v : pyval) : pystr :=
  match v with
  | PStr s => s
  | _ => py_repr v
  end.

(** *** [json.dumps], with its defaults: ASCII output, [", "] and [": "]. *)

Definition hex4 (u : N) : pystr :=
  [hex_digit (u / 4096); hex_digit ((u / 256) mod 16);
   hex_digit ((u / 16) mod 16); hex_digit (u mod 16)].

Definition json_escape_char (c : codepoint) : pystr :=
  if c =? 34 then [92; 34]
  else if c =? 92 then [92; 92]
  else if c =? 10 then [92; 110]
  else if c =? 13 then [92; 114]
  else if c =? 9 then [92; 116]
  else if c =? 8 then [92; 98]
  else if c =? 12 then [92; 102]
  else if (32 <=? c) && (c <=? 126) then [c]
  else if c <? 65536 then [92; 117] ++ hex4 c
  else
    let v := c - 65536 in
    [92; 117] ++ hex4 (55296 + v / 1024) ++ [92; 117] ++ hex4 (56320 + v mod 1024).

Definition json_quote (s : pystr) : pystr :=
  DQ ++ flat_map json_escape_char s ++ DQ.

Fixpoint json_dumps (v : pyval) : pystr :=
  match v with
  | PNone => lit "null"
  | PBool true => lit "true"
  | PBool false => lit "false"
  | PInt z => str_of_Z z
  | PFloat FNaN => lit "NaN"
  | PFloat (FInf false) => lit "Infinity"
  | PFloat (FInf true) => lit "-Infinity"
  | PFloat f => py_repr (PFloat f)
  | PStr s => json_quote s
  | PList l =>
      lit "["
      ++ (fix items (l : list pyval) : pystr :=
            match l with
            | [] => []
            | [x] => json_dumps x
            | x :: l' => json_dumps x ++ lit ", " ++ items l'
            end) l
      ++ lit "]"
  | PDict d =>
      lit "{"
      ++ (fix members (d : pydict) : pystr :=
            match d with
            | [] => []
            | [(k, x)] => json_quote k ++ lit ": " ++ json_dumps x
            | (k, x) :: d' =>
                json_quote k ++ lit ": " ++ json_dumps x ++ lit ", " ++ members d'
            end) d
      ++ lit "}"
  end.

(** *** [main.py] *)

Definition compute_hash (answer salt : pyval) : result pystr :=
  match answer with
  | PStr a =>
      let answer := str_upper (str_strip a) in
      let data := answer ++ lit ":" ++ py_str salt in
      match str_encode data with
      | Ok b => Ok (sha256_hexdigest b)
      | Err e => Err e
      end
  | _ => Err AttributeError
  end.

Definition create_hidden_metadata (data : pyval) : pystr :=
  let json_str := json_dumps data in
  lit "<!-- readguard_meta: " ++ json_str ++ lit " -->".

Definition extract_metadata (text : pystr) : result pyval :=
  match re_search_meta text with
  | Some g =>
      match json_loads (stack_used_up InExtractMetadata) g with
      | Ok v => Ok v
      | Err JSONDecodeError => Ok PNone
      | Err e => Err e
      end
  | None => Ok PNone
  end.

(** *** [LLMClient.generate_question] *)

Definition quoted (s : string) : pystr := DQ ++ lit s ++ DQ.

Definition default_system_prompt (difficulty : pyval) (extra_instructions : pystr)
    : pystr :=
  NL ++ unlines
    [ lit "You are a code reviewer designed to ensure developers have read their changes.";
      lit "Generate a " ++ py_str difficulty
        ++ lit " multiple-choice question based on the provided code diff.";
      lit "The question should verify that the developer understands the specific logic changes.";
      lit "Focus on:";
      lit "- Validating new values (timeouts, constants).";
      lit "- Understanding control flow changes.";
      lit "- Identifying security implications if applicable.";
      extra_instructions;
      [];
      lit "Return ONLY a valid JSON object with this structure:";
      lit "{";
      lit "    " ++ quoted "question" ++ lit ": " ++ quoted "The question text" ++ lit ",";
      lit "    " ++ quoted "options" ++ lit ": {";
      lit "        " ++ quoted "A" ++ lit ": " ++ quoted "Option A" ++ lit ",";
      lit "        " ++ quoted "B" ++ lit ": " ++ quoted "Option B" ++ lit ",";
      lit "        " ++ quoted "C" ++ lit ": " ++ quoted "Option C";
      lit "    },";
      lit "    " ++ quoted "correct_answer" ++ lit ": " ++ quoted "B";
      lit "}" ].

(** Whatever goes wrong inside the [try] is logged, with the text of the
    exception, and becomes [None]. *)
Definition _generate_openai (c : LLMClient) (system_prompt : pyval)
    (diff_text : pystr) : M pyval :=
  record_request system_prompt diff_text ;;
  let user_content := lit "Here is the code diff:" ++ NL ++ NL ++ diff_text in
  match openai_create c (model c) system_prompt user_content with
  | Some content =>
      match json_loads (stack_used_up InGenerateOpenAI) content with
      | Ok v => ret v
      | Err _ =>
          logger ERROR (lit "OpenAI error: " ++ json_error_text content) ;;
          ret PNone
      end
  | None =>
      logger ERROR
        (lit "OpenAI error: "
           ++ openai_error c (model c) system_prompt user_content) ;;
      ret PNone
  end.

Definition _generate_gemini (c : LLMClient) (system_prompt : pyval)
    (diff_text : pystr) : M pyval :=
  record_request system_prompt diff_text ;;
  let full_prompt :=
    py_str system_prompt ++ NL ++ NL ++ lit "Here is the code diff:"
      ++ NL ++ NL ++ diff_text in
  match gemini_generate c (model c) full_prompt with
  | Some text =>
      match json_loads (stack_used_up InGenerateGemini) text with
      | Ok v => ret v
      | Err _ =>
          logger ERROR (lit "Gemini error: " ++ json_error_text text) ;;
          ret PNone
      end
  | None =>
      logger ERROR
        (lit "Gemini error: " ++ gemini_error c (model c) full_prompt) ;;
      ret PNone
  end.

Definition generate_question (c : LLMClient) (diff_text : pystr)
    (difficulty system_prompt custom_instructions : pyval) : M pyval :=
  let extra_instructions :=
    if truthy custom_instructions
    then lit "- " ++ py_str custom_instructions else [] in
  let prompt :=
    if truthy system_prompt then system_prompt
    else PStr (default_system_prompt difficulty extra_instructions) in
  if str_eqb (provider c) (lit "openai") then _generate_openai c prompt diff_text
  else if str_eqb (provider c) (lit "gemini") then _generate_gemini c prompt diff_text
  else ret PNone.

(** *** [run_generate_mode] *)

(** [inputs.get(k, default)] *)
Definition dict_get (d : pydict) (k : pystr) (default : pyval) : pyval :=
  match dict_lookup d k with
  | Some v => v
  | None => default
  end.

(** The loop over the files: a file adds to the text when its patch is
    truthy, that is present and not empty. *)
Definition add_file (diff_text : pystr) (file : PRFile) : pystr :=
  match patch file with
  | Some (c :: p) =>
      diff_text ++ lit "File: " ++ filename file ++ NL ++ (c :: p) ++ NL ++ NL
  | _ => diff_text
  end.

Definition quiz_body (question optA optB optC : pyval) (hidden : pystr) : pystr :=
  NL ++ unlines
    [ lit "## " ++ [128737; 65039] ++ lit " ReadGuard Verification";
      lit "    ";
      lit "**Proof-of-Reading Required**";
      lit "The following question has been generated based on the changes in this PR.";
      [];
      lit "**" ++ py_str question ++ lit "**";
      [];
      lit "- **A)** " ++ py_str optA;
      lit "- **B)** " ++ py_str optB;
      lit "- **C)** " ++ py_str optC;
      [];
      lit "Reply with `/answer A`, `/answer B`, or `/answer C` to unlock the merge.";
      [];
      hidden ].

(** [q_data['options'][label]] *)
Definition quiz_option (q_data : pyval) (label : pystr) : result pyval :=
  match py_getitem q_data (lit "options") with
  | Ok options => py_getitem options label
  | Err e => Err e
  end.

(** [token_hex] is the value [secrets.token_hex(16)] returns. *)
Definition run_generate_mode (llm_client : LLMClient) (inputs : pydict)
    (token_hex : pystr) : M unit :=
  logger INFO (lit "Starting Generate Mode") ;;
  files <- get_pr_diff ;;
  let diff_text := fold_left add_file files [] in
  match diff_text with
  | [] => logger INFO (lit "No diff found or no changes. Exiting.") ;; ret tt
  | _ :: _ =>
      logger INFO (lit "Querying LLM...") ;;
      q_data <- generate_question llm_client (str_slice_to 10000 diff_text)
                  (dict_get inputs (lit "difficulty") (PStr (lit "medium")))
                  (dict_get inputs (lit "system_prompt") PNone)
                  (dict_get inputs (lit "custom_instructions") PNone) ;;
      if negb (truthy q_data)
      then logger ERROR (lit "Failed to generate question.") ;; sys_exit 1
      else
        let salt := token_hex in
        correct_answer <- lift (py_getitem q_data (lit "correct_answer")) ;;
        correct_hash <- lift (compute_hash correct_answer (PStr salt)) ;;
        let metadata :=
          PDict [(lit "salt", PStr salt); (lit "hash", PStr correct_hash);
                 (lit "mode", PStr (lit "quiz"))] in
        question <- lift (py_getitem q_data (lit "question")) ;;
        optA <- lift (quiz_option q_data (lit "A")) ;;
        optB <- lift (quiz_option q_data (lit "B")) ;;
        optC <- lift (quiz_option q_data (lit "C")) ;;
        let body :=
          quiz_body question optA optB optC (create_hidden_metadata metadata) in
        post_comment body ;;
        head_sha <- get_head_sha ;;
        create_check_run CHECK_NAME head_sha (lit "completed")
          (Some (lit "action_required"))
          (Some [(lit "title", PStr (lit "ReadGuard Quiz"));
                 (lit "summary",
                  PStr (lit "Please answer the quiz in the PR comments to proceed."))]) ;;
        logger INFO (lit "Quiz posted and check run created.")
  end.

(** *** [run_verify_mode] *)

(** [v.strip()] on a value: only text has the method. *)
Definition py_strip (v : pyval) : result pystr :=
  match v with
  | PStr s => Ok (str_strip s)
  | _ => Err AttributeError
  end.

(** The loop of lines 141-148 over the comments, newest first: it stops at
    the first body whose metadata is truthy and answers ["quiz"] to
    [.get('mode')], and gives that body with its metadata. *)
Fixpoint find_quiz_comment (comments : list pystr)
    : result (option (pystr * pyval)) :=
  match comments with
  | [] => Ok None
  | body :: older =>
      match extract_metadata body with
      | Err e => Err e
      | Ok meta =>
          if truthy meta
          then match py_get meta (lit "mode") with
               | Err e => Err e
               | Ok mode =>
                   if py_eq_str mode (lit "quiz")
                   then Ok (Some (body, meta))
                   else find_quiz_comment older
               end
          else find_quiz_comment older
      end
  end.

(** The comparison of lines 158 and 162: the hash of the claimed answer under
    the stored salt, against the stored hash. *)
Definition answer_matches (user_answer : pystr) (salt expected_hash : pyval)
    : result bool :=
  match compute_hash (PStr user_answer) salt with
  | Ok computed_hash => Ok (py_eq_str expected_hash computed_hash)
  | Err e => Err e
  end.

(** [event] is the JSON document of the triggering event, as read from the
    file named by [GITHUB_EVENT_PATH]. *)
Definition run_verify_mode (event : pyval) : M unit :=
  logger INFO (lit "Starting Verify Mode") ;;
  comment <- lift (py_getitem event (lit "comment")) ;;
  raw_body <- lift (py_getitem comment (lit "body")) ;;
  comment_body <- lift (py_strip raw_body) ;;
  match re_match_answer comment_body with
  | None =>
      logger INFO (lit "Comment does not contain a valid answer format. Ignoring.") ;;
      sys_exit 0
  | Some letter =>
      let user_answer := str_upper letter in
      logger INFO (lit "Received answer: " ++ user_answer) ;;
      comments <- get_bot_comments ;;
      found <- lift (find_quiz_comment (rev comments)) ;;
      match found with
      | None =>
          logger ERROR (lit "Could not find a ReadGuard quiz comment.") ;;
          sys_exit 1
      | Some (quiz_comment, metadata) =>
          expected_hash <- lift (py_getitem metadata (lit "hash")) ;;
          salt <- lift (py_getitem metadata (lit "salt")) ;;
          matched <- lift (answer_matches user_answer salt expected_hash) ;;
          head_sha <- get_head_sha ;;
          if matched
          then
            logger INFO (lit "Answer Correct!") ;;
            post_comment
              ([9989] ++ lit " Correct! The answer was **" ++ user_answer
                 ++ lit "**. verification successful.") ;;
            create_check_run CHECK_NAME head_sha (lit "completed")
              (Some (lit "success"))
              (Some [(lit "title", PStr (lit "ReadGuard Verified"));
                     (lit "summary",
                      PStr (lit "Developer successfully answered the proof-of-reading quiz."))])
          else
            logger INFO (lit "Answer Incorrect.") ;;
            post_comment ([10060] ++ lit " Incorrect. Please try again.") ;;
            create_check_run CHECK_NAME head_sha (lit "completed")
              (Some (lit "failure"))
              (Some [(lit "title", PStr (lit "ReadGuard Failed"));
                     (lit "summary", PStr (lit "Incorrect answer provided."))])
      end
  end.

(** The event of a comment with the given body. *)
Definition comment_event (body : pystr) : pyval :=
  PDict [(lit "comment", PDict [(lit "body", PStr body)])].

(** The three answer labels. *)
Inductive label := LabelA | LabelB | LabelC.

Definition label_text (l : label) : pystr :=
  match l with
  | LabelA => lit "A"
  | LabelB => lit "B"
  | LabelC => lit "C"
  end.

(** The record [run_generate_mode] embeds. *)
Definition challenge_record (salt hash : pystr) : pyval :=
  PDict [(lit "salt", PStr salt); (lit "hash", PStr hash);
         (lit "mode", PStr (lit "quiz"))].

(** *** Notions the statements below are phrased with *)

(** Lines 125-132: the label a comment body is read as, if any. *)
Definition reply_label (raw_body : pystr) : option pystr :=
  match re_match_answer (str_strip raw_body) with
  | Some letter => Some (str_upper letter)
  | None => None
  end.

(** [p in s] *)
Fixpoint str_contains (p s : pystr) : bool :=
  match skip_prefix p s with
  | Some _ => true
  | None =>
      match s with
      | [] => false
      | _ :: s' => str_contains p s'
      end
  end.

(** Text [str.encode] accepts. *)
Definition encodable (s : pystr) : bool :=
  forallb (fun c => negb (is_surrogate c)) s.

(** Printable ASCII other than the quote and the backslash: the characters
    [json.dumps] writes as they are. *)
Definition plain_char (c : codepoint) : bool :=
  (32 <=? c) && (c <=? 126) && negb (c =? 34) && negb (c =? 92).

(** Python text holds code points up to U+10FFFF. *)
Definition is_text (s : pystr) : bool := forallb (fun c => c <=? 1114111) s.

(** Text of a field that can sit inside the hidden comment: any text free of
    surrogate code points in which the text that closes the comment does not
    occur. *)
Definition field_text (s : pystr) : bool :=
  is_text s && encodable s && negb (str_contains META_CLOSE s).

(** Characters read as they stand, in the accumulator of the scanner. *)
Definition raw (s : pystr) : stracc := map (fun c => (c, false)) s.

(** The inside of a string literal as [json.dumps] writes it. *)
Definition escaped (s : pystr) : pystr := flat_map json_escape_char s.

(** The text [json.dumps] writes for a challenge record: three fixed
    stretches around the salt and the hash. *)
Definition record_text (salt hash : pystr) : pystr :=
  (lit "{" ++ DQ ++ lit "salt" ++ DQ ++ lit ": " ++ DQ) ++ escaped salt
  ++ (DQ ++ lit ", " ++ DQ ++ lit "hash" ++ DQ ++ lit ": " ++ DQ) ++ escaped hash
  ++ (DQ ++ lit ", " ++ DQ ++ lit "mode" ++ DQ ++ lit ": " ++ DQ ++ lit "quiz"
      ++ DQ ++ lit "}").

(** What [secrets.token_hex] and [hexdigest] produce. *)
Definition is_lower_hex (c : codepoint) : bool :=
  ((48 <=? c) && (c <=? 57)) || ((97 <=? c) && (c <=? 102)).

Definition hex_text (s : pystr) : bool := forallb is_lower_hex s.

(** A comment body that carries a quiz record. *)
Definition is_quiz_record (body : pystr) : bool :=
  match extract_metadata body with
  | Ok (PDict d) =>
      match dict_lookup d (lit "mode") with
      | Some mode => py_eq_str mode (lit "quiz")
      | None => false
      end
  | _ => false
  end.

(** A comment body the scan steps over: its metadata is absent or falsy. *)
Definition no_metadata (body : pystr) : bool :=
  match extract_metadata body with
  | Ok meta => negb (truthy meta)
  | Err _ => false
  end.

(** The challenge the reply matcher binds to in a world. *)
Definition open_challenge (w : World) : result (option (pystr * pyval)) :=
  match pr w with
  | Some p => find_quiz_comment (rev (issue_comments p))
  | None => Err ValueError
  end.

(** The world a run leaves behind. *)
Definition world_after {A} (r : outcome A * World) : World := snd r.

(** One reply: the reviewer's comment joins the history of the pull request,
    and verify mode runs on its event. *)
Definition reply (body : pystr) (w : World) : outcome unit * World :=
  run_verify_mode (comment_event body) (comment_added body w).

(** A series of replies, each on the world the previous one left. *)
Fixpoint replies (bodies : list pystr) (w : World) : World :=
  match bodies with
  | [] => w
  | body :: later => replies later (world_after (reply body w))
  end.

Definition failure_run (sha : pystr) : CheckRun :=
  {| cr_name := CHECK_NAME; cr_head_sha := sha; cr_status := lit "completed";
     cr_conclusion := Some (lit "failure");
     cr_output :=
       Some [(lit "title", PStr (lit "ReadGuard Failed"));
             (lit "summary", PStr (lit "Incorrect answer provided."))] |}.

Definition success_run (sha : pystr) : CheckRun :=
  {| cr_name := CHECK_NAME; cr_head_sha := sha; cr_status := lit "completed";
     cr_conclusion := Some (lit "success");
     cr_output :=
       Some [(lit "title", PStr (lit "ReadGuard Verified"));
             (lit "summary",
              PStr (lit "Developer successfully answered the proof-of-reading quiz."))] |}.

Definition confirmation (user_answer : pystr) : pystr :=
  [9989] ++ lit " Correct! The answer was **" ++ user_answer
    ++ lit "**. verification successful.".

Definition rejection : pystr := [10060] ++ lit " Incorrect. Please try again.".

(** Nothing was posted and no check run was created between two worlds. *)
Definition untouched (w w' : World) : Prop :=
  pr w' = pr w /\ check_runs w' = check_runs w.

(** A challenge comment with fixed fields, and a comment whose hidden
    metadata is a JSON array. *)
Definition plain_quiz : pystr :=
  create_hidden_metadata (challenge_record (lit "3f9a") (lit "5e1f")).

Definition stray_comment : pystr := lit "<!-- readguard_meta: [1] -->".

(** A comment body whose metadata the scan can handle: falsy, or a dict. *)
Definition benign (body : pystr) : bool :=
  match extract_metadata body with
  | Ok (PDict _) => true
  | Ok meta => negb (truthy meta)
  | Err _ => false
  end.

(** The metadata of a body, [None] when reading it raises. *)
Definition metadata_of (body : pystr) : pyval :=
  match extract_metadata body with
  | Ok meta => meta
  | Err _ => PNone
  end.

(** A world whose pull request, of head commit [sha], has [challenge] as its
    open challenge. *)
Definition bound_to (sha : pystr) (challenge : pystr * pyval) (w : World) : Prop :=
  open_challenge w = Ok (Some challenge)
  /\ exists p, pr w = Some p /\ head_sha p = sha.

(** A reply read as the label [a], carrying no hidden metadata of its own. *)
Definition plain_reply (body a : pystr) : Prop :=
  reply_label body = Some a /\ no_metadata body = true.

(** A file whose patch the loop of [run_generate_mode] takes. *)
Definition has_patch (file : PRFile) : bool :=
  match patch file with
  | Some (_ :: _) => true
  | _ => false
  end.

(** The request [run_generate_mode] makes for the text of a diff. *)
Definition question_request (llm_client : LLMClient) (inputs : pydict)
    (diff_text : pystr) : M pyval :=
  generate_question llm_client (str_slice_to 10000 diff_text)
    (dict_get inputs (lit "difficulty") (PStr (lit "medium")))
    (dict_get inputs (lit "system_prompt") PNone)
    (dict_get inputs (lit "custom_instructions") PNone).

(** A run that ends badly: a nonzero exit status or an escaped exception. *)
Definition is_failure {A} (o : outcome A) : Prop :=
  match o with
  | Returned _ => False
  | Exited code => code <> 0%Z
  | Raised _ => True
  end.

(** Sample inputs: a client whose model never answers, a file without a
    patch and a file with one. *)
Definition silent_client : LLMClient :=
  {| provider := lit "openai"; model := lit "gpt-4o";
     openai_create := fun _ _ _ => None;
     gemini_generate := fun _ _ => None;
     openai_error := fun _ _ _ => lit "Connection error.";
     gemini_error := fun _ _ => [] |}.

Definition binary_file : PRFile := {| filename := lit "logo.png"; patch := None |}.

Definition patched_file : PRFile :=
  {| filename := lit "main.py"; patch := Some (lit "+x = 1") |}.

(** A sample history: one challenge whose answer is B, under a short salt. *)
Definition sample_salt : pystr := lit "3f9a".

Definition sample_hash : pystr :=
  match compute_hash (PStr (lit "B")) (PStr sample_salt) with
  | Ok h => h
  | Err _ => []
  end.

Definition sample_quiz : pystr :=
  create_hidden_metadata (challenge_record sample_salt sample_hash).

Definition sample_world (comments : list pystr) (files : list PRFile) : World :=
  {| pr := Some {| head_sha := lit "c0ffee"; pr_files := files;
                   issue_comments := comments |};
     check_runs := []; log := []; llm_requests := [] |}.

(** *** Further notions: the diff, the request, the challenge comment *)

(** The lower-case spelling of a label. *)
Definition label_lower (l : label) : pystr :=
  match l with
  | LabelA => lit "a"
  | LabelB => lit "b"
  | LabelC => lit "c"
  end.

(** What a file with a patch adds to the diff text. *)
Definition file_block (file : PRFile) : pystr :=
  match patch file with
  | Some p => lit "File: " ++ filename file ++ NL ++ p ++ NL ++ NL
  | None => []
  end.

(** The prompt [generate_question] settles on. *)
Definition chosen_prompt (difficulty system_prompt custom_instructions : pyval)
    : pyval :=
  if truthy system_prompt then system_prompt
  else PStr (default_system_prompt difficulty
               (if truthy custom_instructions
                then lit "- " ++ py_str custom_instructions else [])).

(** The prompt of a run of generate mode, from its inputs. *)
Definition run_prompt (inputs : pydict) : pyval :=
  chosen_prompt (dict_get inputs (lit "difficulty") (PStr (lit "medium")))
    (dict_get inputs (lit "system_prompt") PNone)
    (dict_get inputs (lit "custom_instructions") PNone).

(** A provider the client knows. *)
Definition known_provider (c : LLMClient) : bool :=
  str_eqb (provider c) (lit "openai") || str_eqb (provider c) (lit "gemini").

(** The completion the remote model gives for a request, if any. *)
Definition completion (c : LLMClient) (prompt : pyval) (diff_text : pystr)
    : option pystr :=
  if str_eqb (provider c) (lit "openai")
  then openai_create c (model c) prompt
         (lit "Here is the code diff:" ++ NL ++ NL ++ diff_text)
  else if str_eqb (provider c) (lit "gemini")
  then gemini_generate c (model c)
         (py_str prompt ++ NL ++ NL ++ lit "Here is the code diff:"
            ++ NL ++ NL ++ diff_text)
  else None.

(** The check run generate mode creates. *)
Definition pending_run (sha : pystr) : CheckRun :=
  {| cr_name := CHECK_NAME; cr_head_sha := sha; cr_status := lit "completed";
     cr_conclusion := Some (lit "action_required");
     cr_output :=
       Some [(lit "title", PStr (lit "ReadGuard Quiz"));
             (lit "summary",
              PStr (lit "Please answer the quiz in the PR comments to proceed."))] |}.

(** A value whose text holds no opening marker. *)
Definition no_marker (v : pyval) : bool :=
  negb (str_contains META_OPEN (py_str v)).

(** A response of the model with everything [run_generate_mode] reads. *)
Definition well_formed (q_data correct_answer question optA optB optC : pyval)
    : Prop :=
  truthy q_data = true
  /\ py_getitem q_data (lit "correct_answer") = Ok correct_answer
  /\ py_getitem q_data (lit "question") = Ok question
  /\ quiz_option q_data (lit "A") = Ok optA
  /\ quiz_option q_data (lit "B") = Ok optB
  /\ quiz_option q_data (lit "C") = Ok optC.

(** A client whose OpenAI model always answers with the same text. *)
Definition answering_client (content : pystr) : LLMClient :=
  {| provider := lit "openai"; model := lit "gpt-4o";
     openai_create := fun _ _ _ => Some content;
     gemini_generate := fun _ _ => None;
     openai_error := fun _ _ _ => [];
     gemini_error := fun _ _ => [] |}.

(** A client built for a provider the code does not dispatch on. *)
Definition unknown_client : LLMClient :=
  {| provider := lit "llama"; model := lit "m";
     openai_create := fun _ _ _ => Some (lit "{}");
     gemini_generate := fun _ _ => Some (lit "{}");
     openai_error := fun _ _ _ => [];
     gemini_error := fun _ _ => [] |}.

(** A sample response: the question, three options, and B as the answer. *)
Definition sample_q_data : pyval :=
  PDict [(lit "question", PStr (lit "What does x become?"));
         (lit "options",
          PDict [(lit "A", PStr (lit "0")); (lit "B", PStr (lit "1"));
                 (lit "C", PStr (lit "2"))]);
         (lit "correct_answer", PStr (lit "B"))].


(** Where a client of a known provider reads the completion. *)
Definition client_site (c : LLMClient) : call_site :=
  if str_eqb (provider c) (lit "openai") then InGenerateOpenAI
  else InGenerateGemini.

(** The text of the exception a client catches: that of [json.loads] when
    there is a completion, that of the call otherwise. *)
Definition caught_text (c : LLMClient) (prompt : pyval) (diff_text : pystr)
    : pystr :=
  match completion c prompt diff_text with
  | Some text => json_error_text text
  | None =>
      if str_eqb (provider c) (lit "openai")
      then openai_error c (model c) prompt
             (lit "Here is the code diff:" ++ NL ++ NL ++ diff_text)
      else gemini_error c (model c)
             (py_str prompt ++ NL ++ NL ++ lit "Here is the code diff:"
                ++ NL ++ NL ++ diff_text)
  end.

(** The line a client logs when its call, or the reading of the completion,
    fails: the name of the provider, then the text of the exception. *)
Definition error_line (c : LLMClient) (prompt : pyval) (diff_text : pystr)
    : pystr :=
  (if str_eqb (provider c) (lit "openai") then lit "OpenAI error: "
   else lit "Gemini error: ")
  ++ caught_text c prompt diff_text.

(** The completion read as JSON, when there is one and [json.loads] reads
    it. *)
Definition parsed_completion (c : LLMClient) (prompt : pyval)
    (diff_text : pystr) : option pyval :=
  match completion c prompt diff_text with
  | Some text =>
      match json_loads (stack_used_up (client_site c)) text with
      | Ok v => Some v
      | Err _ => None
      end
  | None => None
  end.

(** The world when generate mode, with a diff to ask about, gets the answer
    of the model. *)
Definition asked_world (inputs : pydict) (p : PullRequest) (w : World) : World :=
  request_added (run_prompt inputs)
    (str_slice_to 10000 (fold_left add_file (pr_files p) []))
    (logged INFO (lit "Querying LLM...")
       (logged INFO (lit "Starting Generate Mode") w)).

(** The comment generate mode posts for a response and a salt. *)
Definition challenge_comment (question optA optB optC : pyval)
    (salt hash : pystr) : pystr :=
  quiz_body question optA optB optC
    (create_hidden_metadata (challenge_record salt hash)).

(** The world generate mode leaves when it has posted a challenge. *)
Definition quiz_posted (body : pystr) (p : PullRequest) (w1 : World) : World :=
  logged INFO (lit "Quiz posted and check run created.")
    (check_run_added (pending_run (head_sha p)) (comment_added body w1)).

(** The visible part of the challenge comment: all that stands before the
    hidden record. *)
Definition quiz_prefix (question optA optB optC : pyval) : pystr :=
  NL ++ unlines
    [ lit "## " ++ [128737; 65039] ++ lit " ReadGuard Verification";
      lit "    ";
      lit "**Proof-of-Reading Required**";
      lit "The following question has been generated based on the changes in this PR.";
      [];
      lit "**" ++ py_str question ++ lit "**";
      [];
      lit "- **A)** " ++ py_str optA;
      lit "- **B)** " ++ py_str optB;
      lit "- **C)** " ++ py_str optC;
      [];
      lit "Reply with `/answer A`, `/answer B`, or `/answer C` to unlock the merge.";
      [] ].

(** Generate mode, on the pull request [p], gets [q_data] from the model:
    there is a diff to ask about, the provider is known, and the completion
    is the JSON text of [q_data]. *)
Definition model_answers (c : LLMClient) (inputs : pydict) (p : PullRequest)
    (q_data : pyval) : Prop :=
  existsb has_patch (pr_files p) = true
  /\ known_provider c = true
  /\ parsed_completion c (run_prompt inputs)
       (str_slice_to 10000 (fold_left add_file (pr_files p) [])) = Some q_data.

(** Texts that leave the hidden record of a challenge comment readable: no
    opening marker in the question and the options, and a salt and a hash
    that [field_text] admits. *)
Definition clean_texts (question optA optB optC : pyval) (salt hash : pystr)
    : Prop :=
  no_marker question = true /\ no_marker optA = true
  /\ no_marker optB = true /\ no_marker optC = true
  /\ field_text salt = true /\ field_text hash = true.

(** The check run a verdict creates. *)
Definition verdict_run (sha : pystr) (matched : bool) : CheckRun :=
  if matched then success_run sha else failure_run sha.

(** The comment a verdict posts. *)
Definition verdict_comment (a : pystr) (matched : bool) : pystr :=
  if matched then confirmation a else rejection.

(** A reply that brings its own quiz record along: the answer line for the
    label, then a hidden record. *)
Definition self_certifying (L : label) (salt hash : pystr) : pystr :=
  lit "/answer " ++ label_text L ++ lit " "
    ++ create_hidden_metadata (challenge_record salt hash).


(** The challenge comment up to the text of the question. *)
Definition quiz_head : pystr :=
  NL ++ unlines
    [ lit "## " ++ [128737; 65039] ++ lit " ReadGuard Verification";
      lit "    ";
      lit "**Proof-of-Reading Required**";
      lit "The following question has been generated based on the changes in this PR.";
      [] ]
  ++ lit "**".

(** *** [LLMClient.__init__] *)

Section Construction.

(** [s.lower()].  On ASCII text it maps the capital letters; on other text
    it follows the Unicode tables, which look at more than one character at
    a time (the capital sigma). *)
Variable unicode_lower : pystr -> pystr.

Definition is_ascii (s : pystr) : bool := forallb (fun c => c <? 128) s.

Definition ascii_lower (c : codepoint) : codepoint :=
  if (65 <=? c) && (c <=? 90) then c + 32 else c.

Definition str_lower (s : pystr) : pystr :=
  if is_ascii s then map ascii_lower s else unicode_lower s.

(** [OpenAI] and [GenerativeModel] stand for the two libraries: given the
    key, what their calls answer, and the text of the exception when they
    fail.  [model] is the optional argument, [None] by default. *)
Definition LLMClient_init (provider api_key : pystr) (model : option pystr)
    (OpenAI : pystr -> pystr -> pyval -> pystr -> option pystr)
    (GenerativeModel : pystr -> pystr -> pystr -> option pystr)
    (OpenAI_error : pystr -> pystr -> pyval -> pystr -> pystr)
    (GenerativeModel_error : pystr -> pystr -> pystr -> pystr)
    : result LLMClient :=
  let provider := str_lower provider in
  if str_eqb provider (lit "openai") then
    Ok {| provider := provider;
          model := match model with
                   | Some (c :: m) => c :: m
                   | _ => lit "gpt-4o"
                   end;
          openai_create := OpenAI api_key;
          gemini_generate := fun _ _ => None;
          openai_error := OpenAI_error api_key;
          gemini_error := fun _ _ => [] |}
  else if str_eqb provider (lit "gemini") then
    Ok {| provider := provider;
          model := match model with
                   | Some (c :: m) => c :: m
                   | _ => lit "gemini-2.0-flash-exp"
                   end;
          openai_create := fun _ _ _ => None;
          gemini_generate := GenerativeModel api_key;
          openai_error := fun _ _ _ => [];
          gemini_error := GenerativeModel_error api_key |}
  else Err ValueError.

End Construction.

(** A lower-casing that leaves text outside ASCII as it is, for the sample
    inputs. *)
Definition unchanged (s : pystr) : pystr := s.


(** The JSON text of a response, as the model would send it. *)
Definition completion_of (q_data : pyval) : pystr := json_dumps q_data.

(** A pull request with one patched file and no comment yet. *)
Definition fresh_world : World := sample_world [] [patched_file].

(** The pull request of [fresh_world]. *)
Definition fresh_pr : PullRequest :=
  {| head_sha := lit "c0ffee"; pr_files := [patched_file]; issue_comments := [] |}.

(** * Properties *)

(** Arithmetic with quotients and remainders, away from the runtime's
    tables. *)
Ltac div_arith :=
  try clear sha256_hexdigest; try clear unicode_upper; try clear py_repr;
  try clear stack_used_up; try clear json_error_text;
  zify; Z.to_euclidean_division_equations; lia.

(** ** Text *)

Lemma str_eqb_eq (a b : pystr) : str_eqb a b = true <-> a = b.
Proof.
  revert b; induction a as [|x a IH]; intros [|y b]; simpl;
    try (split; [discriminate | intros H; discriminate H]);
    try (split; reflexivity).
  rewrite andb_true_iff, N.eqb_eq, IH. split.
  - intros [-> ->]; reflexivity.
  - intros H; injection H; auto.
Qed.

Lemma str_eqb_refl (a : pystr) : str_eqb a a = true.
Proof. apply str_eqb_eq; reflexivity. Qed.

Lemma str_eqb_neq (a b : pystr) : a <> b -> str_eqb a b = false.
Proof.
  intros H. destruct (str_eqb a b) eqn:E; [|reflexivity].
  apply str_eqb_eq in E; contradiction.
Qed.

Lemma not_in_by_eqb (x : codepoint) (l : pystr) :
  existsb (N.eqb x) l = false -> ~ In x l.
Proof.
  intros H Hin. assert (E : existsb (N.eqb x) l = true).
  { apply existsb_exists. exists x. split; [exact Hin | apply N.eqb_refl]. }
  rewrite E in H. discriminate.
Qed.

Lemma skip_prefix_app (p s : pystr) : skip_prefix p (p ++ s) = Some s.
Proof.
  induction p as [|a p IH]; simpl; [reflexivity|].
  rewrite N.eqb_refl; exact IH.
Qed.

Lemma skip_prefix_Some (p s r : pystr) : skip_prefix p s = Some r -> s = p ++ r.
Proof.
  revert s; induction p as [|a p IH]; intros s; simpl.
  - intros H; injection H as ->; reflexivity.
  - destruct s as [|b s]; [discriminate|].
    destruct (a =? b) eqn:E; [|discriminate].
    apply N.eqb_eq in E; subst b. intros H; rewrite (IH _ H); reflexivity.
Qed.

(** A match of [p] that starts inside [s] and runs past its end meets the
    character that follows [s]. *)
Lemma skip_prefix_overrun (p s : pystr) (x : codepoint) (t r : pystr) :
  skip_prefix p (s ++ x :: t) = Some r -> skip_prefix p s = None -> In x p.
Proof.
  revert s; induction p as [|a p IH]; intros s; simpl.
  - discriminate.
  - destruct s as [|b s]; simpl.
    + destruct (a =? x) eqn:E; [|discriminate].
      apply N.eqb_eq in E; auto.
    + destruct (a =? b); [|discriminate].
      intros H1 H2; right; eapply IH; eauto.
Qed.

Lemma str_lstrip_blanks (ws s : pystr) :
  forallb is_space ws = true -> str_lstrip (ws ++ s) = str_lstrip s.
Proof.
  induction ws as [|c ws IH]; simpl; [reflexivity|].
  rewrite andb_true_iff; intros [-> H]; auto.
Qed.

Lemma str_lstrip_split (s : pystr) :
  exists ws, forallb is_space ws = true /\ s = ws ++ str_lstrip s.
Proof.
  induction s as [|c s [ws [H1 H2]]]; simpl.
  - exists []; auto.
  - destruct (is_space c) eqn:E.
    + exists (c :: ws); simpl; rewrite E, H1; split; [reflexivity | congruence].
    + exists []; auto.
Qed.

Lemma answer_letter_not_space (c : codepoint) :
  is_answer_letter c = true -> is_space c = false.
Proof.
  unfold is_answer_letter, is_space; intros H.
  apply orb_true_iff in H.
  repeat rewrite orb_false_iff; repeat rewrite andb_false_iff.
  repeat rewrite N.leb_gt; repeat rewrite N.eqb_neq.
  destruct H as [H|H]; apply andb_true_iff in H; destruct H as [H1 H2];
    apply N.leb_le in H1, H2; repeat split; lia.
Qed.

Lemma answer_letter_cases (c : codepoint) :
  is_answer_letter c = true ->
  c = 97 \/ c = 98 \/ c = 99 \/ c = 65 \/ c = 66 \/ c = 67.
Proof.
  unfold is_answer_letter; intros H.
  apply orb_true_iff in H.
  destruct H as [H|H]; apply andb_true_iff in H; destruct H as [H1 H2];
    apply N.leb_le in H1, H2; lia.
Qed.

(** ** The reply parser *)

Lemma re_match_answer_spec (s g : pystr) :
  re_match_answer s = Some g <->
  exists ws l rest,
    s = lit "/answer" ++ ws ++ l :: rest /\ ws <> []
    /\ forallb is_space ws = true /\ is_answer_letter l = true /\ g = [l].
Proof.
  unfold re_match_answer; split.
  - destruct (skip_prefix (lit "/answer") s) as [[|c r]|] eqn:E; try discriminate.
    apply skip_prefix_Some in E.
    destruct (is_space c) eqn:Hc; [|discriminate].
    destruct (str_lstrip_split r) as [ws [Hws Hr]].
    destruct (str_lstrip r) as [|l tail]; [discriminate|].
    destruct (is_answer_letter l) eqn:Hl; [|discriminate].
    intros H; injection H as <-.
    exists (c :: ws), l, tail. simpl forallb. rewrite Hc, Hws.
    repeat split; try discriminate; trivial.
    rewrite E, Hr; reflexivity.
  - intros (ws & l & rest & -> & Hne & Hws & Hl & ->).
    rewrite skip_prefix_app.
    destruct ws as [|c ws]; [contradiction|].
    simpl in Hws; apply andb_true_iff in Hws; destruct Hws as [Hc Hws].
    simpl app. cbv beta iota. rewrite Hc, (str_lstrip_blanks _ _ Hws).
    cbn [str_lstrip].
    rewrite (answer_letter_not_space _ Hl), Hl; reflexivity.
Qed.

Lemma run_verify_mode_ignored (body : pystr) (w : World) :
  re_match_answer (str_strip body) = None ->
  run_verify_mode (comment_event body) w =
  (Exited 0%Z,
   logged INFO (lit "Comment does not contain a valid answer format. Ignoring.")
     (logged INFO (lit "Starting Verify Mode") w)).
Proof.
  intros H. unfold run_verify_mode, comment_event, bind, lift, logger. cbn.
  rewrite H. reflexivity.
Qed.

Lemma reply_label_None (body : pystr) :
  reply_label body = None -> re_match_answer (str_strip body) = None.
Proof.
  unfold reply_label. destruct (re_match_answer (str_strip body)); [discriminate | reflexivity].
Qed.

Lemma upper_answer_letter (l : codepoint) :
  is_answer_letter l = true -> exists L, str_upper [l] = label_text L.
Proof.
  intros H. destruct (answer_letter_cases _ H) as [->|[->|[->|[->|[->| ->]]]]].
  - exists LabelA; reflexivity.
  - exists LabelB; reflexivity.
  - exists LabelC; reflexivity.
  - exists LabelA; reflexivity.
  - exists LabelB; reflexivity.
  - exists LabelC; reflexivity.
Qed.

(** C6. The bodies "/answer b", "/answer B" and "  /answer B  " are all read
    as the label B.  A body that is not read as a label ends the run with
    exit status 0, the pull request and the check runs untouched (two
    informational log lines are all it leaves).  Whatever body is read as a
    label is read as one of A, B and C. *)
Theorem C6_reply_recognition :
  reply_label (lit "/answer b") = Some (lit "B")
  /\ reply_label (lit "/answer B") = Some (lit "B")
  /\ reply_label (lit "  /answer B  ") = Some (lit "B")
  /\ (forall body w,
        reply_label body = None ->
        run_verify_mode (comment_event body) w =
        (Exited 0%Z,
         logged INFO (lit "Comment does not contain a valid answer format. Ignoring.")
           (logged INFO (lit "Starting Verify Mode") w))
        /\ untouched w
             (world_after (run_verify_mode (comment_event body) w)))
  /\ (forall body a, reply_label body = Some a -> exists L, a = label_text L).
Proof.
  split; [reflexivity|]. split; [reflexivity|]. split; [reflexivity|]. split.
  - intros body w H.
    rewrite (run_verify_mode_ignored _ _ (reply_label_None _ H)).
    split; [reflexivity | split; reflexivity].
  - intros body a. unfold reply_label.
    destruct (re_match_answer (str_strip body)) as [g|] eqn:E; [|discriminate].
    intros H; injection H as <-.
    apply re_match_answer_spec in E.
    destruct E as (ws & l & rest & _ & _ & _ & Hl & ->).
    apply upper_answer_letter, Hl.
Qed.

(** C9. A body is read as an answer exactly when its stripped text begins
    with "/answer", one or more blanks and a letter a-c or A-C; the letter,
    in upper case, is the answer, whatever follows it.  So "/answer ABC"
    answers A, and a body where this text comes after other text, such as
    "I think /answer B", is not an answer. *)
Theorem C9_reply_anchored_at_start :
  (forall body a,
     reply_label body = Some a <->
     exists ws l rest,
       str_strip body = lit "/answer" ++ ws ++ l :: rest /\ ws <> []
       /\ forallb is_space ws = true /\ is_answer_letter l = true
       /\ a = str_upper [l])
  /\ reply_label (lit "/answer ABC") = Some (lit "A")
  /\ reply_label (lit "I think /answer B") = None
  /\ (forall body,
        skip_prefix (lit "/answer") (str_strip body) = None ->
        reply_label body = None).
Proof.
  split; [|repeat split; try reflexivity].
  - intros body a. unfold reply_label. split.
    + destruct (re_match_answer (str_strip body)) as [g|] eqn:E; [|discriminate].
      intros H; injection H as <-.
      apply re_match_answer_spec in E.
      destruct E as (ws & l & rest & E & Hne & Hws & Hl & ->).
      exists ws, l, rest; auto.
    + intros (ws & l & rest & E & Hne & Hws & Hl & ->).
      assert (H : re_match_answer (str_strip body) = Some [l]).
      { apply re_match_answer_spec. exists ws, l, rest; auto. }
      rewrite H; reflexivity.
  - intros body H. unfold reply_label, re_match_answer. rewrite H; reflexivity.
Qed.

(** ** The answer commitment *)

Lemma encodable_encode (s : pystr) :
  encodable s = true -> exists b, str_encode s = Ok b.
Proof.
  induction s as [|c s IH]; simpl.
  - exists []; reflexivity.
  - rewrite andb_true_iff, negb_true_iff. intros [-> H].
    destruct (IH H) as [b ->]. eexists; reflexivity.
Qed.

Lemma py_eq_str_true (v : pyval) (s : pystr) :
  py_eq_str v s = true <-> v = PStr s.
Proof.
  destruct v; simpl; try (split; [discriminate | intros H; discriminate H]).
  rewrite str_eqb_eq. split; [intros -> | intros H; injection H]; auto.
Qed.

Lemma compute_hash_label (L : label) (salt : pyval) (b : list N) :
  str_encode (py_str salt) = Ok b ->
  exists c, label_text L = [c] /\ c < 128
    /\ compute_hash (PStr (label_text L)) salt = Ok (sha256_hexdigest (c :: 58 :: b)).
Proof.
  intros H. destruct L.
  - exists 65. repeat split. unfold compute_hash. cbn. rewrite H. reflexivity.
  - exists 66. repeat split. unfold compute_hash. cbn. rewrite H. reflexivity.
  - exists 67. repeat split. unfold compute_hash. cbn. rewrite H. reflexivity.
Qed.

Lemma label_text_inj (L L' : label) : label_text L = label_text L' -> L = L'.
Proof. destruct L, L'; simpl; intros H; try reflexivity; discriminate H. Qed.

(** C1. For a label L and a salt S (any value whose text can be encoded),
    the commitment of (L, S) exists, L verifies against it, and, the digest
    having no collisions, no other label does.  Verifying is recomputing:
    a claimed label verifies against a stored hash exactly when that hash is
    the text [compute_hash] gives for the claimed label and the stored
    salt. *)
Theorem C1_commitment_verifies (L : label) (salt : pyval) :
  encodable (py_str salt) = true ->
  exists h,
    compute_hash (PStr (label_text L)) salt = Ok h
    /\ answer_matches (label_text L) salt (PStr h) = Ok true
    /\ ((forall x y, sha256_hexdigest x = sha256_hexdigest y -> x = y) ->
        forall L', L' <> L ->
          answer_matches (label_text L') salt (PStr h) = Ok false)
    /\ (forall claimed stored,
          answer_matches claimed salt stored = Ok true <->
          exists c, compute_hash (PStr claimed) salt = Ok c /\ stored = PStr c).
Proof.
  intros Henc. destruct (encodable_encode _ Henc) as [b Hb].
  destruct (compute_hash_label L salt b Hb) as (c & Hc & _ & Hh).
  exists (sha256_hexdigest (c :: 58 :: b)). split; [exact Hh|]. split; [|split].
  - unfold answer_matches. rewrite Hh. simpl. rewrite str_eqb_refl. reflexivity.
  - intros Hinj L' Hne.
    destruct (compute_hash_label L' salt b Hb) as (c' & Hc' & _ & Hh').
    unfold answer_matches. rewrite Hh'. simpl.
    rewrite str_eqb_neq; [reflexivity|].
    intros E. apply Hinj in E. injection E as E.
    apply Hne, label_text_inj. rewrite Hc, Hc', E. reflexivity.
  - intros claimed stored. unfold answer_matches.
    destruct (compute_hash (PStr claimed) salt) as [c0|e].
    + split.
      * intros H. injection H as H. apply py_eq_str_true in H. eauto.
      * intros (c1 & H1 & ->). injection H1 as ->. simpl.
        rewrite str_eqb_refl. reflexivity.
    + split; [discriminate | intros (c1 & H1 & _); discriminate H1].
Qed.

(** ** The metadata codec: searching *)

Lemma no_straddle (a : codepoint) (p s : pystr) (x : codepoint) (t : pystr) :
  ~ In x p -> s <> [] -> skip_prefix (a :: p) s = None ->
  skip_prefix (a :: p) (s ++ x :: t) = None.
Proof.
  intros Hx Hs H. destruct s as [|b s]; [contradiction|].
  simpl in *. destruct (a =? b); [|reflexivity].
  destruct (skip_prefix p (s ++ x :: t)) as [r|] eqn:E; [|reflexivity].
  exfalso. apply Hx. eapply skip_prefix_overrun; eauto.
Qed.

Lemma str_contains_cons (p : pystr) (c : codepoint) (s : pystr) :
  str_contains p (c :: s) = false ->
  skip_prefix p (c :: s) = None /\ str_contains p s = false.
Proof.
  simpl str_contains. destruct (skip_prefix p (c :: s)); [discriminate | auto].
Qed.

Lemma str_contains_nil (p s : pystr) :
  str_contains p s = false -> skip_prefix p s = None.
Proof.
  destruct s; simpl; destruct (skip_prefix p _); auto; discriminate.
Qed.

Lemma str_contains_app_r (p a s : pystr) :
  str_contains p (a ++ s) = false -> str_contains p s = false.
Proof.
  induction a as [|c a IH]; simpl app; [auto|].
  intros H. apply str_contains_cons in H. apply IH, H.
Qed.

Lemma lazy_group_eq (s : pystr) :
  lazy_group s =
  match skip_prefix META_CLOSE s with
  | Some _ => Some []
  | None =>
      match s with
      | [] => None
      | c :: s' =>
          if c =? 10 then None
          else match lazy_group s' with
               | Some g => Some (c :: g)
               | None => None
               end
      end
  end.
Proof. destruct s; reflexivity. Qed.

Lemma re_search_meta_eq (text : pystr) :
  re_search_meta text =
  match meta_match_here text with
  | Some g => Some g
  | None =>
      match text with
      | [] => None
      | _ :: text' => re_search_meta text'
      end
  end.
Proof. destruct text; reflexivity. Qed.

Lemma lazy_group_none (s : pystr) :
  str_contains META_CLOSE s = false -> lazy_group s = None.
Proof.
  induction s as [|c s IH]; intros H; rewrite lazy_group_eq.
  - rewrite (str_contains_nil _ _ H); reflexivity.
  - apply str_contains_cons in H. destruct H as [H1 H2].
    rewrite H1, (IH H2). destruct (c =? 10); reflexivity.
Qed.

(** The group runs through a stretch of text that holds neither a newline
    nor the closing text, when the character after the stretch cannot
    complete a closing text begun inside it. *)
Lemma lazy_group_through (g : pystr) (x : codepoint) (t : pystr) :
  ~ In x (tl META_CLOSE) ->
  existsb (N.eqb 10) g = false -> str_contains META_CLOSE g = false ->
  lazy_group (g ++ x :: t) =
  match lazy_group (x :: t) with
  | Some r => Some (g ++ r)
  | None => None
  end.
Proof.
  intros Hx. induction g as [|c g IH]; intros Hnl Hc.
  - simpl app. destruct (lazy_group (x :: t)); reflexivity.
  - apply str_contains_cons in Hc. destruct Hc as [Hc1 Hc2].
    cbn [existsb] in Hnl. apply orb_false_iff in Hnl. destruct Hnl as [Hn1 Hn2].
    assert (E : skip_prefix META_CLOSE ((c :: g) ++ x :: t) = None).
    { refine (no_straddle 32 (tl META_CLOSE) (c :: g) x t Hx _ Hc1). discriminate. }
    rewrite lazy_group_eq, E.
    simpl app. cbv beta iota. rewrite (N.eqb_sym c 10), Hn1.
    rewrite (IH Hn2 Hc2). destruct (lazy_group (x :: t)); reflexivity.
Qed.

Lemma lazy_group_close (post : pystr) : lazy_group (META_CLOSE ++ post) = Some [].
Proof. rewrite lazy_group_eq, skip_prefix_app. reflexivity. Qed.

Lemma meta_match_here_none (text : pystr) :
  skip_prefix META_OPEN text = None -> meta_match_here text = None.
Proof. unfold meta_match_here. intros ->. reflexivity. Qed.

Lemma re_search_no_open (text : pystr) :
  str_contains META_OPEN text = false -> re_search_meta text = None.
Proof.
  induction text as [|c text IH]; intros H; rewrite re_search_meta_eq.
  - rewrite meta_match_here_none; [reflexivity | apply str_contains_nil, H].
  - apply str_contains_cons in H. destruct H as [H1 H2].
    rewrite (meta_match_here_none _ H1). apply IH, H2.
Qed.

Lemma re_search_no_close (text : pystr) :
  str_contains META_CLOSE text = false -> re_search_meta text = None.
Proof.
  induction text as [|c text IH]; intros H; rewrite re_search_meta_eq.
  - reflexivity.
  - assert (Hm : meta_match_here (c :: text) = None).
    { unfold meta_match_here.
      destruct (skip_prefix META_OPEN (c :: text)) as [r|] eqn:E; [|reflexivity].
      apply skip_prefix_Some in E. rewrite E in H.
      apply lazy_group_none. eapply str_contains_app_r, H. }
    rewrite Hm. apply IH. apply str_contains_cons in H. apply H.
Qed.

Lemma re_search_skip (pre t : pystr) :
  str_contains META_OPEN pre = false ->
  re_search_meta (pre ++ 60 :: t) = re_search_meta (60 :: t).
Proof.
  induction pre as [|c pre IH]; intros H; [reflexivity|].
  apply str_contains_cons in H. destruct H as [H1 H2].
  rewrite re_search_meta_eq.
  rewrite meta_match_here_none.
  - simpl app. apply IH, H2.
  - refine (no_straddle 60 (tl META_OPEN) (c :: pre) 60 t _ _ H1); [|discriminate].
    apply not_in_by_eqb. reflexivity.
Qed.

Lemma re_search_first (pre g post : pystr) :
  str_contains META_OPEN pre = false ->
  str_contains META_CLOSE g = false ->
  existsb (N.eqb 10) g = false ->
  re_search_meta (pre ++ META_OPEN ++ g ++ META_CLOSE ++ post) = Some g.
Proof.
  intros Hpre Hg Hnl.
  change (META_OPEN ++ g ++ META_CLOSE ++ post)
    with (60 :: tl META_OPEN ++ g ++ META_CLOSE ++ post).
  rewrite (re_search_skip _ _ Hpre).
  change (60 :: tl META_OPEN ++ g ++ META_CLOSE ++ post)
    with (META_OPEN ++ g ++ META_CLOSE ++ post).
  rewrite re_search_meta_eq. unfold meta_match_here.
  rewrite skip_prefix_app.
  change (META_CLOSE ++ post) with (32 :: tl META_CLOSE ++ post).
  rewrite lazy_group_through; trivial.
  - change (32 :: tl META_CLOSE ++ post) with (META_CLOSE ++ post).
    rewrite lazy_group_close, app_nil_r. reflexivity.
  - apply not_in_by_eqb. reflexivity.
Qed.

Lemma extract_metadata_eq (text : pystr) :
  extract_metadata text =
  match re_search_meta text with
  | Some g =>
      match json_loads (stack_used_up InExtractMetadata) g with
      | Ok v => Ok v
      | Err JSONDecodeError => Ok PNone
      | Err e => Err e
      end
  | None => Ok PNone
  end.
Proof. reflexivity. Qed.

(** Arrays opened one inside the other, and never closed. *)
Lemma lex_scan_brackets (n : nat) (toks : list token) :
  lex_scan (LIdle, toks) (repeat 91 n) =
  ((LIdle, repeat TLBracket n ++ toks), true).
Proof.
  revert toks; induction n as [|n IH]; intros toks; [reflexivity|].
  cbn [repeat lex_scan].
  change (lex_step (LIdle, toks) 91) with (Some (LIdle, TLBracket :: toks)).
  cbv beta iota. rewrite IH.
  change (TLBracket :: toks) with ([TLBracket] ++ toks).
  rewrite app_assoc, <- repeat_cons. reflexivity.
Qed.

Lemma rev_repeat_same {A} (a : A) (n : nat) : rev (repeat a n) = repeat a n.
Proof.
  induction n as [|n IH]; [reflexivity|].
  cbn [repeat rev]. rewrite IH, <- repeat_cons. reflexivity.
Qed.

Lemma lex_brackets (n : nat) : lex (repeat 91 n) = (repeat TLBracket n, true).
Proof.
  unfold lex. rewrite lex_scan_brackets. cbn [lex_finish].
  rewrite app_nil_r, rev_repeat_same. reflexivity.
Qed.

Lemma parse_run_brackets (n : nat) (stk : list frame) :
  exists st,
    parse_run (SArrStart stk) (repeat TLBracket n) =
    (Ok st,
     Nat.ltb 0 n && Nat.leb safe_nesting (List.length stk + n)).
Proof.
  revert stk; induction n as [|n IH]; intros stk; [eexists; reflexivity|].
  cbn [repeat parse_run parse_step parse_value].
  destruct (IH (InArr [] :: stk)) as [st ->]. exists st. f_equal.
  unfold is_deep. cbn [open_containers List.length].
  generalize safe_nesting; intros k.
  destruct (Nat.ltb_spec k (S (S (List.length stk))));
    destruct (Nat.ltb_spec 0 n); destruct (Nat.ltb_spec 0 (S n));
    destruct (Nat.leb_spec k (S (List.length stk) + n));
    destruct (Nat.leb_spec k (List.length stk + S n));
    try reflexivity; exfalso; clear - H H0 H1 H2 H3; lia.
Qed.

Lemma loads_brackets (stack : pystr -> bool) (n : nat) :
  (safe_nesting < n)%nat -> stack (repeat 91 n) = true ->
  json_loads stack (repeat 91 n) = Err RecursionError.
Proof.
  intros Hn Hs. unfold json_loads. rewrite lex_brackets.
  destruct n as [|n]; [exfalso; clear - Hn; lia|].
  cbn [repeat parse_run parse_step parse_value].
  destruct (parse_run_brackets n []) as [st ->].
  assert (D : Nat.ltb 0 n && Nat.leb safe_nesting (List.length (@nil frame) + n)
              = true).
  { cbn [List.length]. apply andb_true_iff. split.
    - apply Nat.ltb_lt. unfold safe_nesting in Hn. clear - Hn. lia.
    - apply Nat.leb_le. clear - Hn. lia. }
  rewrite D, orb_true_r. cbv beta iota.
  change (91 :: repeat 91 n) with (repeat 91 (S n)). rewrite Hs. reflexivity.
Qed.

Lemma brackets_have_no_marker (n : nat) :
  str_contains META_CLOSE (repeat 91 n) = false
  /\ existsb (N.eqb 10) (repeat 91 n) = false.
Proof.
  induction n as [|n [IH1 IH2]]; [split; reflexivity|]. split.
  - cbn [repeat]. exact IH1.
  - cbn [repeat existsb]. exact IH2.
Qed.

(** C4. [extract_metadata] does raise on some texts.  [json.loads] refuses
    an integer of more than 4300 digits with [ValueError], and a text nested
    too deep for the interpreter's stack with [RecursionError]; neither is a
    [JSONDecodeError], the one exception [extract_metadata] catches.  So a
    hidden comment whose content is the digit 9 written 4301 times makes it
    raise [ValueError], and one whose content opens arrays one inside the
    other makes it raise [RecursionError] when they are more than the stack
    takes.  For the rest it is as
    tolerant as intended: it gives [None] when the opening marker is nowhere
    in the text, when the closing marker is nowhere in the text, and when
    what stands between the markers is refused with [JSONDecodeError]; and
    of several complete markers it reads the content of the first. *)
Theorem C4_decode_raises_past_interpreter_limits :
  extract_metadata (META_OPEN ++ repeat 57 4301 ++ META_CLOSE) = Err ValueError
  /\ (forall n,
        (safe_nesting < n)%nat ->
        stack_used_up InExtractMetadata (repeat 91 n) = true ->
        extract_metadata (META_OPEN ++ repeat 91 n ++ META_CLOSE) =
        Err RecursionError)
  /\ (forall text,
        str_contains META_OPEN text = false -> extract_metadata text = Ok PNone)
  /\ (forall text,
        str_contains META_CLOSE text = false -> extract_metadata text = Ok PNone)
  /\ (forall text g,
        re_search_meta text = Some g ->
        json_loads (stack_used_up InExtractMetadata) g = Err JSONDecodeError ->
        extract_metadata text = Ok PNone)
  /\ (forall pre g post,
        str_contains META_OPEN pre = false ->
        str_contains META_CLOSE g = false ->
        existsb (N.eqb 10) g = false ->
        extract_metadata (pre ++ META_OPEN ++ g ++ META_CLOSE ++ post) =
        match json_loads (stack_used_up InExtractMetadata) g with
        | Ok v => Ok v
        | Err JSONDecodeError => Ok PNone
        | Err e => Err e
        end).
Proof.
  split; [|split; [|split; [|split; [|split]]]].
  - assert (S : re_search_meta (META_OPEN ++ repeat 57 4301 ++ META_CLOSE)
                = Some (repeat 57 4301)).
    { rewrite <- (app_nil_r META_CLOSE).
      apply (re_search_first [] (repeat 57 4301) []); vm_compute; reflexivity. }
    rewrite extract_metadata_eq, S. vm_compute. reflexivity.
  - intros n Hn H.
    assert (S : re_search_meta (META_OPEN ++ repeat 91 n ++ META_CLOSE)
                = Some (repeat 91 n)).
    { rewrite <- (app_nil_r META_CLOSE).
      destruct (brackets_have_no_marker n) as [B1 B2].
      apply (re_search_first [] (repeat 91 n) []); trivial. }
    rewrite extract_metadata_eq, S, (loads_brackets _ _ Hn H). reflexivity.
  - intros text H. rewrite extract_metadata_eq, (re_search_no_open _ H). reflexivity.
  - intros text H. rewrite extract_metadata_eq, (re_search_no_close _ H). reflexivity.
  - intros text g H1 H2. rewrite extract_metadata_eq, H1, H2. reflexivity.
  - intros pre g post H1 H2 H3.
    rewrite extract_metadata_eq, (re_search_first _ _ _ H1 H2 H3). reflexivity.
Qed.

(** ** The metadata codec: writing and reading back *)

Lemma plain_char_bounds (c : codepoint) :
  plain_char c = true -> 32 <= c /\ c <= 126 /\ c <> 34 /\ c <> 92.
Proof.
  unfold plain_char. rewrite !andb_true_iff, !negb_true_iff, !N.leb_le, !N.eqb_neq.
  intros [[[H1 H2] H3] H4]. auto.
Qed.

Lemma plain_char_intro (c : codepoint) :
  32 <= c -> c <= 126 -> c <> 34 -> c <> 92 -> plain_char c = true.
Proof.
  intros H1 H2 H3 H4. unfold plain_char.
  rewrite !andb_true_iff, !negb_true_iff, !N.leb_le, !N.eqb_neq. auto.
Qed.

Lemma hex_digit_bounds (d : N) : 48 <= hex_digit d.
Proof. unfold hex_digit. destruct (d <? 10); lia. Qed.

Lemma hex_value_digit (d : N) : d < 16 -> hex_value (hex_digit d) = Some d.
Proof.
  intros H. unfold hex_digit, hex_value.
  destruct (N.ltb_spec d 10) as [L|L].
  - replace ((48 <=? 48 + d) && (48 + d <=? 57)) with true.
    + f_equal. lia.
    + symmetry. apply andb_true_iff. split; apply N.leb_le; lia.
  - replace ((48 <=? 87 + d) && (87 + d <=? 57)) with false.
    + replace ((97 <=? 87 + d) && (87 + d <=? 102)) with true.
      * f_equal. lia.
      * symmetry. apply andb_true_iff. split; apply N.leb_le; lia.
    + symmetry. apply andb_false_iff. right. apply N.leb_gt. lia.
Qed.

(** Reading back the four digits of a [\uXXXX] escape. *)
Lemma lex_hex4 (acc : stracc) (toks : list token) (u : N) (rest : pystr) :
  u < 65536 ->
  lex_run (LHex acc 4 0, toks) (hex4 u ++ rest) =
  lex_run (LStr (push_escaped acc u), toks) rest.
Proof.
  intros H. unfold hex4. cbn [app lex_run lex_step].
  do 4 (rewrite hex_value_digit
          by first [ apply N.mod_upper_bound; lia
                   | div_arith ];
        cbv beta iota; cbn [lex_step]).
  assert (E : 16 * (16 * (16 * (16 * 0 + u / 4096) + (u / 256) mod 16)
                    + (u / 16) mod 16) + u mod 16 = u)
    by (div_arith).
  rewrite E. reflexivity.
Qed.

Lemma push_escaped_scalar (acc : stracc) (u : codepoint) :
  is_surrogate u = false -> push_escaped acc u = (u, false) :: acc.
Proof.
  unfold is_surrogate, push_escaped, is_low_surrogate, is_high_surrogate.
  intros H. apply andb_false_iff in H. rewrite !N.leb_gt in H.
  assert (L : (56320 <=? u) && (u <=? 57343) = false)
    by (apply andb_false_iff; rewrite !N.leb_gt; lia).
  assert (Hi : (55296 <=? u) && (u <=? 56319) = false)
    by (apply andb_false_iff; rewrite !N.leb_gt; lia).
  rewrite L, Hi. destruct acc as [|[hi [|]] acc]; reflexivity.
Qed.

Lemma push_escaped_pair (acc : stracc) (c : codepoint) :
  65536 <= c -> c <= 1114111 ->
  push_escaped (push_escaped acc (55296 + (c - 65536) / 1024))
    (56320 + (c - 65536) mod 1024) = (c, false) :: acc.
Proof.
  intros H1 H2.
  assert (Hhi : is_high_surrogate (55296 + (c - 65536) / 1024) = true).
  { unfold is_high_surrogate. apply andb_true_iff. rewrite !N.leb_le.
    div_arith. }
  assert (Hnl : is_low_surrogate (55296 + (c - 65536) / 1024) = false).
  { unfold is_low_surrogate. apply andb_false_iff. rewrite !N.leb_gt.
    div_arith. }
  assert (Hlo : is_low_surrogate (56320 + (c - 65536) mod 1024) = true).
  { unfold is_low_surrogate. apply andb_true_iff. rewrite !N.leb_le.
    div_arith. }
  assert (E : push_escaped acc (55296 + (c - 65536) / 1024)
              = (55296 + (c - 65536) / 1024, true) :: acc).
  { unfold push_escaped. rewrite Hnl, Hhi. destruct acc as [|[hi [|]] acc]; reflexivity. }
  rewrite E. unfold push_escaped. rewrite Hlo. do 2 f_equal.
  div_arith.
Qed.

(** How [json.dumps] writes one character: as it stands when it is plain,
    behind a backslash otherwise. *)
Lemma json_escape_char_cases (c : codepoint) :
  (plain_char c = true /\ json_escape_char c = [c])
  \/ (plain_char c = false
      /\ exists t, json_escape_char c = 92 :: t
                   /\ forallb (fun x => negb (x =? 32) && negb (x =? 10)) t = true).
Proof.
  unfold json_escape_char.
  destruct (N.eqb_spec c 34) as [->|N1]; [right; split; [reflexivity | eexists; split; reflexivity]|].
  destruct (N.eqb_spec c 92) as [->|N2]; [right; split; [reflexivity | eexists; split; reflexivity]|].
  destruct (N.eqb_spec c 10) as [->|N3]; [right; split; [reflexivity | eexists; split; reflexivity]|].
  destruct (N.eqb_spec c 13) as [->|N4]; [right; split; [reflexivity | eexists; split; reflexivity]|].
  destruct (N.eqb_spec c 9) as [->|N5]; [right; split; [reflexivity | eexists; split; reflexivity]|].
  destruct (N.eqb_spec c 8) as [->|N6]; [right; split; [reflexivity | eexists; split; reflexivity]|].
  destruct (N.eqb_spec c 12) as [->|N7]; [right; split; [reflexivity | eexists; split; reflexivity]|].
  assert (Hd : forall d, negb (hex_digit d =? 32) && negb (hex_digit d =? 10) = true).
  { intros d. pose proof (hex_digit_bounds d).
    apply andb_true_iff; split; apply negb_true_iff, N.eqb_neq; lia. }
  destruct ((32 <=? c) && (c <=? 126)) eqn:R.
  - left. apply andb_true_iff in R. rewrite !N.leb_le in R.
    destruct R as [R1 R2].
    split; [apply plain_char_intro; assumption | reflexivity].
  - right. split.
    + unfold plain_char. rewrite R. reflexivity.
    + destruct (c <? 65536); eexists; (split; [reflexivity|]);
        cbn [forallb app hex4]; rewrite !Hd; reflexivity.
Qed.

Lemma lex_escape_char (c : codepoint) (acc : stracc) (toks : list token)
    (rest : pystr) :
  c <= 1114111 -> is_surrogate c = false ->
  lex_run (LStr acc, toks) (json_escape_char c ++ rest) =
  lex_run (LStr ((c, false) :: acc), toks) rest.
Proof.
  intros Hmax Hs. unfold json_escape_char.
  destruct (N.eqb_spec c 34) as [->|N1]; [reflexivity|].
  destruct (N.eqb_spec c 92) as [->|N2]; [reflexivity|].
  destruct (N.eqb_spec c 10) as [->|N3]; [reflexivity|].
  destruct (N.eqb_spec c 13) as [->|N4]; [reflexivity|].
  destruct (N.eqb_spec c 9) as [->|N5]; [reflexivity|].
  destruct (N.eqb_spec c 8) as [->|N6]; [reflexivity|].
  destruct (N.eqb_spec c 12) as [->|N7]; [reflexivity|].
  destruct ((32 <=? c) && (c <=? 126)) eqn:R.
  - apply andb_true_iff in R. rewrite !N.leb_le in R.
    cbn [app lex_run lex_step].
    destruct (N.eqb_spec c 34); [contradiction|].
    destruct (N.eqb_spec c 92); [contradiction|].
    destruct (N.ltb_spec c 32); [lia | reflexivity].
  - destruct (N.ltb_spec c 65536) as [L|L].
    + change (([92; 117] ++ hex4 c) ++ rest) with (92 :: 117 :: hex4 c ++ rest).
      change (lex_run (LStr acc, toks) (92 :: 117 :: hex4 c ++ rest))
        with (lex_run (LHex acc 4 0, toks) (hex4 c ++ rest)).
      rewrite (lex_hex4 _ _ _ _ L), (push_escaped_scalar _ _ Hs). reflexivity.
    + cbv zeta.
      change (([92; 117] ++ hex4 (55296 + (c - 65536) / 1024) ++ [92; 117]
                 ++ hex4 (56320 + (c - 65536) mod 1024)) ++ rest)
        with (92 :: 117 :: hex4 (55296 + (c - 65536) / 1024)
                ++ (92 :: 117 :: hex4 (56320 + (c - 65536) mod 1024) ++ rest)).
      change (lex_run (LStr acc, toks)
                (92 :: 117 :: hex4 (55296 + (c - 65536) / 1024)
                   ++ 92 :: 117 :: hex4 (56320 + (c - 65536) mod 1024) ++ rest))
        with (lex_run (LHex acc 4 0, toks)
                (hex4 (55296 + (c - 65536) / 1024)
                   ++ 92 :: 117 :: hex4 (56320 + (c - 65536) mod 1024) ++ rest)).
      rewrite lex_hex4 by (div_arith).
      change (lex_run
                (LStr (push_escaped acc (55296 + (c - 65536) / 1024)), toks)
                (92 :: 117 :: hex4 (56320 + (c - 65536) mod 1024) ++ rest))
        with (lex_run
                (LHex (push_escaped acc (55296 + (c - 65536) / 1024)) 4 0, toks)
                (hex4 (56320 + (c - 65536) mod 1024) ++ rest)).
      rewrite lex_hex4 by (div_arith).
      rewrite push_escaped_pair by lia. reflexivity.
Qed.

(** Reading back the inside of a string literal. *)
Lemma lex_run_escaped (s : pystr) (acc : stracc) (toks : list token) (rest : pystr) :
  is_text s = true -> encodable s = true ->
  lex_run (LStr acc, toks) (escaped s ++ rest) =
  lex_run (LStr (rev (raw s) ++ acc), toks) rest.
Proof.
  revert acc; induction s as [|c s IH]; intros acc Ht He; [reflexivity|].
  cbn [is_text encodable forallb] in Ht, He.
  apply andb_true_iff in Ht, He. destruct Ht as [Hc Ht], He as [Hn He].
  apply N.leb_le in Hc. apply negb_true_iff in Hn.
  unfold escaped. cbn [flat_map]. rewrite <- app_assoc.
  rewrite (lex_escape_char _ _ _ _ Hc Hn).
  fold (escaped s). rewrite (IH _ Ht He).
  cbn [raw map rev]. rewrite <- app_assoc. reflexivity.
Qed.

Lemma raw_text (s : pystr) : rev (map fst (rev (raw s) ++ [])) = s.
Proof.
  rewrite app_nil_r, map_rev, rev_involutive. unfold raw.
  rewrite map_map. simpl. apply map_id.
Qed.

Lemma escaped_no_newline (s : pystr) : existsb (N.eqb 10) (escaped s) = false.
Proof.
  induction s as [|c s IH]; [reflexivity|].
  unfold escaped. cbn [flat_map]. rewrite existsb_app. fold (escaped s).
  rewrite IH, orb_false_r.
  destruct (json_escape_char_cases c) as [[Hp ->] | [_ (t & -> & Ht)]].
  - apply plain_char_bounds in Hp. cbn [existsb]. rewrite orb_false_r.
    apply N.eqb_neq. lia.
  - cbn [existsb]. change (10 =? 92) with false. cbn [orb].
    clear -Ht. induction t as [|x t IHt]; [reflexivity|].
    cbn [forallb existsb] in *. apply andb_true_iff in Ht. destruct Ht as [Hx Ht].
    apply andb_true_iff in Hx. destruct Hx as [_ Hx].
    apply negb_true_iff in Hx. rewrite N.eqb_sym, Hx. exact (IHt Ht).
Qed.

Lemma str_contains_cons_intro (p : pystr) (c : codepoint) (s : pystr) :
  skip_prefix p (c :: s) = None -> str_contains p s = false ->
  str_contains p (c :: s) = false.
Proof. intros H1 H2. simpl str_contains. rewrite H1. exact H2. Qed.

Lemma str_contains_through (a : codepoint) (p s : pystr) (x : codepoint) (t : pystr) :
  ~ In x p -> str_contains (a :: p) s = false ->
  str_contains (a :: p) (x :: t) = false ->
  str_contains (a :: p) (s ++ x :: t) = false.
Proof.
  intros Hx. induction s as [|c s IH]; intros Hs Ht; [exact Ht|].
  apply str_contains_cons in Hs. destruct Hs as [Hs1 Hs2].
  simpl app. apply str_contains_cons_intro.
  - apply (no_straddle a p (c :: s) x t Hx); [discriminate | exact Hs1].
  - apply IH; assumption.
Qed.

(** A pattern of plain characters that does not stand at the start of a text
    does not stand at the start of its escaped form. *)
Lemma skip_prefix_escaped (p s : pystr) :
  forallb plain_char p = true ->
  skip_prefix p s = None -> skip_prefix p (escaped s) = None.
Proof.
  revert s; induction p as [|a p IH]; intros s Hp H; [discriminate|].
  cbn [forallb] in Hp. apply andb_true_iff in Hp. destruct Hp as [Ha Hp].
  destruct s as [|c s]; [reflexivity|].
  unfold escaped. cbn [flat_map]. fold (escaped s).
  destruct (json_escape_char_cases c) as [[Hc ->] | [_ (t & -> & _)]].
  - cbn [app skip_prefix] in *. destruct (a =? c); [apply IH; assumption | reflexivity].
  - cbn [app skip_prefix]. apply plain_char_bounds in Ha.
    destruct (N.eqb_spec a 92); [lia | reflexivity].
Qed.

Lemma str_contains_past (a : codepoint) (p t rest : pystr) :
  forallb (fun x => negb (x =? a)) t = true ->
  str_contains (a :: p) (t ++ rest) = str_contains (a :: p) rest.
Proof.
  induction t as [|x t IH]; intros H; [reflexivity|].
  cbn [forallb] in H. apply andb_true_iff in H. destruct H as [Hx Ht].
  apply negb_true_iff in Hx. rewrite N.eqb_sym in Hx.
  cbn [app str_contains skip_prefix]. rewrite Hx. apply IH, Ht.
Qed.

Lemma escaped_contains (s : pystr) :
  str_contains META_CLOSE s = false -> str_contains META_CLOSE (escaped s) = false.
Proof.
  induction s as [|c s IH]; intros H; [reflexivity|].
  pose proof (skip_prefix_escaped META_CLOSE (c :: s) eq_refl) as Hk.
  apply str_contains_cons in H. destruct H as [H1 H2].
  specialize (Hk H1). unfold escaped in *. cbn [flat_map] in *. fold (escaped s) in *.
  destruct (json_escape_char_cases c) as [[Hc E] | [_ (t & E & Ht)]]; rewrite E in *.
  - apply str_contains_cons_intro; [exact Hk | apply IH, H2].
  - change META_CLOSE with (32 :: tl META_CLOSE).
    rewrite (str_contains_past 32 (tl META_CLOSE) (92 :: t)).
    + apply IH, H2.
    + cbn [forallb]. apply andb_true_iff. split; [reflexivity|].
      clear -Ht. induction t as [|x t IHt]; [reflexivity|].
      cbn [forallb] in *. apply andb_true_iff in Ht. destruct Ht as [Hx Ht].
      apply andb_true_iff in Hx. destruct Hx as [Hx _].
      rewrite Hx, (IHt Ht). reflexivity.
Qed.

Lemma lex_run_app (st : lexstate) (a b : pystr) :
  lex_run st (a ++ b) =
  match lex_run st a with
  | Some st' => lex_run st' b
  | None => None
  end.
Proof.
  revert st; induction a as [|c a IH]; intros st; simpl; [reflexivity|].
  destruct (lex_step st c); [apply IH | reflexivity].
Qed.

Lemma dumps_record (salt hash : pystr) :
  json_dumps (challenge_record salt hash) = record_text salt hash.
Proof.
  unfold challenge_record, record_text. cbn [json_dumps].
  unfold json_quote. fold (escaped salt). fold (escaped hash).
  change (flat_map json_escape_char (lit "salt")) with (lit "salt").
  change (flat_map json_escape_char (lit "hash")) with (lit "hash").
  change (flat_map json_escape_char (lit "mode")) with (lit "mode").
  change (flat_map json_escape_char (lit "quiz")) with (lit "quiz").
  vm_compute (lit _). unfold DQ. cbn [app].
  repeat (rewrite <- app_assoc; cbn [app]). reflexivity.
Qed.

Lemma field_text_parts (s : pystr) :
  field_text s = true ->
  is_text s = true /\ encodable s = true /\ str_contains META_CLOSE s = false.
Proof.
  unfold field_text. rewrite !andb_true_iff, negb_true_iff.
  intros [[H1 H2] H3]. auto.
Qed.

Lemma record_text_clean (salt hash : pystr) :
  field_text salt = true -> field_text hash = true ->
  str_contains META_CLOSE (record_text salt hash) = false
  /\ existsb (N.eqb 10) (record_text salt hash) = false.
Proof.
  intros Hs Hh.
  apply field_text_parts in Hs, Hh.
  destruct Hs as (_ & _ & Hs), Hh as (_ & _ & Hh).
  apply escaped_contains in Hs, Hh.
  unfold record_text. vm_compute (lit _). unfold DQ. cbn [app]. split.
  - repeat (apply str_contains_cons_intro; [reflexivity|]).
    apply (str_contains_through 32 (tl META_CLOSE) (escaped salt) 34);
      [apply not_in_by_eqb; reflexivity | exact Hs |].
    repeat (apply str_contains_cons_intro; [reflexivity|]).
    apply (str_contains_through 32 (tl META_CLOSE) (escaped hash) 34);
      [apply not_in_by_eqb; reflexivity | exact Hh |].
    reflexivity.
  - cbn [existsb]. rewrite existsb_app, escaped_no_newline.
    cbn [existsb]. rewrite existsb_app, escaped_no_newline.
    reflexivity.
Qed.

Lemma lex_run_close (acc : stracc) (toks : list token) (rest : pystr) :
  lex_run (LStr acc, toks) (DQ ++ rest) =
  lex_run (LIdle, TAtom (PStr (rev (map fst acc))) :: toks) rest.
Proof. reflexivity. Qed.

Lemma lex_scan_run (st st' : lexstate) (s : pystr) :
  lex_run st s = Some st' -> lex_scan st s = (st', true).
Proof.
  revert st; induction s as [|c s IH]; intros st; cbn [lex_run lex_scan].
  - intros H; injection H as <-; reflexivity.
  - destruct (lex_step st c) as [st1|]; [apply IH | discriminate].
Qed.

Lemma lex_record (salt hash : pystr) :
  field_text salt = true -> field_text hash = true ->
  lex (record_text salt hash) =
  ([TLBrace; TAtom (PStr (lit "salt")); TColon; TAtom (PStr salt); TComma;
    TAtom (PStr (lit "hash")); TColon; TAtom (PStr hash); TComma;
    TAtom (PStr (lit "mode")); TColon; TAtom (PStr (lit "quiz")); TRBrace],
   true).
Proof.
  intros Hs Hh.
  apply field_text_parts in Hs, Hh.
  destruct Hs as (Hs1 & Hs2 & _), Hh as (Hh1 & Hh2 & _).
  unfold lex.
  rewrite (lex_scan_run (LIdle, [])
             (LIdle,
              rev [TLBrace; TAtom (PStr (lit "salt")); TColon;
                   TAtom (PStr salt); TComma; TAtom (PStr (lit "hash"));
                   TColon; TAtom (PStr hash); TComma;
                   TAtom (PStr (lit "mode")); TColon;
                   TAtom (PStr (lit "quiz")); TRBrace])); [reflexivity|].
  unfold record_text.
  rewrite lex_run_app.
  change (lex_run (LIdle, [])
            (lit "{" ++ DQ ++ lit "salt" ++ DQ ++ lit ": " ++ DQ))
    with (Some (LStr [], [TColon; TAtom (PStr (lit "salt")); TLBrace])).
  cbv beta iota.
  rewrite (lex_run_escaped _ _ _ _ Hs1 Hs2).
  rewrite lex_run_app, lex_run_close, raw_text.
  change (lex_run
            (LIdle,
             [TAtom (PStr salt); TColon; TAtom (PStr (lit "salt")); TLBrace])
            (lit ", " ++ DQ ++ lit "hash" ++ DQ ++ lit ": " ++ DQ))
    with (Some
            (LStr [],
             [TColon; TAtom (PStr (lit "hash")); TComma; TAtom (PStr salt);
              TColon; TAtom (PStr (lit "salt")); TLBrace])).
  cbv beta iota.
  rewrite (lex_run_escaped _ _ _ _ Hh1 Hh2).
  rewrite lex_run_close, raw_text.
  reflexivity.
Qed.

(** A challenge record is read back wherever [json.loads] is called: it
    holds no number, and one container. *)
Lemma loads_record (stack : pystr -> bool) (salt hash : pystr) :
  field_text salt = true -> field_text hash = true ->
  json_loads stack (record_text salt hash) = Ok (challenge_record salt hash).
Proof.
  intros Hs Hh. unfold json_loads. rewrite (lex_record _ _ Hs Hh). reflexivity.
Qed.

Lemma round_trip_fields (salt hash : pystr) :
  field_text salt = true -> field_text hash = true ->
  extract_metadata (create_hidden_metadata (challenge_record salt hash)) =
  Ok (challenge_record salt hash).
Proof.
  intros Hs Hh.
  destruct (record_text_clean _ _ Hs Hh) as [Hc Hn].
  unfold create_hidden_metadata. rewrite dumps_record.
  change (lit "<!-- readguard_meta: " ++ record_text salt hash ++ lit " -->")
    with ([] ++ META_OPEN ++ record_text salt hash ++ META_CLOSE ++ []).
  rewrite extract_metadata_eq, re_search_first by (reflexivity || assumption).
  rewrite (loads_record _ _ _ Hs Hh). reflexivity.
Qed.

Lemma hex_is_field_text (s : pystr) : hex_text s = true -> field_text s = true.
Proof.
  unfold hex_text, field_text. intros H.
  assert (Hb : Forall (fun c => (48 <= c /\ c <= 57) \/ (97 <= c /\ c <= 102)) s).
  { induction s as [|c s IH]; constructor;
      cbn [forallb] in H; apply andb_true_iff in H; destruct H as [Hc Hs].
    - unfold is_lower_hex in Hc. apply orb_true_iff in Hc.
      rewrite !andb_true_iff, !N.leb_le in Hc. exact Hc.
    - apply IH, Hs. }
  clear H. rewrite !andb_true_iff, negb_true_iff. split; [split|].
  - induction Hb as [|c s Hc _ IH]; [reflexivity|].
    cbn [is_text forallb]. apply andb_true_iff. split; [apply N.leb_le; lia | exact IH].
  - induction Hb as [|c s Hc _ IH]; [reflexivity|].
    cbn [encodable forallb]. apply andb_true_iff. split; [|exact IH].
    apply negb_true_iff. unfold is_surrogate. apply andb_false_iff.
    left. apply N.leb_gt. lia.
  - induction Hb as [|c s Hc _ IH]; [reflexivity|].
    apply str_contains_cons_intro; [|exact IH].
    change META_CLOSE with (32 :: tl META_CLOSE). cbn [skip_prefix].
    destruct (N.eqb_spec 32 c); [lia | reflexivity].
Qed.

(** C3. A challenge record, with the mode "quiz" and with a salt and a hash
    that are any text free of surrogate code points in which the text closing
    the hidden comment does not occur, is read back from its encoding as it
    was written.  The records the program writes, whose salt and hash are
    lower-case hexadecimal text, are of this kind. *)
Theorem C3_metadata_round_trip :
  (forall salt hash,
     field_text salt = true -> field_text hash = true ->
     extract_metadata (create_hidden_metadata (challenge_record salt hash)) =
     Ok (challenge_record salt hash))
  /\ (forall salt hash,
        hex_text salt = true -> hex_text hash = true ->
        extract_metadata (create_hidden_metadata (challenge_record salt hash)) =
        Ok (challenge_record salt hash)).
Proof.
  split.
  - exact round_trip_fields.
  - intros salt hash Hs Hh. apply round_trip_fields; apply hex_is_field_text; assumption.
Qed.

(** The condition on the fields is needed: a salt that holds the closing
    text cuts the hidden comment short, and nothing is read back. *)
Example round_trip_needs_clean_fields :
  extract_metadata
    (create_hidden_metadata (challenge_record (lit "a --> b") (lit "00"))) =
  Ok PNone.
Proof. reflexivity. Qed.

(** ** The scan for the open challenge *)

Lemma find_quiz_comment_eq (body : pystr) (older : list pystr) :
  find_quiz_comment (body :: older) =
  match extract_metadata body with
  | Err e => Err e
  | Ok meta =>
      if truthy meta
      then match py_get meta (lit "mode") with
           | Err e => Err e
           | Ok mode =>
               if py_eq_str mode (lit "quiz")
               then Ok (Some (body, meta))
               else find_quiz_comment older
           end
      else find_quiz_comment older
  end.
Proof. reflexivity. Qed.

Lemma find_quiz_comment_skip (newer older : list pystr) :
  Forall (fun b => no_metadata b = true) newer ->
  find_quiz_comment (newer ++ older) = find_quiz_comment older.
Proof.
  induction 1 as [|b newer Hb _ IH]; [reflexivity|].
  simpl app. rewrite find_quiz_comment_eq.
  unfold no_metadata in Hb. destruct (extract_metadata b) as [meta|]; [|discriminate].
  apply negb_true_iff in Hb. rewrite Hb. exact IH.
Qed.

Lemma quiz_record_found (body : pystr) (older : list pystr) :
  is_quiz_record body = true ->
  find_quiz_comment (body :: older) = Ok (Some (body, metadata_of body)).
Proof.
  unfold is_quiz_record, metadata_of. intros H. rewrite find_quiz_comment_eq.
  destruct (extract_metadata body) as [[| | | | |l|d]|]; try discriminate.
  destruct d as [|kv d]; [discriminate|].
  cbn [truthy py_get].
  destruct (dict_lookup (kv :: d) (lit "mode")) as [mode|]; [|discriminate].
  rewrite H. reflexivity.
Qed.

Lemma not_quiz_record_step (body : pystr) (older : list pystr) :
  is_quiz_record body = false ->
  find_quiz_comment (body :: older) = find_quiz_comment older
  \/ exists e, find_quiz_comment (body :: older) = Err e.
Proof.
  unfold is_quiz_record. intros H. rewrite find_quiz_comment_eq.
  destruct (extract_metadata body) as [meta|e]; [|eauto].
  destruct (truthy meta) eqn:T; [|auto].
  destruct meta; cbn [py_get]; eauto.
  destruct (dict_lookup d (lit "mode")) as [mode|].
  - rewrite H. auto.
  - cbn [py_eq_str]. auto.
Qed.

Lemma no_quiz_record_scan (comments : list pystr) :
  Forall (fun b => is_quiz_record b = false) comments ->
  find_quiz_comment comments = Ok None
  \/ exists e, find_quiz_comment comments = Err e.
Proof.
  induction 1 as [|b older Hb _ IH]; [left; reflexivity|].
  destruct (not_quiz_record_step b older Hb) as [-> | [e ->]]; eauto.
Qed.

(** On a history whose metadata is everywhere falsy or a dict, the scan
    gives the first comment, in the order scanned, that is a quiz record. *)
Lemma scan_finds_first_record (comments : list pystr) :
  Forall (fun b => benign b = true) comments ->
  find_quiz_comment comments =
  Ok (match find is_quiz_record comments with
      | Some b => Some (b, metadata_of b)
      | None => None
      end).
Proof.
  induction 1 as [|b older Hb _ IH]; [reflexivity|].
  cbn [find]. destruct (is_quiz_record b) eqn:Q.
  - apply quiz_record_found, Q.
  - rewrite find_quiz_comment_eq. unfold benign in Hb. unfold is_quiz_record in Q.
    destruct (extract_metadata b) as [meta|]; [|discriminate].
    destruct meta; try (apply negb_true_iff in Hb; rewrite Hb; exact IH).
    destruct (truthy (PDict d)); [|exact IH].
    cbn [py_get]. destruct (dict_lookup d (lit "mode")) as [mode|].
    + rewrite Q. exact IH.
    + cbn [py_eq_str]. exact IH.
Qed.

(** ** [run_verify_mode], case by case *)

Lemma run_verify_mode_cases (body letter : pystr) (w : World) :
  re_match_answer (str_strip body) = Some letter ->
  let user_answer := str_upper letter in
  let w1 :=
    logged INFO (lit "Received answer: " ++ user_answer)
      (logged INFO (lit "Starting Verify Mode") w) in
  run_verify_mode (comment_event body) w =
  match pr w with
  | None => (Raised ValueError, w1)
  | Some p =>
      match find_quiz_comment (rev (issue_comments p)) with
      | Err e => (Raised e, w1)
      | Ok None =>
          (Exited 1%Z,
           logged ERROR (lit "Could not find a ReadGuard quiz comment.") w1)
      | Ok (Some (_, metadata)) =>
          match py_getitem metadata (lit "hash") with
          | Err e => (Raised e, w1)
          | Ok expected_hash =>
              match py_getitem metadata (lit "salt") with
              | Err e => (Raised e, w1)
              | Ok salt =>
                  match answer_matches user_answer salt expected_hash with
                  | Err e => (Raised e, w1)
                  | Ok true =>
                      (Returned tt,
                       check_run_added (success_run (head_sha p))
                         (comment_added (confirmation user_answer)
                            (logged INFO (lit "Answer Correct!") w1)))
                  | Ok false =>
                      (Returned tt,
                       check_run_added (failure_run (head_sha p))
                         (comment_added rejection
                            (logged INFO (lit "Answer Incorrect.") w1)))
                  end
              end
          end
      end
  end.
Proof.
  intros H. cbv zeta.
  unfold run_verify_mode, comment_event, bind, lift, logger.
  remember (lit "hash") as kh. remember (lit "salt") as ks. cbn.
  rewrite H. unfold get_bot_comments, get_head_sha, post_comment, create_check_run.
  cbn. destruct (pr w) as [p|] eqn:P; [|reflexivity].
  destruct (find_quiz_comment (rev (issue_comments p))) as [[[qc metadata]|]|e];
    [|reflexivity|reflexivity].
  cbn. destruct (py_getitem metadata kh) as [expected_hash|e]; [|reflexivity].
  cbn. destruct (py_getitem metadata ks) as [salt|e]; [|reflexivity].
  cbn. destruct (answer_matches (str_upper letter) salt expected_hash) as [[|]|e];
    cbn; unfold check_run_added, comment_added, logged; cbn; rewrite ?P;
    reflexivity.
Qed.

Lemma reply_label_Some (body a : pystr) :
  reply_label body = Some a ->
  exists letter, re_match_answer (str_strip body) = Some letter /\ a = str_upper letter.
Proof.
  unfold reply_label. destruct (re_match_answer (str_strip body)) as [letter|];
    [|discriminate].
  intros H; injection H as <-. eauto.
Qed.

Lemma find_all_false {A} (f : A -> bool) (l : list A) :
  Forall (fun x => f x = false) l -> find f l = None.
Proof. induction 1 as [|x l Hx _ IH]; simpl; [|rewrite Hx]; auto. Qed.

(** C7. A comment that is read as an answer, on a pull request whose
    history holds no quiz record, ends the run in failure (exit status 1
    after the error is logged, or an exception), and nothing is posted and
    no check run is created.  When the scan of the history completes, the
    run ends with the logged error "Could not find a ReadGuard quiz comment."
    and exit status 1. *)
Theorem C7_no_open_challenge (body a : pystr) (w : World) :
  reply_label body = Some a ->
  (forall p, pr w = Some p ->
     Forall (fun b => is_quiz_record b = false) (issue_comments p)) ->
  is_failure (fst (run_verify_mode (comment_event body) w))
  /\ untouched w (world_after (run_verify_mode (comment_event body) w))
  /\ (forall p, pr w = Some p ->
        Forall (fun b => benign b = true) (issue_comments p) ->
        run_verify_mode (comment_event body) w =
        (Exited 1%Z,
         logged ERROR (lit "Could not find a ReadGuard quiz comment.")
           (logged INFO (lit "Received answer: " ++ a)
              (logged INFO (lit "Starting Verify Mode") w)))).
Proof.
  intros Ha Hq. destruct (reply_label_Some _ _ Ha) as (letter & Hl & ->).
  rewrite (run_verify_mode_cases _ _ _ Hl). cbv zeta.
  destruct (pr w) as [p|] eqn:P.
  - specialize (Hq p eq_refl). apply Forall_rev in Hq.
    split; [|split].
    + destruct (no_quiz_record_scan _ Hq) as [-> | [e ->]]; simpl;
        [discriminate | exact I].
    + destruct (no_quiz_record_scan _ Hq) as [-> | [e ->]]; split; simpl; auto.
    + intros p' Hp' Hb. injection Hp' as <-. apply Forall_rev in Hb.
      rewrite (scan_finds_first_record _ Hb), (find_all_false _ _ Hq). reflexivity.
  - split; [exact I | split; [split; simpl; auto | discriminate]].
Qed.

(** C2. The scan does not step over every comment that is not a quiz record.
    It finds the quiz record of a lone challenge comment; with a newer
    comment whose hidden metadata is the JSON array [1], it raises
    [AttributeError] at that comment ([.get] on a list) instead of going on to
    the challenge, and so does the run of verify mode on the reply
    "/answer B". *)
Theorem C2_scan_raises_on_array_metadata :
  find_quiz_comment (rev [plain_quiz]) =
    Ok (Some (plain_quiz, challenge_record (lit "3f9a") (lit "5e1f")))
  /\ is_quiz_record stray_comment = false
  /\ find_quiz_comment (rev [plain_quiz; stray_comment]) = Err AttributeError
  /\ fst (run_verify_mode (comment_event (lit "/answer B"))
            (sample_world [plain_quiz; stray_comment] [])) =
     Raised AttributeError.
Proof. repeat split; vm_compute; reflexivity. Qed.

(** ** Verdicts and retries *)

Lemma open_challenge_comment_added (body : pystr) (w : World) :
  no_metadata body = true ->
  open_challenge (comment_added body w) = open_challenge w.
Proof.
  intros H. unfold open_challenge, comment_added. cbn [pr].
  destruct (pr w) as [p|]; [|reflexivity]. cbn [issue_comments].
  rewrite rev_unit. apply (find_quiz_comment_skip [body]). auto.
Qed.

Lemma bound_to_comment_added (sha : pystr) (ch : pystr * pyval)
    (body : pystr) (w : World) :
  no_metadata body = true -> bound_to sha ch w ->
  bound_to sha ch (comment_added body w).
Proof.
  intros H [Ho (p & Hp & Hs)]. split.
  - rewrite open_challenge_comment_added; assumption.
  - unfold comment_added. cbn [pr]. rewrite Hp. eexists; split; [reflexivity | exact Hs].
Qed.

Lemma rejection_no_metadata : no_metadata rejection = true.
Proof. reflexivity. Qed.

Lemma confirmation_no_metadata (L : label) :
  no_metadata (confirmation (label_text L)) = true.
Proof. destruct L; reflexivity. Qed.

(** The verdict of one run in a world bound to a challenge. *)
Lemma verdict (sha quiz : pystr) (metadata expected_hash salt : pyval)
    (body a : pystr) (w : World) (matched : bool) :
  bound_to sha (quiz, metadata) w ->
  py_getitem metadata (lit "hash") = Ok expected_hash ->
  py_getitem metadata (lit "salt") = Ok salt ->
  reply_label body = Some a ->
  answer_matches a salt expected_hash = Ok matched ->
  run_verify_mode (comment_event body) w =
  (Returned tt,
   let w1 :=
     logged INFO (lit "Received answer: " ++ a)
       (logged INFO (lit "Starting Verify Mode") w) in
   if matched
   then check_run_added (success_run sha)
          (comment_added (confirmation a) (logged INFO (lit "Answer Correct!") w1))
   else check_run_added (failure_run sha)
          (comment_added rejection (logged INFO (lit "Answer Incorrect.") w1))).
Proof.
  intros [Ho (p & Hp & Hs)] Hh Hsalt Ha Hm.
  destruct (reply_label_Some _ _ Ha) as (letter & Hl & ->).
  rewrite (run_verify_mode_cases _ _ _ Hl). cbv zeta.
  unfold open_challenge in Ho. rewrite Hp in *. rewrite Ho, Hh, Hsalt, Hm, Hs.
  destruct matched; reflexivity.
Qed.




(** ** [run_generate_mode] *)

Lemma no_patch_no_diff (files : list PRFile) (acc : pystr) :
  Forall (fun f => has_patch f = false) files ->
  fold_left add_file files acc = acc.
Proof.
  intros H; revert acc; induction H as [|f files Hf _ IH]; intros acc; [reflexivity|].
  cbn [fold_left]. rewrite <- (IH acc) at 2. f_equal.
  unfold add_file, has_patch in *. destruct (patch f) as [[|c q]|]; auto; discriminate.
Qed.

Lemma add_file_grows (files : list PRFile) (acc : pystr) :
  acc <> [] -> fold_left add_file files acc <> [].
Proof.
  revert acc; induction files as [|f files IH]; intros acc H; [exact H|].
  cbn [fold_left]. apply IH. unfold add_file.
  destruct (patch f) as [[|c q]|]; auto.
  destruct acc; [contradiction | discriminate].
Qed.

Lemma some_patch_some_diff (files : list PRFile) (acc : pystr) :
  existsb has_patch files = true -> fold_left add_file files acc <> [].
Proof.
  revert acc; induction files as [|f files IH]; intros acc; [discriminate|].
  cbn [existsb fold_left]. destruct (has_patch f) eqn:E.
  - intros _. apply add_file_grows. unfold add_file, has_patch in *.
    destruct (patch f) as [[|c q]|]; try discriminate.
    destruct acc; discriminate.
  - apply IH.
Qed.

(** The model's client always returns, and touches only the log and the
    record of requests. *)
Lemma generate_question_returns (c : LLMClient) (diff_text : pystr)
    (difficulty system_prompt custom_instructions : pyval) (w : World) :
  exists v w',
    generate_question c diff_text difficulty system_prompt custom_instructions w
    = (Returned v, w')
    /\ untouched w w'.
Proof.
  unfold generate_question, _generate_openai, _generate_gemini, bind,
    record_request, logger, ret.
  cbv zeta.
  destruct (str_eqb (provider c) (lit "openai")).
  - destruct (openai_create _ _ _ _) as [content|];
      [destruct (json_loads _ content)|]; do 2 eexists; split;
      try reflexivity; split; reflexivity.
  - destruct (str_eqb (provider c) (lit "gemini")).
    + destruct (gemini_generate _ _ _) as [content|];
        [destruct (json_loads _ content)|]; do 2 eexists; split;
        try reflexivity; split; reflexivity.
    + do 2 eexists; split; [reflexivity | split; reflexivity].
Qed.

Lemma run_generate_mode_no_diff (c : LLMClient) (inputs : pydict)
    (token_hex : pystr) (w : World) (p : PullRequest) :
  pr w = Some p -> fold_left add_file (pr_files p) [] = [] ->
  run_generate_mode c inputs token_hex w =
  (Returned tt,
   logged INFO (lit "No diff found or no changes. Exiting.")
     (logged INFO (lit "Starting Generate Mode") w)).
Proof.
  intros Hp Hd. unfold run_generate_mode, bind, logger, get_pr_diff.
  change (pr (logged INFO (lit "Starting Generate Mode") w)) with (pr w).
  rewrite Hp. cbv beta iota. rewrite Hd. reflexivity.
Qed.

Lemma run_generate_mode_failed (c : LLMClient) (inputs : pydict)
    (token_hex : pystr) (w : World) (p : PullRequest) (q_data : pyval) (w' : World) :
  pr w = Some p -> fold_left add_file (pr_files p) [] <> [] ->
  question_request c inputs (fold_left add_file (pr_files p) [])
    (logged INFO (lit "Querying LLM...")
       (logged INFO (lit "Starting Generate Mode") w)) = (Returned q_data, w') ->
  truthy q_data = false ->
  run_generate_mode c inputs token_hex w =
  (Exited 1%Z, logged ERROR (lit "Failed to generate question.") w').
Proof.
  intros Hp Hd Hq Ht. unfold run_generate_mode, bind, logger, get_pr_diff.
  change (pr (logged INFO (lit "Starting Generate Mode") w)) with (pr w).
  rewrite Hp. cbv beta iota. unfold question_request in Hq.
  destruct (fold_left add_file (pr_files p) []) as [|x d] eqn:E; [contradiction|].
  rewrite Hq, Ht. reflexivity.
Qed.

Lemma lift_cases {A} (r : result A) (w : World) :
  (exists a, r = Ok a /\ lift r w = (Returned a, w))
  \/ (exists e, r = Err e /\ lift r w = (Raised e, w)).
Proof. destruct r; [left | right]; eexists; split; reflexivity. Qed.

(** A run of generate mode that does not return normally has posted nothing
    and created no check run. *)
Lemma run_generate_mode_atomic (c : LLMClient) (inputs : pydict)
    (token_hex : pystr) (w : World) :
  (forall u, fst (run_generate_mode c inputs token_hex w) <> Returned u) ->
  untouched w (world_after (run_generate_mode c inputs token_hex w)).
Proof.
  unfold run_generate_mode, bind, logger, get_pr_diff, world_after.
  change (pr (logged INFO (lit "Starting Generate Mode") w)) with (pr w).
  destruct (pr w) as [p|] eqn:P; cbv beta iota; [|intros _; split; reflexivity].
  destruct (fold_left add_file (pr_files p) []) as [|x d];
    [intros _; split; reflexivity|].
  match goal with
  | |- context [generate_question ?a ?b ?c0 ?d0 ?e ?w0] =>
      destruct (generate_question_returns a b c0 d0 e w0) as (q & w1 & -> & U)
  end.
  assert (U' : untouched w w1) by (destruct U as [U1 U2]; split; [rewrite U1 | rewrite U2]; reflexivity).
  destruct (negb (truthy q)); [intros _; exact U'|].
  repeat match goal with
         | |- context [lift ?r ?w0] =>
             destruct (lift_cases r w0) as [(? & _ & ->) | (? & _ & ->)];
             [|intros _; exact U']
         end.
  unfold post_comment, get_head_sha, create_check_run.
  destruct U' as [U1 U2]. rewrite U1, P. cbn.
  rewrite U1, P. cbn. intros H. exfalso. apply (H tt). reflexivity.
Qed.

(** C8. With a diff to ask about, when the model's client gives back
    nothing usable (a falsy value: [None] above all), generate mode logs the
    error "Failed to generate question." and leaves with exit status 1,
    having posted nothing and created no check run.  The OpenAI client gives
    [None], after logging the text of the exception, when the call fails and
    when [json.loads] refuses the completion.  More generally, a run of
    generate mode that does not return normally has posted nothing and
    created no check run. *)
Theorem C8_generator_failure (c : LLMClient) (inputs : pydict)
    (token_hex : pystr) (w : World) (p : PullRequest) :
  pr w = Some p ->
  existsb has_patch (pr_files p) = true ->
  let asked :=
    logged INFO (lit "Querying LLM...")
      (logged INFO (lit "Starting Generate Mode") w) in
  let diff_text := fold_left add_file (pr_files p) [] in
  (forall q_data w',
     question_request c inputs diff_text asked = (Returned q_data, w') ->
     truthy q_data = false ->
     run_generate_mode c inputs token_hex w =
       (Exited 1%Z, logged ERROR (lit "Failed to generate question.") w')
     /\ untouched w (logged ERROR (lit "Failed to generate question.") w'))
  /\ (forall prompt d w0,
        openai_create c (model c) prompt
          (lit "Here is the code diff:" ++ NL ++ NL ++ d) = None ->
        _generate_openai c prompt d w0 =
        (Returned PNone,
         logged ERROR
           (lit "OpenAI error: "
              ++ openai_error c (model c) prompt
                   (lit "Here is the code diff:" ++ NL ++ NL ++ d))
           (request_added prompt d w0)))
  /\ (forall prompt d w0 content e,
        openai_create c (model c) prompt
          (lit "Here is the code diff:" ++ NL ++ NL ++ d) = Some content ->
        json_loads (stack_used_up InGenerateOpenAI) content = Err e ->
        _generate_openai c prompt d w0 =
        (Returned PNone,
         logged ERROR (lit "OpenAI error: " ++ json_error_text content)
           (request_added prompt d w0)))
  /\ ((forall u, fst (run_generate_mode c inputs token_hex w) <> Returned u) ->
      untouched w (world_after (run_generate_mode c inputs token_hex w))).
Proof.
  intros Hp Hf asked diff_text. split; [|split; [|split]].
  - intros q_data w' Hq Ht. split.
    + apply (run_generate_mode_failed _ _ _ _ p q_data w' Hp); trivial.
      apply some_patch_some_diff, Hf.
    + unfold question_request in Hq.
      match type of Hq with
      | generate_question ?a ?b ?c0 ?d0 ?e ?w0 = _ =>
          destruct (generate_question_returns a b c0 d0 e w0) as (q & w1 & E & U)
      end.
      rewrite E in Hq. injection Hq as _ <-.
      destruct U as [U1 U2]. split; [exact U1 | exact U2].
  - intros prompt d w0 H. unfold _generate_openai, bind, record_request, logger.
    rewrite H. reflexivity.
  - intros prompt d w0 content e H1 H2.
    unfold _generate_openai, bind, record_request, logger.
    rewrite H1, H2. reflexivity.
  - apply run_generate_mode_atomic.
Qed.

(** C10. When no file of the pull request has a patch (none at all, or an
    empty one), generate mode returns normally after two informational log
    lines: nothing is posted, no check run is created, and no request goes
    to the model. *)
Theorem C10_no_patch_no_effect (c : LLMClient) (inputs : pydict)
    (token_hex : pystr) (w : World) (p : PullRequest) :
  pr w = Some p ->
  Forall (fun f => has_patch f = false) (pr_files p) ->
  run_generate_mode c inputs token_hex w =
    (Returned tt,
     logged INFO (lit "No diff found or no changes. Exiting.")
       (logged INFO (lit "Starting Generate Mode") w))
  /\ untouched w (world_after (run_generate_mode c inputs token_hex w))
  /\ llm_requests (world_after (run_generate_mode c inputs token_hex w)) =
     llm_requests w.
Proof.
  intros Hp Hf.
  assert (E := run_generate_mode_no_diff c inputs token_hex w p Hp
                 (no_patch_no_diff _ [] Hf)).
  rewrite E. split; [reflexivity | split; [split|]; reflexivity].
Qed.

(** ** The answer commitment: what the normalisation absorbs *)

Lemma str_lstrip_app (a b : pystr) :
  str_lstrip a <> [] -> str_lstrip (a ++ b) = str_lstrip a ++ b.
Proof.
  induction a as [|c a IH]; simpl; [intros H; contradiction|].
  destruct (is_space c); [exact IH | reflexivity].
Qed.

Lemma str_lstrip_nil (a : pystr) :
  str_lstrip a = [] -> forallb is_space a = true.
Proof.
  induction a as [|c a IH]; simpl; [reflexivity|].
  destruct (is_space c); [exact IH | discriminate].
Qed.

Lemma forallb_rev {A} (f : A -> bool) (l : list A) :
  forallb f l = true -> forallb f (rev l) = true.
Proof.
  rewrite !forallb_forall. intros H x Hx. apply H, in_rev, Hx.
Qed.

Lemma str_lstrip_all_blank (ws : pystr) :
  forallb is_space ws = true -> str_lstrip ws = [].
Proof.
  intros H. rewrite <- (app_nil_r ws). rewrite (str_lstrip_blanks _ _ H). reflexivity.
Qed.

Lemma str_rstrip_blanks (s ws : pystr) :
  forallb is_space ws = true -> str_rstrip (s ++ ws) = str_rstrip s.
Proof.
  intros H. unfold str_rstrip. rewrite rev_app_distr.
  rewrite (str_lstrip_blanks _ _ (forallb_rev _ _ H)). reflexivity.
Qed.

Lemma str_strip_padded (ws1 a ws2 : pystr) :
  forallb is_space ws1 = true -> forallb is_space ws2 = true ->
  str_strip (ws1 ++ a ++ ws2) = str_strip a.
Proof.
  intros H1 H2. unfold str_strip. rewrite (str_lstrip_blanks _ _ H1).
  destruct (str_lstrip a) as [|c r] eqn:E.
  - apply str_lstrip_nil in E.
    assert (H : forallb is_space (a ++ ws2) = true).
    { rewrite forallb_app, E, H2. reflexivity. }
    rewrite (str_lstrip_all_blank _ H). reflexivity.
  - rewrite str_lstrip_app by (rewrite E; discriminate).
    rewrite E. apply str_rstrip_blanks, H2.
Qed.

Lemma str_strip_label (l : label) :
  str_strip (label_lower l) = label_lower l
  /\ str_upper (label_lower l) = label_text l.
Proof. destruct l; split; reflexivity. Qed.

(** X1. The commitment does not see blanks around the answer: an answer
    text with any run of whitespace before and after it hashes, under any
    salt, as the bare text does (failures included).  Nor does it see the
    case of a label: a, b and c, padded or not, hash as A, B and C. *)
Theorem X1_commitment_ignores_padding_and_case
    (ws1 a ws2 : pystr) (salt : pyval) (l : label) :
  forallb is_space ws1 = true -> forallb is_space ws2 = true ->
  compute_hash (PStr (ws1 ++ a ++ ws2)) salt = compute_hash (PStr a) salt
  /\ compute_hash (PStr (ws1 ++ label_lower l ++ ws2)) salt =
     compute_hash (PStr (label_text l)) salt.
Proof.
  intros H1 H2. unfold compute_hash.
  rewrite !(str_strip_padded _ _ _ H1 H2). split; [reflexivity|].
  destruct (str_strip_label l) as [-> ->].
  destruct l; reflexivity.
Qed.

(** ** The text of the diff *)

Lemma fold_add_file (files : list PRFile) (acc : pystr) :
  fold_left add_file files acc =
  acc ++ flat_map file_block (filter has_patch files).
Proof.
  revert acc; induction files as [|f files IH]; intros acc; cbn [fold_left filter].
  - cbn. rewrite app_nil_r. reflexivity.
  - rewrite IH. unfold add_file, has_patch, file_block.
    destruct (patch f) as [[|c q]|] eqn:E; try reflexivity.
    cbn [flat_map]. rewrite E. rewrite <- !app_assoc. reflexivity.
Qed.

Lemma file_block_nonempty (f : PRFile) : has_patch f = true -> file_block f <> [].
Proof.
  unfold has_patch, file_block. destruct (patch f) as [[|c q]|]; discriminate.
Qed.

Lemma no_patch_filter (files : list PRFile) :
  existsb has_patch files = false -> filter has_patch files = [].
Proof.
  induction files as [|f files IH]; cbn [existsb filter]; [reflexivity|].
  destruct (has_patch f); [discriminate | exact IH].
Qed.

(** X2. The diff text generate mode builds is the concatenation, in the
    order of the files, of one block per file whose patch is present and
    not empty: "File: ", the file name, a newline, the patch and two
    newlines.  Files without a patch add nothing, and the text is empty
    exactly when no file has a patch. *)
Theorem X2_diff_text_is_the_patched_files (files : list PRFile) :
  fold_left add_file files [] = flat_map file_block (filter has_patch files)
  /\ (forall f, has_patch f = true ->
        exists p, patch f = Some p /\ p <> []
          /\ file_block f = lit "File: " ++ filename f ++ NL ++ p ++ NL ++ NL)
  /\ (forall before f after,
        has_patch f = false ->
        fold_left add_file (before ++ f :: after) [] =
        fold_left add_file (before ++ after) [])
  /\ (fold_left add_file files [] = [] <-> existsb has_patch files = false).
Proof.
  split; [apply fold_add_file|]. split; [|split].
  - intros f. unfold has_patch, file_block.
    destruct (patch f) as [[|c q]|]; try discriminate.
    intros _. eexists; split; [reflexivity | split; [discriminate | reflexivity]].
  - intros before f after H. rewrite !fold_add_file, !filter_app.
    cbn [filter]. rewrite H. reflexivity.
  - split.
    + intros E. destruct (existsb has_patch files) eqn:X; [|reflexivity].
      exfalso. exact (some_patch_some_diff files [] X E).
    + intros X. rewrite fold_add_file, (no_patch_filter _ X). reflexivity.
Qed.

(** ** The client of the model *)

Lemma generate_question_eq (c : LLMClient) (diff_text : pystr)
    (difficulty system_prompt custom_instructions : pyval) (w : World) :
  generate_question c diff_text difficulty system_prompt custom_instructions w =
  let prompt := chosen_prompt difficulty system_prompt custom_instructions in
  if known_provider c
  then match parsed_completion c prompt diff_text with
       | Some v => (Returned v, request_added prompt diff_text w)
       | None =>
           (Returned PNone,
            logged ERROR (error_line c prompt diff_text)
              (request_added prompt diff_text w))
       end
  else (Returned PNone, w).
Proof.
  unfold generate_question, known_provider, parsed_completion, completion,
    error_line, caught_text, client_site, completion, chosen_prompt,
    _generate_openai, _generate_gemini, bind, record_request, logger, ret.
  cbv zeta.
  destruct (str_eqb (provider c) (lit "openai")); cbn [orb].
  - destruct (openai_create _ _ _ _) as [content|];
      [destruct (json_loads _ content)|]; reflexivity.
  - destruct (str_eqb (provider c) (lit "gemini")); [|reflexivity].
    destruct (gemini_generate _ _ _) as [content|];
      [destruct (json_loads _ content)|]; reflexivity.
Qed.

(** X3. Asking the model never fails and never touches the pull request or
    the check runs.  A client of a known provider records exactly one
    request, the chosen prompt with the diff text, and returns the completion
    read as JSON when the call gives one and [json.loads] reads it; otherwise
    it logs one error line, the name of the provider followed by the text of
    the exception caught, and returns [None].  A client of any other
    provider returns [None] at once: no request, no log line. *)
Theorem X3_asking_the_model_is_contained (c : LLMClient) (diff_text : pystr)
    (difficulty system_prompt custom_instructions : pyval) (w : World) :
  let prompt := chosen_prompt difficulty system_prompt custom_instructions in
  let r :=
    generate_question c diff_text difficulty system_prompt custom_instructions w in
  (exists v, fst r = Returned v)
  /\ untouched w (world_after r)
  /\ (known_provider c = true ->
      llm_requests (world_after r) = llm_requests w ++ [(prompt, diff_text)]
      /\ (forall v,
            parsed_completion c prompt diff_text = Some v ->
            fst r = Returned v /\ log (world_after r) = log w)
      /\ (parsed_completion c prompt diff_text = None ->
          fst r = Returned PNone
          /\ log (world_after r) =
             log w ++ [(ERROR, error_line c prompt diff_text)]))
  /\ (known_provider c = false -> r = (Returned PNone, w)).
Proof.
  cbv zeta. rewrite generate_question_eq. cbv zeta.
  destruct (known_provider c).
  - destruct (parsed_completion c _ diff_text) as [v|].
    + split; [eexists; reflexivity|]. split; [split; reflexivity|].
      split; [|discriminate]. intros _. split; [reflexivity|]. split.
      * intros v' H. injection H as <-. split; reflexivity.
      * discriminate.
    + split; [eexists; reflexivity|]. split; [split; reflexivity|].
      split; [|discriminate]. intros _. split; [reflexivity|]. split.
      * discriminate.
      * intros _. split; reflexivity.
  - split; [eexists; reflexivity|]. split; [split; reflexivity|].
    split; [discriminate | reflexivity].
Qed.

(** ** [run_generate_mode], case by case *)

(** What a run does with the value the client returned. *)
Lemma run_generate_mode_cases (c : LLMClient) (inputs : pydict)
    (token_hex : pystr) (w : World) (p : PullRequest) (q_data : pyval)
    (w1 : World) :
  pr w = Some p -> fold_left add_file (pr_files p) [] <> [] ->
  question_request c inputs (fold_left add_file (pr_files p) [])
    (logged INFO (lit "Querying LLM...")
       (logged INFO (lit "Starting Generate Mode") w)) = (Returned q_data, w1) ->
  truthy q_data = true ->
  run_generate_mode c inputs token_hex w =
  match py_getitem q_data (lit "correct_answer") with
  | Err e => (Raised e, w1)
  | Ok correct_answer =>
  match compute_hash correct_answer (PStr token_hex) with
  | Err e => (Raised e, w1)
  | Ok correct_hash =>
  match py_getitem q_data (lit "question") with
  | Err e => (Raised e, w1)
  | Ok question =>
  match quiz_option q_data (lit "A") with
  | Err e => (Raised e, w1)
  | Ok optA =>
  match quiz_option q_data (lit "B") with
  | Err e => (Raised e, w1)
  | Ok optB =>
  match quiz_option q_data (lit "C") with
  | Err e => (Raised e, w1)
  | Ok optC =>
      (Returned tt,
       quiz_posted
         (challenge_comment question optA optB optC token_hex correct_hash) p w1)
  end end end end end end.
Proof.
  intros Hp Hd Hq Ht.
  assert (U : pr w1 = Some p).
  { unfold question_request in Hq.
    match type of Hq with
    | generate_question ?a ?b ?c0 ?d0 ?e ?w0 = _ =>
        destruct (generate_question_returns a b c0 d0 e w0) as (q & w' & E & U)
    end.
    rewrite E in Hq. injection Hq as _ <-. destruct U as [U _].
    rewrite U. exact Hp. }
  unfold run_generate_mode, bind, logger, get_pr_diff.
  change (pr (logged INFO (lit "Starting Generate Mode") w)) with (pr w).
  rewrite Hp. cbv beta iota. unfold question_request in Hq.
  destruct (fold_left add_file (pr_files p) []) as [|x d] eqn:E; [contradiction|].
  rewrite Hq, Ht. cbn [negb]. cbv beta iota.
  unfold lift, ret, raise.
  destruct (py_getitem q_data (lit "correct_answer")) as [ca|e]; [|reflexivity].
  cbv beta iota.
  destruct (compute_hash ca (PStr token_hex)) as [h|e]; [|reflexivity].
  cbv beta iota.
  destruct (py_getitem q_data (lit "question")) as [qu|e]; [|reflexivity].
  cbv beta iota.
  destruct (quiz_option q_data (lit "A")) as [oa|e]; [|reflexivity].
  cbv beta iota.
  destruct (quiz_option q_data (lit "B")) as [ob|e]; [|reflexivity].
  cbv beta iota.
  destruct (quiz_option q_data (lit "C")) as [oc|e]; [|reflexivity].
  cbv beta iota.
  unfold post_comment, get_head_sha, create_check_run, quiz_posted,
    challenge_comment, challenge_record, pending_run.
  rewrite U. cbv beta iota.
  unfold comment_added at 1. cbn [pr]. rewrite U. cbv beta iota.
  unfold comment_added, check_run_added, logged. cbn. rewrite U. reflexivity.
Qed.

Lemma question_request_eq (c : LLMClient) (inputs : pydict) (p : PullRequest)
    (w : World) :
  question_request c inputs (fold_left add_file (pr_files p) [])
    (logged INFO (lit "Querying LLM...")
       (logged INFO (lit "Starting Generate Mode") w)) =
  if known_provider c
  then match parsed_completion c (run_prompt inputs)
               (str_slice_to 10000 (fold_left add_file (pr_files p) [])) with
       | Some v => (Returned v, asked_world inputs p w)
       | None =>
           (Returned PNone,
            logged ERROR
              (error_line c (run_prompt inputs)
                 (str_slice_to 10000 (fold_left add_file (pr_files p) [])))
              (asked_world inputs p w))
       end
  else (Returned PNone,
        logged INFO (lit "Querying LLM...")
          (logged INFO (lit "Starting Generate Mode") w)).
Proof. unfold question_request. rewrite generate_question_eq. reflexivity. Qed.

(** The requests a run leaves, when there is a diff and the provider is
    known. *)
Lemma run_generate_mode_requests (c : LLMClient) (inputs : pydict)
    (token_hex : pystr) (w : World) (p : PullRequest) :
  pr w = Some p -> fold_left add_file (pr_files p) [] <> [] ->
  known_provider c = true ->
  llm_requests (world_after (run_generate_mode c inputs token_hex w)) =
  llm_requests (asked_world inputs p w).
Proof.
  intros Hp Hd Hk.
  pose proof (question_request_eq c inputs p w) as Hq. rewrite Hk in Hq.
  destruct (parsed_completion c (run_prompt inputs)
              (str_slice_to 10000 (fold_left add_file (pr_files p) [])))
    as [v|].
  - destruct (truthy v) eqn:T.
    + rewrite (run_generate_mode_cases _ _ _ _ _ _ _ Hp Hd Hq T).
      destruct (py_getitem v (lit "correct_answer")) as [ca|e]; [|reflexivity].
      destruct (compute_hash ca (PStr token_hex)) as [h|e]; [|reflexivity].
      destruct (py_getitem v (lit "question")) as [qu|e]; [|reflexivity].
      destruct (quiz_option v (lit "A")) as [oa|e]; [|reflexivity].
      destruct (quiz_option v (lit "B")) as [ob|e]; [|reflexivity].
      destruct (quiz_option v (lit "C")) as [oc|e]; reflexivity.
    + rewrite (run_generate_mode_failed _ _ _ _ _ _ _ Hp Hd Hq T). reflexivity.
  - rewrite (run_generate_mode_failed _ _ _ _ _ _ _ Hp Hd Hq eq_refl). reflexivity.
Qed.

(** X4. A run of generate mode on a pull request with a patch, with a client
    of a known provider, sends exactly one request to the model, however the
    run ends: the prompt chosen from the inputs, with the first 10000
    characters of the diff text.  A diff text of at most 10000 characters is
    sent whole. *)
Theorem X4_one_request_with_truncated_diff (c : LLMClient) (inputs : pydict)
    (token_hex : pystr) (w : World) (p : PullRequest) :
  pr w = Some p -> existsb has_patch (pr_files p) = true ->
  known_provider c = true ->
  let diff_text := flat_map file_block (filter has_patch (pr_files p)) in
  llm_requests (world_after (run_generate_mode c inputs token_hex w)) =
  llm_requests w ++ [(run_prompt inputs, str_slice_to 10000 diff_text)]
  /\ N.of_nat (List.length (str_slice_to 10000 diff_text)) <= 10000
  /\ (N.of_nat (List.length diff_text) <= 10000 ->
      str_slice_to 10000 diff_text = diff_text).
Proof.
  intros Hp Hf Hk diff_text. split; [|split].
  - rewrite (run_generate_mode_requests _ _ _ _ _ Hp
               (some_patch_some_diff _ [] Hf) Hk).
    unfold asked_world, diff_text. rewrite fold_add_file. reflexivity.
  - unfold str_slice_to.
    pose proof (firstn_le_length (N.to_nat 10000) diff_text) as H.
    clear - H. lia.
  - intros H. unfold str_slice_to. apply firstn_all2. clear - H. lia.
Qed.

Lemma run_generate_mode_prompt (c : LLMClient) (inputs inputs' : pydict)
    (token_hex : pystr) (w : World) :
  run_prompt inputs = run_prompt inputs' ->
  run_generate_mode c inputs token_hex w = run_generate_mode c inputs' token_hex w.
Proof.
  intros H. unfold run_generate_mode, bind, logger, get_pr_diff.
  destruct (pr (logged INFO (lit "Starting Generate Mode") w)) as [p|];
    [|reflexivity].
  cbv beta iota.
  destruct (fold_left add_file (pr_files p) []) as [|x d]; [reflexivity|].
  rewrite !generate_question_eq. cbv zeta.
  fold (run_prompt inputs). fold (run_prompt inputs'). rewrite H. reflexivity.
Qed.

(** X5. A system prompt given in the inputs, when it is not empty, is the
    prompt of the run as it stands: the difficulty and the custom
    instructions play no part, so two runs whose inputs agree on it do the
    same.  Without one (absent, [None] or empty) the prompt is the built-in
    one, made with the difficulty, "medium" when the inputs give none, and
    the custom instructions. *)
Theorem X5_system_prompt_overrides (c : LLMClient) (inputs inputs' : pydict)
    (token_hex : pystr) (w : World) (sp : pyval) :
  (dict_lookup inputs (lit "system_prompt") = Some sp ->
   dict_lookup inputs' (lit "system_prompt") = Some sp ->
   truthy sp = true ->
   run_prompt inputs = sp
   /\ run_generate_mode c inputs token_hex w =
      run_generate_mode c inputs' token_hex w)
  /\ (truthy (dict_get inputs (lit "system_prompt") PNone) = false ->
      dict_lookup inputs (lit "difficulty") = None ->
      run_prompt inputs =
      PStr (default_system_prompt (PStr (lit "medium"))
              (if truthy (dict_get inputs (lit "custom_instructions") PNone)
               then lit "- "
                    ++ py_str (dict_get inputs (lit "custom_instructions") PNone)
               else []))).
Proof.
  split.
  - intros H1 H2 T.
    assert (E : forall i, dict_lookup i (lit "system_prompt") = Some sp ->
                          run_prompt i = sp).
    { intros i Hi. unfold run_prompt, chosen_prompt, dict_get.
      rewrite Hi, T. reflexivity. }
    split; [exact (E _ H1)|].
    apply run_generate_mode_prompt. rewrite (E _ H1), (E _ H2). reflexivity.
  - intros T D. unfold run_prompt, chosen_prompt. rewrite T.
    unfold dict_get at 1. rewrite D. reflexivity.
Qed.

(** The run on a response that parses: from the completion to the world. *)
Lemma run_generate_mode_parsed (c : LLMClient) (inputs : pydict)
    (token_hex : pystr) (w : World) (p : PullRequest) (q_data : pyval) :
  pr w = Some p -> existsb has_patch (pr_files p) = true ->
  known_provider c = true ->
  parsed_completion c (run_prompt inputs)
    (str_slice_to 10000 (fold_left add_file (pr_files p) [])) = Some q_data ->
  question_request c inputs (fold_left add_file (pr_files p) [])
    (logged INFO (lit "Querying LLM...")
       (logged INFO (lit "Starting Generate Mode") w)) =
  (Returned q_data, asked_world inputs p w).
Proof.
  intros Hp Hf Hk Hc. rewrite question_request_eq, Hk, Hc. reflexivity.
Qed.

Lemma run_generate_mode_posted (c : LLMClient) (inputs : pydict)
    (token_hex : pystr) (w : World) (p : PullRequest)
    (q_data correct_answer question optA optB optC : pyval) (h : pystr) :
  pr w = Some p -> existsb has_patch (pr_files p) = true ->
  known_provider c = true ->
  parsed_completion c (run_prompt inputs)
    (str_slice_to 10000 (fold_left add_file (pr_files p) [])) = Some q_data ->
  well_formed q_data correct_answer question optA optB optC ->
  compute_hash correct_answer (PStr token_hex) = Ok h ->
  run_generate_mode c inputs token_hex w =
  (Returned tt,
   quiz_posted (challenge_comment question optA optB optC token_hex h) p
     (asked_world inputs p w)).
Proof.
  intros Hp Hf Hk Hc (T & H1 & H2 & H3 & H4 & H5) Hh.
  rewrite (run_generate_mode_cases _ _ _ _ _ _ _ Hp
             (some_patch_some_diff _ [] Hf)
             (run_generate_mode_parsed _ _ token_hex _ _ _ Hp Hf Hk Hc) T).
  rewrite H1, Hh, H2, H3, H4, H5. reflexivity.
Qed.

(** X6. When the model answers with JSON that has a correct answer, a
    question and the options A, B and C, and the answer can be hashed,
    generate mode returns normally, having added exactly one comment to the
    pull request, the challenge with its hidden record of salt and hash, and
    exactly one check run on the head commit: completed, with conclusion
    "action_required".  The files and the head commit are as before. *)
Theorem X6_challenge_posted (c : LLMClient) (inputs : pydict)
    (token_hex : pystr) (w : World) (p : PullRequest)
    (q_data correct_answer question optA optB optC : pyval) (h : pystr) :
  pr w = Some p -> model_answers c inputs p q_data ->
  well_formed q_data correct_answer question optA optB optC ->
  compute_hash correct_answer (PStr token_hex) = Ok h ->
  let r := run_generate_mode c inputs token_hex w in
  let body := challenge_comment question optA optB optC token_hex h in
  fst r = Returned tt
  /\ pr (world_after r) =
     Some {| head_sha := head_sha p; pr_files := pr_files p;
             issue_comments := issue_comments p ++ [body] |}
  /\ check_runs (world_after r) = check_runs w ++ [pending_run (head_sha p)]
  /\ cr_status (pending_run (head_sha p)) = lit "completed"
  /\ cr_conclusion (pending_run (head_sha p)) = Some (lit "action_required")
  /\ log (world_after r) =
     log w ++ [(INFO, lit "Starting Generate Mode"); (INFO, lit "Querying LLM...");
               (INFO, lit "Quiz posted and check run created.")].
Proof.
  intros Hp (Hf & Hk & Hc) Hw Hh. cbv zeta.
  rewrite (run_generate_mode_posted _ _ _ _ _ _ _ _ _ _ _ _ Hp Hf Hk Hc Hw Hh).
  cbn [fst world_after snd]. split; [reflexivity|].
  unfold quiz_posted, asked_world, check_run_added, comment_added, logged,
    request_added.
  cbn [pr check_runs log llm_requests]. rewrite Hp.
  split; [reflexivity|]. split; [reflexivity|]. split; [reflexivity|].
  split; [reflexivity|]. rewrite <- !app_assoc. reflexivity.
Qed.

(** X7. A response of the model that is truthy but not what the run reads
    stops it with an exception, after the request and before anything is
    posted: [TypeError] when the response is not an object, [KeyError] when
    it has no correct answer, [AttributeError] when the correct answer is
    not text, and the error of the first failing read among the question
    and the options A, B, C otherwise.  The pull request and the check runs
    are untouched. *)
Theorem X7_malformed_response_posts_nothing (c : LLMClient) (inputs : pydict)
    (token_hex : pystr) (w : World) (p : PullRequest) (q_data : pyval) :
  pr w = Some p -> model_answers c inputs p q_data ->
  truthy q_data = true ->
  let r := run_generate_mode c inputs token_hex w in
  ((forall d, q_data <> PDict d) -> r = (Raised TypeError, asked_world inputs p w))
  /\ (forall d, q_data = PDict d ->
        dict_lookup d (lit "correct_answer") = None ->
        r = (Raised KeyError, asked_world inputs p w))
  /\ (forall d v, q_data = PDict d ->
        dict_lookup d (lit "correct_answer") = Some v ->
        (forall s, v <> PStr s) ->
        r = (Raised AttributeError, asked_world inputs p w))
  /\ (forall v h e,
        py_getitem q_data (lit "correct_answer") = Ok v ->
        compute_hash v (PStr token_hex) = Ok h ->
        py_getitem q_data (lit "question") = Err e
        \/ (exists qu, py_getitem q_data (lit "question") = Ok qu
              /\ (quiz_option q_data (lit "A") = Err e
                  \/ (exists oa, quiz_option q_data (lit "A") = Ok oa
                        /\ (quiz_option q_data (lit "B") = Err e
                            \/ (exists ob, quiz_option q_data (lit "B") = Ok ob
                                  /\ quiz_option q_data (lit "C") = Err e))))) ->
        r = (Raised e, asked_world inputs p w))
  /\ untouched w (asked_world inputs p w).
Proof.
  intros Hp (Hf & Hk & Hc) T. cbv zeta.
  rewrite (run_generate_mode_cases _ _ _ _ _ _ _ Hp
             (some_patch_some_diff _ [] Hf)
             (run_generate_mode_parsed _ _ token_hex _ _ _ Hp Hf Hk Hc) T).
  split; [|split; [|split; [|split]]].
  - intros H. destruct q_data; try reflexivity. exfalso. exact (H d eq_refl).
  - intros d -> H. cbn [py_getitem]. rewrite H. reflexivity.
  - intros d v -> H Hv. cbn [py_getitem]. rewrite H.
    destruct v; try reflexivity. exfalso. exact (Hv s eq_refl).
  - intros v h e H1 H2 H. rewrite H1, H2.
    destruct H as [-> | (qu & -> & [-> | (oa & -> & [-> | (ob & -> & ->)])])];
      reflexivity.
  - split; reflexivity.
Qed.

(** ** The challenge comment and the scan *)

Lemma quiz_body_split (question optA optB optC : pyval) (hidden : pystr) :
  quiz_body question optA optB optC hidden =
  quiz_prefix question optA optB optC ++ hidden ++ NL.
Proof.
  unfold quiz_body, quiz_prefix, unlines. cbn [flat_map].
  rewrite app_nil_r. repeat rewrite <- app_assoc. reflexivity.
Qed.

Lemma quiz_prefix_clean (question optA optB optC : pyval) :
  no_marker question = true -> no_marker optA = true ->
  no_marker optB = true -> no_marker optC = true ->
  str_contains META_OPEN (quiz_prefix question optA optB optC) = false.
Proof.
  unfold no_marker. rewrite !negb_true_iff. intros Hq Ha Hb Hc.
  unfold quiz_prefix, unlines. cbn [flat_map].
  vm_compute (lit _). unfold NL. repeat (rewrite <- app_assoc; cbn [app]).
  change META_OPEN with (60 :: tl META_OPEN) in *.
  repeat (apply str_contains_cons_intro; [reflexivity|]).
  apply (str_contains_through 60 (tl META_OPEN) (py_str question) 42);
    [apply not_in_by_eqb; reflexivity | exact Hq |].
  repeat (apply str_contains_cons_intro; [reflexivity|]).
  apply (str_contains_through 60 (tl META_OPEN) (py_str optA) 10);
    [apply not_in_by_eqb; reflexivity | exact Ha |].
  repeat (apply str_contains_cons_intro; [reflexivity|]).
  apply (str_contains_through 60 (tl META_OPEN) (py_str optB) 10);
    [apply not_in_by_eqb; reflexivity | exact Hb |].
  repeat (apply str_contains_cons_intro; [reflexivity|]).
  apply (str_contains_through 60 (tl META_OPEN) (py_str optC) 10);
    [apply not_in_by_eqb; reflexivity | exact Hc |].
  reflexivity.
Qed.

(** A hidden record inside other text: it is read back when nothing of the
    opening marker stands before it. *)
Lemma record_embedded (pre post salt hash : pystr) :
  str_contains META_OPEN pre = false ->
  field_text salt = true -> field_text hash = true ->
  extract_metadata
    (pre ++ create_hidden_metadata (challenge_record salt hash) ++ post) =
  Ok (challenge_record salt hash).
Proof.
  intros Hpre Hs Hh.
  destruct (record_text_clean _ _ Hs Hh) as [Hc Hn].
  unfold create_hidden_metadata. rewrite dumps_record.
  change (lit "<!-- readguard_meta: ") with META_OPEN.
  change (lit " -->") with META_CLOSE.
  rewrite <- !app_assoc.
  rewrite extract_metadata_eq, (re_search_first _ _ _ Hpre Hc Hn).
  rewrite (loads_record _ _ _ Hs Hh). reflexivity.
Qed.

Lemma challenge_comment_metadata (question optA optB optC : pyval)
    (salt hash : pystr) :
  no_marker question = true -> no_marker optA = true ->
  no_marker optB = true -> no_marker optC = true ->
  field_text salt = true -> field_text hash = true ->
  extract_metadata (challenge_comment question optA optB optC salt hash) =
  Ok (challenge_record salt hash).
Proof.
  intros Hq Ha Hb Hc Hs Hh. unfold challenge_comment.
  rewrite quiz_body_split.
  apply record_embedded; trivial. apply quiz_prefix_clean; assumption.
Qed.

Lemma challenge_record_is_quiz (body : pystr) (salt hash : pystr) :
  extract_metadata body = Ok (challenge_record salt hash) ->
  is_quiz_record body = true /\ metadata_of body = challenge_record salt hash.
Proof.
  intros E. unfold is_quiz_record, metadata_of. rewrite E. split; reflexivity.
Qed.

(** The world right after a challenge was posted is bound to it. *)
Lemma quiz_posted_bound (question optA optB optC : pyval) (salt hash : pystr)
    (p : PullRequest) (w1 : World) :
  pr w1 = Some p ->
  no_marker question = true -> no_marker optA = true ->
  no_marker optB = true -> no_marker optC = true ->
  field_text salt = true -> field_text hash = true ->
  bound_to (head_sha p)
    (challenge_comment question optA optB optC salt hash,
     challenge_record salt hash)
    (quiz_posted (challenge_comment question optA optB optC salt hash) p w1).
Proof.
  intros Hp Hq Ha Hb Hc Hs Hh.
  destruct (challenge_record_is_quiz _ _ _
              (challenge_comment_metadata _ _ _ _ _ _ Hq Ha Hb Hc Hs Hh))
    as [Q M].
  unfold bound_to, open_challenge, quiz_posted, check_run_added, comment_added,
    logged.
  cbn [pr]. rewrite Hp. cbn [issue_comments head_sha]. split.
  - rewrite rev_unit, (quiz_record_found _ _ Q), M. reflexivity.
  - eexists; split; reflexivity.
Qed.

(** X8. The challenge generate mode posts is the one verify mode finds.
    When neither the question nor an option holds the text that opens a
    hidden record, and the salt and the hash are free of surrogates and of
    the closing text, the hidden record is read back from the posted comment
    exactly as written, and in the world the run leaves the scan binds to
    that comment, whatever comments the pull request had before. *)
Theorem X8_posted_challenge_is_open (c : LLMClient) (inputs : pydict)
    (token_hex : pystr) (w : World) (p : PullRequest)
    (q_data correct_answer question optA optB optC : pyval) (h : pystr) :
  pr w = Some p -> model_answers c inputs p q_data ->
  well_formed q_data correct_answer question optA optB optC ->
  compute_hash correct_answer (PStr token_hex) = Ok h ->
  clean_texts question optA optB optC token_hex h ->
  let body := challenge_comment question optA optB optC token_hex h in
  extract_metadata body = Ok (challenge_record token_hex h)
  /\ bound_to (head_sha p) (body, challenge_record token_hex h)
       (world_after (run_generate_mode c inputs token_hex w)).
Proof.
  intros Hp (Hf & Hk & Hc) Hw Hh (Nq & Na & Nb & Nc & Fs & Fh). cbv zeta. split.
  - apply challenge_comment_metadata; assumption.
  - rewrite (run_generate_mode_posted _ _ _ _ _ _ _ _ _ _ _ _ Hp Hf Hk Hc Hw Hh).
    apply quiz_posted_bound; trivial.
Qed.

(** ** Answering a posted challenge *)






Lemma label_is_normal (L : label) : str_upper (str_strip (label_text L)) = label_text L.
Proof. destruct L; reflexivity. Qed.

(** A label verifies against the commitment to a text it is the normal form
    of, whatever the digest. *)
Lemma answer_matches_own (s : pystr) (salt : pyval) (h : pystr) (L : label) :
  compute_hash (PStr s) salt = Ok h ->
  str_upper (str_strip s) = label_text L ->
  answer_matches (label_text L) salt (PStr h) = Ok true.
Proof.
  intros Hh E. unfold answer_matches.
  assert (Hl : compute_hash (PStr (label_text L)) salt = Ok h).
  { rewrite <- Hh. unfold compute_hash. rewrite label_is_normal, E. reflexivity. }
  rewrite Hl. cbn [py_eq_str]. rewrite str_eqb_refl. reflexivity.
Qed.

Lemma reply_label_is_label (body a : pystr) :
  reply_label body = Some a -> exists L, a = label_text L.
Proof.
  intros H. destruct (reply_label_Some _ _ H) as (letter & Hl & ->).
  apply re_match_answer_spec in Hl.
  destruct Hl as (ws & l & rest & _ & _ & _ & Hl & ->).
  apply upper_answer_letter, Hl.
Qed.

Lemma verdict_comment_no_metadata (body a : pystr) (m : bool) :
  reply_label body = Some a -> no_metadata (verdict_comment a m) = true.
Proof.
  intros H. destruct (reply_label_is_label _ _ H) as [L ->].
  destruct m; [apply confirmation_no_metadata | apply rejection_no_metadata].
Qed.

(** One reply in a world bound to a challenge: the verdict, and the world
    still bound to the same challenge. *)
Lemma reply_judged (sha quiz : pystr) (metadata expected_hash salt : pyval)
    (body a : pystr) (w : World) (m : bool) :
  bound_to sha (quiz, metadata) w ->
  py_getitem metadata (lit "hash") = Ok expected_hash ->
  py_getitem metadata (lit "salt") = Ok salt ->
  plain_reply body a ->
  answer_matches a salt expected_hash = Ok m ->
  fst (reply body w) = Returned tt
  /\ bound_to sha (quiz, metadata) (world_after (reply body w))
  /\ check_runs (world_after (reply body w)) = check_runs w ++ [verdict_run sha m]
  /\ (exists p p', pr w = Some p /\ pr (world_after (reply body w)) = Some p'
        /\ issue_comments p' = issue_comments p ++ [body; verdict_comment a m]).
Proof.
  intros Hb Hh Hsalt [Ha Hn] Hm. unfold reply.
  pose proof (bound_to_comment_added _ _ _ _ Hn Hb) as Hb'.
  rewrite (verdict _ _ _ _ _ _ _ _ m Hb' Hh Hsalt Ha Hm).
  cbv zeta. cbn [fst world_after snd].
  pose proof (verdict_comment_no_metadata _ _ m Ha) as Hv.
  split; [reflexivity|]. split; [|split].
  - destruct Hb' as [Ho (p & Hp & Hs)].
    assert (E : forall lvl msg w0 run,
              open_challenge
                (check_run_added run
                   (comment_added (verdict_comment a m) (logged lvl msg w0)))
              = open_challenge w0).
    { intros lvl msg w0 run.
      change (open_challenge (comment_added (verdict_comment a m) (logged lvl msg w0))
              = open_challenge w0).
      rewrite open_challenge_comment_added by exact Hv. reflexivity. }
    split.
    + destruct m; unfold verdict_comment in E; rewrite E; exact Ho.
    + cbn in Hp. destruct m; cbn; rewrite Hp;
        (eexists; split; [reflexivity | exact Hs]).
  - destruct m; reflexivity.
  - destruct Hb as [_ (p & Hp & _)].
    destruct m; cbn; rewrite Hp;
      (do 2 eexists; split; [reflexivity|]; split; [reflexivity|];
       cbn; rewrite <- app_assoc; reflexivity).
Qed.




(** ** Series of replies *)

Lemma replies_judged (sha quiz : pystr) (metadata expected_hash salt : pyval)
    (judged : list (pystr * bool)) :
  py_getitem metadata (lit "hash") = Ok expected_hash ->
  py_getitem metadata (lit "salt") = Ok salt ->
  Forall (fun bm => exists a, plain_reply (fst bm) a
                      /\ answer_matches a salt expected_hash = Ok (snd bm))
    judged ->
  forall w,
    bound_to sha (quiz, metadata) w ->
    bound_to sha (quiz, metadata) (replies (map fst judged) w)
    /\ check_runs (replies (map fst judged) w) =
       check_runs w ++ map (fun bm => verdict_run sha (snd bm)) judged.
Proof.
  intros Hh Hsalt. induction 1 as [|[b m] judged (a & Hp & Hm) _ IH]; intros w Hb.
  - cbn. rewrite app_nil_r. auto.
  - cbn [fst snd] in Hp, Hm.
    destruct (reply_judged _ _ _ _ _ _ _ _ _ Hb Hh Hsalt Hp Hm)
      as (_ & Hb' & Hc & _).
    cbn [replies map fst snd]. destruct (IH _ Hb') as [IH1 IH2].
    split; [exact IH1|]. rewrite IH2, Hc, <- app_assoc. reflexivity.
Qed.

(** X11. Every reply is judged on its own against the open challenge.  In a
    world bound to a challenge, after any series of replies, right and wrong
    in any order (each read as a label and carrying no hidden record), the
    challenge is still the open one and the check runs have grown by one per
    reply, successful where the label matched and failed where it did not.
    So a verdict is not final: a wrong reply after a right one leaves a
    failed check run as the latest. *)
Theorem X11_each_reply_judged_on_its_own (sha quiz : pystr)
    (metadata expected_hash salt : pyval) (judged : list (pystr * bool))
    (w : World) :
  bound_to sha (quiz, metadata) w ->
  py_getitem metadata (lit "hash") = Ok expected_hash ->
  py_getitem metadata (lit "salt") = Ok salt ->
  Forall (fun bm => exists a, plain_reply (fst bm) a
                      /\ answer_matches a salt expected_hash = Ok (snd bm))
    judged ->
  bound_to sha (quiz, metadata) (replies (map fst judged) w)
  /\ check_runs (replies (map fst judged) w) =
     check_runs w ++ map (fun bm => verdict_run sha (snd bm)) judged
  /\ (forall right wrong a a',
        plain_reply right a -> answer_matches a salt expected_hash = Ok true ->
        plain_reply wrong a' -> answer_matches a' salt expected_hash = Ok false ->
        check_runs (replies [right; wrong] w) =
        check_runs w ++ [success_run sha; failure_run sha]).
Proof.
  intros Hb Hh Hsalt Hj. split; [|split].
  - apply (replies_judged _ _ _ _ _ _ Hh Hsalt Hj w Hb).
  - apply (replies_judged _ _ _ _ _ _ Hh Hsalt Hj w Hb).
  - intros right wrong a a' H1 H2 H3 H4.
    apply (replies_judged sha quiz metadata expected_hash salt
             [(right, true); (wrong, false)] Hh Hsalt); [|exact Hb].
    constructor; [exists a; auto|]. constructor; [exists a'; auto | constructor].
Qed.

(** ** What verify mode can do to the pull request *)

(** Only the body of the comment in the event matters. *)
Lemma run_verify_mode_body (event comment : pyval) (s : pystr) (w : World) :
  py_getitem event (lit "comment") = Ok comment ->
  py_getitem comment (lit "body") = Ok (PStr s) ->
  run_verify_mode event w = run_verify_mode (comment_event s) w.
Proof.
  intros H1 H2. unfold run_verify_mode, comment_event, bind, lift, logger.
  rewrite H1. cbn [ret]. unfold ret at 1 2. cbv beta iota. rewrite H2. reflexivity.
Qed.

Lemma run_verify_mode_event_error (event : pyval) (w : World) :
  (forall comment s,
     py_getitem event (lit "comment") = Ok comment ->
     py_getitem comment (lit "body") = Ok (PStr s) -> False) ->
  exists e,
    run_verify_mode event w =
    (Raised e, logged INFO (lit "Starting Verify Mode") w).
Proof.
  intros H. unfold run_verify_mode, bind, lift, logger, ret, raise.
  destruct (py_getitem event (lit "comment")) as [comment|e]; [|eauto].
  cbv beta iota.
  destruct (py_getitem comment (lit "body")) as [raw_body|e] eqn:B; [|eauto].
  cbv beta iota.
  destruct raw_body; cbn [py_strip]; eauto.
  exfalso. exact (H comment s eq_refl B).
Qed.

Lemma verify_mode_effects (body : pystr) (w : World) :
  let r := run_verify_mode (comment_event body) w in
  llm_requests (world_after r) = llm_requests w
  /\ ((exists p L m,
         pr w = Some p /\ fst r = Returned tt
         /\ pr (world_after r) =
            Some {| head_sha := head_sha p; pr_files := pr_files p;
                    issue_comments :=
                      issue_comments p ++ [verdict_comment (label_text L) m] |}
         /\ check_runs (world_after r) =
            check_runs w ++ [verdict_run (head_sha p) m])
      \/ ((forall u, fst r <> Returned u) /\ untouched w (world_after r))).
Proof.
  cbv zeta. destruct (re_match_answer (str_strip body)) as [letter|] eqn:E.
  - assert (HL : exists L, str_upper letter = label_text L).
    { apply (reply_label_is_label body). unfold reply_label. rewrite E. reflexivity. }
    destruct HL as [L HL].
    rewrite (run_verify_mode_cases _ _ _ E). cbv zeta. rewrite HL.
    destruct (pr w) as [p|] eqn:P;
      [|split; [reflexivity | right; split; [discriminate | split; reflexivity]]].
    destruct (find_quiz_comment (rev (issue_comments p))) as [[[qc metadata]|]|e];
      try (split; [reflexivity | right; split; [discriminate | split; reflexivity]]).
    destruct (py_getitem metadata (lit "hash")) as [eh|e];
      try (split; [reflexivity | right; split; [discriminate | split; reflexivity]]).
    destruct (py_getitem metadata (lit "salt")) as [salt|e];
      try (split; [reflexivity | right; split; [discriminate | split; reflexivity]]).
    destruct (answer_matches (label_text L) salt eh) as [m|e];
      try (split; [reflexivity | right; split; [discriminate | split; reflexivity]]).
    destruct m; (split; [reflexivity|]); left; exists p, L;
      [exists true | exists false];
      (split; [reflexivity|]); (split; [reflexivity|]);
      cbn; rewrite P; split; reflexivity.
  - rewrite (run_verify_mode_ignored _ _ E).
    split; [reflexivity | right; split; [discriminate | split; reflexivity]].
Qed.

(** X12. Whatever the event and the history, verify mode does one of two
    things to the pull request.  Either it returns normally, having added
    exactly one comment and exactly one check run on the head commit, which
    are the confirmation with a successful run or the rejection with a failed
    run; or it ends otherwise (exit or exception) and then no comment and no
    check run was added.  It never changes the files, the head commit or the
    earlier comments, and it never calls the model. *)
Theorem X12_verify_mode_all_or_nothing (event : pyval) (w : World) :
  let r := run_verify_mode event w in
  llm_requests (world_after r) = llm_requests w
  /\ ((exists p L m,
         pr w = Some p /\ fst r = Returned tt
         /\ pr (world_after r) =
            Some {| head_sha := head_sha p; pr_files := pr_files p;
                    issue_comments :=
                      issue_comments p ++ [verdict_comment (label_text L) m] |}
         /\ check_runs (world_after r) =
            check_runs w ++ [verdict_run (head_sha p) m])
      \/ ((forall u, fst r <> Returned u) /\ untouched w (world_after r))).
Proof.
  cbv zeta.
  destruct (py_getitem event (lit "comment")) as [comment|e] eqn:C.
  - destruct (py_getitem comment (lit "body")) as [[| | | |s| |]|e] eqn:B;
      try (destruct (run_verify_mode_event_error event w) as [e' ->];
           [intros comment' s' C' B'; rewrite C in C'; injection C' as <-;
            rewrite B in B'; discriminate B'
           |split; [reflexivity | right; split; [discriminate | split; reflexivity]]]).
    rewrite (run_verify_mode_body _ _ _ _ C B). apply verify_mode_effects.
  - destruct (run_verify_mode_event_error event w) as [e' ->];
      [intros comment' s' C'; rewrite C in C'; discriminate C'|].
    split; [reflexivity | right; split; [discriminate | split; reflexivity]].
Qed.

(** ** Comments that carry a quiz record of their own *)


(** The newest comment, when it is a quiz record, is the open challenge. *)
Lemma newest_record_bound (c : pystr) (w : World) (p : PullRequest) :
  pr w = Some p -> is_quiz_record c = true ->
  bound_to (head_sha p) (c, metadata_of c) (comment_added c w).
Proof.
  intros Hp Q. unfold bound_to, open_challenge, comment_added. cbn [pr].
  rewrite Hp. cbn [issue_comments head_sha]. split.
  - rewrite rev_unit. apply quiz_record_found, Q.
  - eexists; split; reflexivity.
Qed.


Lemma str_strip_tight (c : codepoint) (s : pystr) (d : codepoint) :
  is_space c = false -> is_space d = false ->
  str_strip (c :: s ++ [d]) = c :: s ++ [d].
Proof.
  intros Hc Hd. unfold str_strip, str_rstrip. cbn [str_lstrip]. rewrite Hc.
  cbn [rev]. rewrite rev_app_distr. cbn [rev app str_lstrip]. rewrite Hd.
  cbn [rev]. rewrite !rev_app_distr. cbn [rev app].
  rewrite rev_involutive. reflexivity.
Qed.

Lemma self_certifying_label (L : label) (salt hash : pystr) :
  reply_label (self_certifying L salt hash) = Some (label_text L).
Proof.
  assert (E : exists l rest,
            self_certifying L salt hash
            = lit "/answer" ++ [32] ++ l :: rest ++ [62]
            /\ is_answer_letter l = true /\ str_upper [l] = label_text L).
  { unfold self_certifying, create_hidden_metadata.
    change (lit " -->") with ([32; 45; 45] ++ [62]).
    change (lit "/answer ") with (lit "/answer" ++ [32]).
    destruct L; cbn [label_text];
      [exists 65 | exists 66 | exists 67];
      exists (lit " " ++ lit "<!-- readguard_meta: "
                ++ json_dumps (challenge_record salt hash) ++ [32; 45; 45]);
      (split; [|split; reflexivity]);
      repeat (rewrite <- app_assoc; cbn [app]); reflexivity. }
  destruct E as (l & rest & E & Hl & Hu).
  unfold reply_label.
  assert (S : str_strip (self_certifying L salt hash) = self_certifying L salt hash).
  { rewrite E. vm_compute (lit _). cbn [app].
    change (47 :: 97 :: 110 :: 115 :: 119 :: 101 :: 114 :: 32 :: l :: rest ++ [62])
      with (47 :: (97 :: 110 :: 115 :: 119 :: 101 :: 114 :: 32 :: l :: rest) ++ [62]).
    apply str_strip_tight; reflexivity. }
  rewrite S.
  assert (R : re_match_answer (self_certifying L salt hash) = Some [l]).
  { apply re_match_answer_spec. exists [32], l, (rest ++ [62]).
    split; [exact E|]. split; [discriminate|]. split; [reflexivity|].
    split; [exact Hl | reflexivity]. }
  rewrite R, Hu. reflexivity.
Qed.

Lemma self_certifying_record (L : label) (salt hash : pystr) :
  field_text salt = true -> field_text hash = true ->
  extract_metadata (self_certifying L salt hash) = Ok (challenge_record salt hash).
Proof.
  intros Hs Hh. unfold self_certifying.
  rewrite <- (app_nil_r (create_hidden_metadata (challenge_record salt hash))).
  rewrite !app_assoc. rewrite <- (app_assoc _ _ []).
  apply record_embedded; trivial. destruct L; reflexivity.
Qed.

(** X14. The scan does not ask who wrote a comment, and the reply itself is
    part of the history it scans.  A reply that answers with a label and
    carries its own hidden record, committing to that very label under a
    salt of its choice, is confirmed with a successful check run, whatever
    challenge the pull request holds and whatever its answer is. *)
Theorem X14_reply_with_own_record_is_confirmed (L : label) (salt h : pystr)
    (w : World) (p : PullRequest) :
  pr w = Some p ->
  field_text salt = true -> field_text h = true ->
  compute_hash (PStr (label_text L)) (PStr salt) = Ok h ->
  let body := self_certifying L salt h in
  reply_label body = Some (label_text L)
  /\ fst (reply body w) = Returned tt
  /\ check_runs (world_after (reply body w)) =
     check_runs w ++ [success_run (head_sha p)]
  /\ pr (world_after (reply body w)) =
     Some {| head_sha := head_sha p; pr_files := pr_files p;
             issue_comments :=
               issue_comments p ++ [body; confirmation (label_text L)] |}.
Proof.
  intros Hp Hs Hh Hc. cbv zeta.
  pose proof (self_certifying_label L salt h) as Ha.
  destruct (challenge_record_is_quiz _ _ _ (self_certifying_record L _ _ Hs Hh))
    as [Q M].
  pose proof (newest_record_bound _ _ _ Hp Q) as Hb. rewrite M in Hb.
  assert (Hm : answer_matches (label_text L) (PStr salt) (PStr h) = Ok true).
  { apply (answer_matches_own (label_text L)); [exact Hc | apply label_is_normal]. }
  split; [exact Ha|]. unfold reply.
  rewrite (verdict _ _ _ (PStr h) (PStr salt) _ _ _ true Hb eq_refl eq_refl Ha Hm).
  cbv zeta. split; [reflexivity|]. split; [reflexivity|].
  cbn. rewrite Hp. cbn. rewrite <- app_assoc. reflexivity.
Qed.

Lemma quiz_body_question (question optA optB optC : pyval) (hidden : pystr) :
  exists rest,
    quiz_body question optA optB optC hidden =
    quiz_head ++ py_str question ++ rest.
Proof.
  unfold quiz_body, quiz_head, unlines. cbn [flat_map].
  eexists. repeat rewrite <- app_assoc. cbn [app]. reflexivity.
Qed.

Lemma quiz_head_clean (pre : pystr) :
  str_contains META_OPEN pre = false ->
  str_contains META_OPEN (quiz_head ++ pre) = false.
Proof.
  intros H. unfold quiz_head, unlines. cbn [flat_map].
  vm_compute (lit _). unfold NL. repeat (rewrite <- app_assoc; cbn [app]).
  change META_OPEN with (60 :: tl META_OPEN) in *.
  repeat (apply str_contains_cons_intro; [reflexivity|]).
  exact H.
Qed.

(** X15. The text of the question goes into the comment as the model gave
    it, before the hidden record, and the first hidden record of a comment is
    the one that is read.  So when the question text itself holds a complete
    hidden record, with nothing of the opening marker before it, the posted
    comment is read as carrying that record, not the salt and hash the run
    computed: the scan binds replies to the record inside the question. *)
Theorem X15_record_in_question_text_wins (pre post salt' h' : pystr)
    (optA optB optC : pyval) (salt h : pystr) (older : list pystr) :
  str_contains META_OPEN pre = false ->
  field_text salt' = true -> field_text h' = true ->
  let question :=
    PStr (pre ++ create_hidden_metadata (challenge_record salt' h') ++ post) in
  let body := challenge_comment question optA optB optC salt h in
  extract_metadata body = Ok (challenge_record salt' h')
  /\ find_quiz_comment (body :: older) =
     Ok (Some (body, challenge_record salt' h')).
Proof.
  intros Hpre Hs Hh. cbv zeta.
  assert (E : extract_metadata
                (challenge_comment
                   (PStr (pre ++ create_hidden_metadata (challenge_record salt' h')
                            ++ post)) optA optB optC salt h)
              = Ok (challenge_record salt' h')).
  { unfold challenge_comment.
    destruct (quiz_body_question
                (PStr (pre ++ create_hidden_metadata (challenge_record salt' h')
                         ++ post)) optA optB optC
                (create_hidden_metadata (challenge_record salt h)))
      as [rest ->].
    cbn [py_str]. rewrite <- !app_assoc. rewrite (app_assoc quiz_head pre).
    apply record_embedded; [apply quiz_head_clean, Hpre | exact Hs | exact Hh]. }
  split; [exact E|].
  destruct (challenge_record_is_quiz _ _ _ E) as [Q M].
  rewrite (quiz_record_found _ _ Q), M. reflexivity.
Qed.

(** ** Constructing the client *)

Lemma LLMClient_init_known (unicode_lower : pystr -> pystr)
    (prov api_key : pystr) (m : option pystr)
    (OpenAI : pystr -> pystr -> pyval -> pystr -> option pystr)
    (GenerativeModel : pystr -> pystr -> pystr -> option pystr)
    (OpenAI_error : pystr -> pystr -> pyval -> pystr -> pystr)
    (GenerativeModel_error : pystr -> pystr -> pystr -> pystr) (c : LLMClient) :
  LLMClient_init unicode_lower prov api_key m OpenAI GenerativeModel
    OpenAI_error GenerativeModel_error = Ok c ->
  known_provider c = true /\ provider c = str_lower unicode_lower prov
  /\ model c <> []
  /\ (forall name, m = Some name -> name <> [] -> model c = name).
Proof.
  unfold LLMClient_init, known_provider.
  destruct (str_eqb (str_lower unicode_lower prov) (lit "openai")) eqn:E1;
    [|destruct (str_eqb (str_lower unicode_lower prov) (lit "gemini")) eqn:E2;
      [|discriminate]];
    intros H; injection H as <-; cbn [provider model];
    rewrite ?E1, ?E2; (split; [reflexivity|]); (split; [reflexivity|]);
    (split; [destruct m as [[|x name]|]; discriminate|]);
    intros name -> Hn; (destruct name; [contradiction | reflexivity]).
Qed.

(** X16. A client can only be constructed for the providers "openai" and
    "gemini", whose name is taken in any mix of cases; any other name raises
    [ValueError].  The model is the one given, or, when none or an empty one
    is given, "gpt-4o" for OpenAI and "gemini-2.0-flash-exp" for Gemini.  So
    a constructed client always dispatches: every question it is asked sends
    exactly one request. *)
Theorem X16_constructed_client_dispatches (unicode_lower : pystr -> pystr)
    (prov api_key : pystr) (m : option pystr)
    (OpenAI : pystr -> pystr -> pyval -> pystr -> option pystr)
    (GenerativeModel : pystr -> pystr -> pystr -> option pystr)
    (OpenAI_error : pystr -> pystr -> pyval -> pystr -> pystr)
    (GenerativeModel_error : pystr -> pystr -> pystr -> pystr) :
  let made :=
    LLMClient_init unicode_lower prov api_key m OpenAI GenerativeModel
      OpenAI_error GenerativeModel_error in
  (str_lower unicode_lower prov <> lit "openai" ->
   str_lower unicode_lower prov <> lit "gemini" ->
   made = Err ValueError)
  /\ (str_lower unicode_lower prov = lit "openai" ->
      exists c, made = Ok c /\ provider c = lit "openai"
        /\ (m = None \/ m = Some [] -> model c = lit "gpt-4o"))
  /\ (str_lower unicode_lower prov = lit "gemini" ->
      exists c, made = Ok c /\ provider c = lit "gemini"
        /\ (m = None \/ m = Some [] -> model c = lit "gemini-2.0-flash-exp"))
  /\ (forall c,
        made = Ok c ->
        (forall name, m = Some name -> name <> [] -> model c = name)
        /\ known_provider c = true
        /\ forall diff_text difficulty system_prompt custom_instructions w,
             llm_requests
               (world_after
                  (generate_question c diff_text difficulty system_prompt
                     custom_instructions w)) =
             llm_requests w
               ++ [(chosen_prompt difficulty system_prompt custom_instructions,
                    diff_text)]).
Proof.
  cbv zeta. split; [|split; [|split]].
  - intros H1 H2. unfold LLMClient_init.
    rewrite (str_eqb_neq _ _ H1), (str_eqb_neq _ _ H2). reflexivity.
  - intros H. unfold LLMClient_init. rewrite H.
    change (str_eqb (lit "openai") (lit "openai")) with true. cbv iota.
    eexists. split; [reflexivity|]. split; [reflexivity|].
    intros [-> | ->]; reflexivity.
  - intros H. unfold LLMClient_init. rewrite H.
    change (str_eqb (lit "gemini") (lit "openai")) with false.
    change (str_eqb (lit "gemini") (lit "gemini")) with true. cbv iota.
    eexists. split; [reflexivity|]. split; [reflexivity|].
    intros [-> | ->]; reflexivity.
  - intros c H.
    destruct (LLMClient_init_known _ _ _ _ _ _ _ _ _ H) as (K & _ & _ & Hm).
    split; [exact Hm|]. split; [exact K|].
    intros diff_text difficulty system_prompt custom_instructions w.
    rewrite generate_question_eq. cbv zeta. rewrite K.
    destruct (parsed_completion c _ diff_text); reflexivity.
Qed.

End Program.

(** * The theorems at sample inputs

    The runtime's tables are instantiated with [plain_digest], [caseless]
    and [opaque_repr]. *)

Lemma C1_commitment_verifies_witness :
  exists h,
    compute_hash plain_digest caseless opaque_repr
      (PStr (label_text LabelB)) (PStr sample_salt) = Ok h
    /\ answer_matches plain_digest caseless opaque_repr
         (label_text LabelB) (PStr sample_salt) (PStr h) = Ok true
    /\ answer_matches plain_digest caseless opaque_repr
         (label_text LabelA) (PStr sample_salt) (PStr h) = Ok false.
Proof.
  destruct (C1_commitment_verifies plain_digest caseless opaque_repr
              LabelB (PStr sample_salt) eq_refl) as (h & H1 & H2 & H3 & _).
  exists h. split; [exact H1|]. split; [exact H2|].
  apply H3.
  - intros x y E. exact E.
  - discriminate.
Defined.

Lemma C3_metadata_round_trip_witness :
  extract_metadata ample_stack
    (create_hidden_metadata opaque_repr (challenge_record (lit "3f9a") (lit "5e1f")))
  = Ok (challenge_record (lit "3f9a") (lit "5e1f"))
  /\ extract_metadata ample_stack
       (create_hidden_metadata opaque_repr
          (challenge_record (lit "a ->" ++ DQ ++ [92; 10; 233; 128512])
             (lit "X-Y_Z")))
     = Ok (challenge_record (lit "a ->" ++ DQ ++ [92; 10; 233; 128512])
             (lit "X-Y_Z")).
Proof.
  split.
  - exact (proj2 (C3_metadata_round_trip opaque_repr ample_stack)
             (lit "3f9a") (lit "5e1f") eq_refl eq_refl).
  - exact (proj1 (C3_metadata_round_trip opaque_repr ample_stack)
             (lit "a ->" ++ DQ ++ [92; 10; 233; 128512]) (lit "X-Y_Z")
             eq_refl eq_refl).
Defined.

Lemma C4_decode_raises_past_interpreter_limits_witness :
  extract_metadata tight_stack (META_OPEN ++ repeat 91 101 ++ META_CLOSE)
  = Err RecursionError
  /\ extract_metadata ample_stack (lit "looks good, thanks") = Ok PNone
  /\ extract_metadata ample_stack (lit "<!-- readguard_meta: {} --") = Ok PNone
  /\ extract_metadata ample_stack (lit "<!-- readguard_meta: {oops -->")
     = Ok PNone
  /\ extract_metadata ample_stack
       (lit "see " ++ META_OPEN ++ lit "[7]" ++ META_CLOSE
          ++ lit " and <!-- readguard_meta: [8] -->")
     = Ok (PList [PInt 7]).
Proof.
  split.
  - refine (proj1 (proj2 (C4_decode_raises_past_interpreter_limits tight_stack))
              101%nat _ eq_refl).
    unfold safe_nesting. lia.
  - destruct (C4_decode_raises_past_interpreter_limits ample_stack)
      as (_ & _ & H2 & H3 & H4 & H5).
    split; [|split; [|split]].
    + exact (H2 (lit "looks good, thanks") eq_refl).
    + exact (H3 (lit "<!-- readguard_meta: {} --") eq_refl).
    + exact (H4 (lit "<!-- readguard_meta: {oops -->") (lit "{oops")
               eq_refl eq_refl).
    + exact (H5 (lit "see ") (lit "[7]") (lit " and <!-- readguard_meta: [8] -->")
               eq_refl eq_refl eq_refl).
Defined.

Lemma C6_reply_recognition_witness :
  fst (run_verify_mode plain_digest caseless opaque_repr ample_stack
         (comment_event (lit "looks good, thanks")) (sample_world [] []))
  = Exited 0%Z
  /\ exists L,
       reply_label caseless (lit "/answer c") = Some (lit "C")
       /\ lit "C" = label_text L.
Proof.
  destruct (C6_reply_recognition plain_digest caseless opaque_repr ample_stack)
    as (_ & _ & _ & H4 & H5).
  split.
  - rewrite (proj1 (H4 (lit "looks good, thanks") (sample_world [] []) eq_refl)).
    reflexivity.
  - destruct (H5 (lit "/answer c") (lit "C") eq_refl) as [L HL].
    exists L. split; [reflexivity | exact HL].
Defined.

Lemma C9_reply_anchored_at_start_witness :
  reply_label caseless (lit "/answer   cheese") = Some (lit "C")
  /\ reply_label caseless (lit "my /answer B") = None.
Proof.
  destruct (C9_reply_anchored_at_start caseless) as (H1 & _ & _ & H4).
  split.
  - apply (proj2 (H1 (lit "/answer   cheese") (lit "C"))).
    exists (lit "   "), 99, (lit "heese"). repeat split. discriminate.
  - exact (H4 (lit "my /answer B") eq_refl).
Defined.

Lemma C7_no_open_challenge_witness :
  is_failure
    (fst (run_verify_mode plain_digest caseless opaque_repr ample_stack
            (comment_event (lit "/answer B"))
            (sample_world [lit "please review"; stray_comment] [])))
  /\ run_verify_mode plain_digest caseless opaque_repr ample_stack
       (comment_event (lit "/answer B")) (sample_world [lit "please review"] [])
     = (Exited 1%Z,
        logged ERROR (lit "Could not find a ReadGuard quiz comment.")
          (logged INFO (lit "Received answer: B")
             (logged INFO (lit "Starting Verify Mode")
                (sample_world [lit "please review"] [])))).
Proof.
  split.
  - refine (proj1 (C7_no_open_challenge plain_digest caseless opaque_repr ample_stack
                     (lit "/answer B") (lit "B")
                     (sample_world [lit "please review"; stray_comment] [])
                     eq_refl _)).
    intros p H. injection H as <-. repeat constructor.
  - refine (proj2 (proj2 (C7_no_open_challenge plain_digest caseless opaque_repr
      ample_stack
                            (lit "/answer B") (lit "B")
                            (sample_world [lit "please review"] [])
                            eq_refl _)) _ eq_refl _).
    + intros p H. injection H as <-. repeat constructor.
    + repeat constructor.
Defined.

Lemma C10_no_patch_no_effect_witness :
  run_generate_mode plain_digest caseless opaque_repr
      ample_stack terse_error silent_client []
    (lit "00") (sample_world [] [binary_file])
  = (Returned tt,
     logged INFO (lit "No diff found or no changes. Exiting.")
       (logged INFO (lit "Starting Generate Mode") (sample_world [] [binary_file]))).
Proof.
  refine (proj1 (C10_no_patch_no_effect plain_digest caseless opaque_repr
      ample_stack terse_error
                   silent_client [] (lit "00") (sample_world [] [binary_file])
                   _ eq_refl _)).
  repeat constructor.
Defined.

Lemma C8_generator_failure_witness :
  fst (run_generate_mode plain_digest caseless opaque_repr
      ample_stack terse_error silent_client []
         (lit "00") (sample_world [] [patched_file]))
  = Exited 1%Z
  /\ untouched (sample_world [] [patched_file])
       (world_after
          (run_generate_mode plain_digest caseless opaque_repr
              ample_stack terse_error silent_client []
             (lit "00") (sample_world [] [patched_file]))).
Proof.
  destruct (C8_generator_failure plain_digest caseless opaque_repr
      ample_stack terse_error
              silent_client [] (lit "00") (sample_world [] [patched_file])
              _ eq_refl eq_refl) as (H1 & _ & _ & _).
  destruct (H1 PNone _ eq_refl eq_refl) as [E U].
  rewrite E. split; [reflexivity | exact U].
Defined.


(** ** Further properties at sample inputs *)

Lemma X1_commitment_ignores_padding_and_case_witness :
  compute_hash plain_digest caseless opaque_repr
    (PStr ([32; 9] ++ lit "maybe" ++ [10])) (PStr sample_salt)
  = compute_hash plain_digest caseless opaque_repr
      (PStr (lit "maybe")) (PStr sample_salt)
  /\ compute_hash plain_digest caseless opaque_repr
       (PStr ([32; 9] ++ label_lower LabelB ++ [10])) (PStr sample_salt)
     = compute_hash plain_digest caseless opaque_repr
         (PStr (label_text LabelB)) (PStr sample_salt).
Proof.
  exact (X1_commitment_ignores_padding_and_case plain_digest caseless
           opaque_repr [32; 9] (lit "maybe") [10] (PStr sample_salt) LabelB
           eq_refl eq_refl).
Defined.

Lemma X2_diff_text_is_the_patched_files_witness :
  fold_left add_file [binary_file; patched_file] []
  = flat_map file_block (filter has_patch [binary_file; patched_file])
  /\ (exists p, patch patched_file = Some p /\ p <> []
        /\ file_block patched_file
           = lit "File: " ++ filename patched_file ++ NL ++ p ++ NL ++ NL)
  /\ fold_left add_file ([patched_file] ++ binary_file :: [patched_file]) []
     = fold_left add_file ([patched_file] ++ [patched_file]) []
  /\ fold_left add_file [binary_file] [] = [].
Proof.
  destruct (X2_diff_text_is_the_patched_files [binary_file; patched_file])
    as (H1 & H2 & H3 & _).
  split; [exact H1|]. split; [exact (H2 patched_file eq_refl)|].
  split; [exact (H3 [patched_file] binary_file [patched_file] eq_refl)|].
  exact (proj2 (proj2 (proj2 (proj2
           (X2_diff_text_is_the_patched_files [binary_file])))) eq_refl).
Defined.

Lemma X3_asking_the_model_is_contained_witness :
  let ask c :=
    generate_question opaque_repr ample_stack terse_error c (lit "+x = 1")
      (PStr (lit "hard")) PNone PNone fresh_world in
  fst (ask (answering_client (lit "{}"))) = Returned (PDict [])
  /\ llm_requests (world_after (ask (answering_client (lit "{}"))))
     = [(chosen_prompt opaque_repr (PStr (lit "hard")) PNone PNone,
         lit "+x = 1")]
  /\ log (world_after (ask silent_client))
     = [(ERROR, lit "OpenAI error: Connection error.")]
  /\ log (world_after (ask (answering_client (lit "{oops"))))
     = [(ERROR, lit "OpenAI error: Expecting value")]
  /\ ask unknown_client = (Returned PNone, fresh_world).
Proof.
  intros ask.
  pose (at_client c :=
          X3_asking_the_model_is_contained opaque_repr ample_stack terse_error
            c (lit "+x = 1") (PStr (lit "hard")) PNone PNone fresh_world).
  destruct (proj1 (proj2 (proj2 (at_client (answering_client (lit "{}")))))
              eq_refl) as (R & P & _).
  split; [exact (proj1 (P (PDict []) eq_refl))|]. split; [exact R|].
  split; [|split].
  - exact (proj2 (proj2 (proj2 (proj1 (proj2 (proj2 (at_client silent_client)))
                                  eq_refl)) eq_refl)).
  - exact (proj2 (proj2 (proj2
             (proj1 (proj2 (proj2 (at_client (answering_client (lit "{oops")))))
                eq_refl)) eq_refl)).
  - exact (proj2 (proj2 (proj2 (at_client unknown_client))) eq_refl).
Defined.

Lemma X4_one_request_with_truncated_diff_witness :
  llm_requests
    (world_after
       (run_generate_mode plain_digest caseless opaque_repr
           ample_stack terse_error silent_client []
          (lit "00") fresh_world))
  = [(run_prompt opaque_repr [], file_block patched_file)].
Proof.
  destruct (X4_one_request_with_truncated_diff plain_digest caseless opaque_repr
      ample_stack terse_error
              silent_client [] (lit "00") fresh_world _ eq_refl eq_refl eq_refl)
    as (H1 & _ & H3).
  rewrite H1. cbv zeta in H3. rewrite H3; [reflexivity|].
  vm_compute. discriminate.
Defined.

Lemma X5_system_prompt_overrides_witness :
  let inputs := [(lit "system_prompt", PStr (lit "Ask about x."));
                 (lit "difficulty", PStr (lit "hard"))] in
  let inputs' := [(lit "custom_instructions", PStr (lit "Be brief."));
                  (lit "system_prompt", PStr (lit "Ask about x."))] in
  run_prompt opaque_repr inputs = PStr (lit "Ask about x.")
  /\ run_generate_mode plain_digest caseless opaque_repr
      ample_stack terse_error silent_client inputs
       (lit "00") fresh_world
     = run_generate_mode plain_digest caseless opaque_repr
         ample_stack terse_error silent_client inputs'
         (lit "00") fresh_world
  /\ run_prompt opaque_repr [(lit "system_prompt", PStr [])]
     = PStr (default_system_prompt opaque_repr (PStr (lit "medium")) []).
Proof.
  intros inputs inputs'.
  destruct (proj1 (X5_system_prompt_overrides plain_digest caseless opaque_repr
      ample_stack terse_error
                     silent_client inputs inputs' (lit "00") fresh_world
                     (PStr (lit "Ask about x.")))
              eq_refl eq_refl eq_refl) as [H1 H2].
  split; [exact H1|]. split; [exact H2|].
  exact (proj2 (X5_system_prompt_overrides plain_digest caseless opaque_repr
      ample_stack terse_error
                  silent_client [(lit "system_prompt", PStr [])] []
                  (lit "00") fresh_world PNone) eq_refl eq_refl).
Defined.

Lemma X6_challenge_posted_witness :
  let c := answering_client (completion_of opaque_repr sample_q_data) in
  let r := run_generate_mode plain_digest caseless opaque_repr
      ample_stack terse_error c []
             sample_salt fresh_world in
  fst r = Returned tt
  /\ check_runs (world_after r) = [pending_run (lit "c0ffee")]
  /\ pr (world_after r)
     = Some {| head_sha := lit "c0ffee"; pr_files := [patched_file];
               issue_comments :=
                 [challenge_comment opaque_repr
                    (PStr (lit "What does x become?")) (PStr (lit "0"))
                    (PStr (lit "1")) (PStr (lit "2")) sample_salt
                    (sample_hash plain_digest caseless opaque_repr)] |}.
Proof.
  intros c r.
  destruct (X6_challenge_posted plain_digest caseless opaque_repr
      ample_stack terse_error c []
              sample_salt fresh_world _ sample_q_data (PStr (lit "B"))
              (PStr (lit "What does x become?")) (PStr (lit "0"))
              (PStr (lit "1")) (PStr (lit "2"))
              (sample_hash plain_digest caseless opaque_repr)
              eq_refl
              (conj eq_refl (conj eq_refl eq_refl))
              (conj eq_refl (conj eq_refl (conj eq_refl
                 (conj eq_refl (conj eq_refl eq_refl)))))
              eq_refl)
    as (H1 & H2 & H3 & _).
  split; [exact H1|]. split; [exact H3 | exact H2].
Defined.

Lemma X7_malformed_response_posts_nothing_witness :
  let w := fresh_world in
  run_generate_mode plain_digest caseless opaque_repr ample_stack terse_error
    (answering_client (lit "[1]")) [] sample_salt w
  = (Raised TypeError, asked_world opaque_repr [] fresh_pr w)
  /\ run_generate_mode plain_digest caseless opaque_repr ample_stack terse_error
       (answering_client (lit "{" ++ DQ ++ lit "question" ++ DQ ++ lit ": 1}"))
       [] sample_salt w
     = (Raised KeyError, asked_world opaque_repr [] fresh_pr w).
Proof.
  intros w. split.
  - refine (proj1 (X7_malformed_response_posts_nothing plain_digest caseless opaque_repr
      ample_stack terse_error (answering_client (lit "[1]")) [] sample_salt
                     w fresh_pr (PList [PInt 1]) eq_refl
                     (conj eq_refl (conj eq_refl eq_refl)) eq_refl) _).
    intros d; discriminate.
  - exact (proj1 (proj2
             (X7_malformed_response_posts_nothing plain_digest caseless opaque_repr
                 ample_stack terse_error
                (answering_client
                   (lit "{" ++ DQ ++ lit "question" ++ DQ ++ lit ": 1}"))
                [] sample_salt w fresh_pr
                (PDict [(lit "question", PInt 1)]) eq_refl
                (conj eq_refl (conj eq_refl eq_refl)) eq_refl))
             [(lit "question", PInt 1)] eq_refl eq_refl).
Defined.

Lemma X8_posted_challenge_is_open_witness :
  let c := answering_client (completion_of opaque_repr sample_q_data) in
  let body :=
    challenge_comment opaque_repr (PStr (lit "What does x become?"))
      (PStr (lit "0")) (PStr (lit "1")) (PStr (lit "2")) sample_salt
      (sample_hash plain_digest caseless opaque_repr) in
  open_challenge ample_stack
    (world_after
       (run_generate_mode plain_digest caseless opaque_repr
           ample_stack terse_error c [] sample_salt
          (sample_world [sample_quiz plain_digest caseless opaque_repr;
                         stray_comment] [patched_file])))
  = Ok (Some (body,
              challenge_record sample_salt
                (sample_hash plain_digest caseless opaque_repr))).
Proof.
  intros c body.
  exact (proj1 (proj2
           (X8_posted_challenge_is_open plain_digest caseless opaque_repr
               ample_stack terse_error c []
              sample_salt
              (sample_world [sample_quiz plain_digest caseless opaque_repr;
                             stray_comment] [patched_file])
              _ sample_q_data (PStr (lit "B"))
              (PStr (lit "What does x become?")) (PStr (lit "0"))
              (PStr (lit "1")) (PStr (lit "2"))
              (sample_hash plain_digest caseless opaque_repr)
              eq_refl
              (conj eq_refl (conj eq_refl eq_refl))
              (conj eq_refl (conj eq_refl (conj eq_refl
                 (conj eq_refl (conj eq_refl eq_refl)))))
              eq_refl
              (conj eq_refl (conj eq_refl (conj eq_refl
                 (conj eq_refl (conj eq_refl eq_refl)))))))).
Defined.



Lemma X11_each_reply_judged_on_its_own_witness :
  let quiz := sample_quiz plain_digest caseless opaque_repr in
  check_runs
    (replies plain_digest caseless opaque_repr ample_stack
       [lit "/answer B"; lit "/answer a"; lit "/answer b"]
       (sample_world [quiz] []))
  = [success_run (lit "c0ffee"); failure_run (lit "c0ffee");
     success_run (lit "c0ffee")].
Proof.
  intros quiz.
  refine (proj1 (proj2
            (X11_each_reply_judged_on_its_own plain_digest caseless opaque_repr
                ample_stack
               (lit "c0ffee") quiz
               (challenge_record sample_salt
                  (sample_hash plain_digest caseless opaque_repr))
               (PStr (sample_hash plain_digest caseless opaque_repr))
               (PStr sample_salt)
               [(lit "/answer B", true); (lit "/answer a", false);
                (lit "/answer b", true)]
               (sample_world [quiz] []) _ eq_refl eq_refl _))).
  - split; [reflexivity | eexists; split; reflexivity].
  - constructor; [exists (lit "B"); repeat split|].
    constructor; [exists (lit "A"); repeat split|].
    constructor; [exists (lit "B"); repeat split | constructor].
Defined.

Lemma X12_verify_mode_all_or_nothing_witness :
  let quiz := sample_quiz plain_digest caseless opaque_repr in
  let r := run_verify_mode plain_digest caseless opaque_repr ample_stack
             (PDict [(lit "comment", PNone)]) (sample_world [quiz] []) in
  (forall u, fst r <> Returned u)
  /\ untouched (sample_world [quiz] []) (world_after r).
Proof.
  intros quiz r.
  destruct (X12_verify_mode_all_or_nothing plain_digest caseless opaque_repr ample_stack
              (PDict [(lit "comment", PNone)]) (sample_world [quiz] []))
    as [_ [(p & L & m & _ & R & _) | H]].
  - discriminate R.
  - exact H.
Defined.


Lemma X14_reply_with_own_record_is_confirmed_witness :
  let quiz := sample_quiz plain_digest caseless opaque_repr in
  let body := self_certifying opaque_repr LabelA (lit "00") (lit "A:00") in
  fst (reply plain_digest caseless opaque_repr
      ample_stack body (sample_world [quiz] []))
  = Returned tt
  /\ check_runs
       (world_after
          (reply plain_digest caseless opaque_repr
              ample_stack body (sample_world [quiz] [])))
     = [success_run (lit "c0ffee")]
  /\ fst (reply plain_digest caseless opaque_repr ample_stack (lit "/answer A")
            (sample_world [quiz] []))
     = Returned tt
  /\ check_runs
       (world_after
          (reply plain_digest caseless opaque_repr ample_stack (lit "/answer A")
             (sample_world [quiz] [])))
     = [failure_run (lit "c0ffee")].
Proof.
  intros quiz body.
  destruct (X14_reply_with_own_record_is_confirmed plain_digest caseless opaque_repr
      ample_stack LabelA (lit "00") (lit "A:00")
              (sample_world [quiz] []) _ eq_refl eq_refl eq_refl eq_refl)
    as (_ & H2 & H3 & _).
  split; [exact H2|]. split; [exact H3|]. split; reflexivity.
Defined.

Lemma X15_record_in_question_text_wins_witness :
  let planted := create_hidden_metadata opaque_repr
                   (challenge_record (lit "00") (lit "A:00")) in
  extract_metadata ample_stack
    (challenge_comment opaque_repr (PStr (lit "Why? " ++ planted))
       (PStr (lit "0")) (PStr (lit "1")) (PStr (lit "2")) sample_salt
       (sample_hash plain_digest caseless opaque_repr))
  = Ok (challenge_record (lit "00") (lit "A:00")).
Proof.
  intros planted.
  assert (E := proj1 (X15_record_in_question_text_wins opaque_repr ample_stack
                        (lit "Why? ") [] (lit "00") (lit "A:00")
                        (PStr (lit "0")) (PStr (lit "1")) (PStr (lit "2"))
                        sample_salt
                        (sample_hash plain_digest caseless opaque_repr) []
                        eq_refl eq_refl eq_refl)).
  rewrite app_nil_r in E. exact E.
Defined.

Lemma X16_constructed_client_dispatches_witness :
  (exists c,
     LLMClient_init unchanged (lit "OpenAI") (lit "key") None
       (fun _ _ _ _ => None) (fun _ _ _ => None)
       (fun _ _ _ _ => []) (fun _ _ _ => []) = Ok c
     /\ provider c = lit "openai" /\ model c = lit "gpt-4o")
  /\ LLMClient_init unchanged (lit "llama") (lit "key") None
       (fun _ _ _ _ => None) (fun _ _ _ => None)
       (fun _ _ _ _ => []) (fun _ _ _ => []) = Err ValueError.
Proof.
  split.
  - destruct (proj1 (proj2
                (X16_constructed_client_dispatches opaque_repr
                    ample_stack terse_error unchanged
                   (lit "OpenAI") (lit "key") None
                   (fun _ _ _ _ => None) (fun _ _ _ => None)
       (fun _ _ _ _ => []) (fun _ _ _ => []))) eq_refl)
      as (c & H1 & H2 & H3).
    exists c. split; [exact H1|]. split; [exact H2|]. apply H3. left. reflexivity.
  - apply (proj1 (X16_constructed_client_dispatches opaque_repr
      ample_stack terse_error unchanged
                    (lit "llama") (lit "key") None
                    (fun _ _ _ _ => None) (fun _ _ _ => None)
       (fun _ _ _ _ => []) (fun _ _ _ => [])));
      discriminate.
Defined.
